(** * Air-pollution observation station: poll cycle, station matcher and
      notification formatter of [src/app.py]

    A shallow embedding of the pure core of the FastAPI service
    ([haversine], [find_nearest], [build_embed], [check_and_notify]) and
    the properties its specification states about it.

    Modelling conventions.
    - A record is a Python [dict] with string keys: [gmap string value].
      Field values are the JSON scalars the upstream API delivers.
    - Python exceptions are explicit: fallible code returns [result A],
      and [try]/[except] is a [match] on it.
    - Python text is a byte string ([string]), the UTF-8 encoding of the
      [str]; [int()] reads it as CPython does, decimal digits and white
      space of any script included.
    - A Python float is a finite number, an infinity or NaN ([pyfloat]).
      Every arithmetic operation rounds its exact result; the rounding and
      the functions of the C library ([sin], [cos], [atan2], [pow]) belong
      to the platform and are the fields of [FloatRuntime].  No property
      of them is assumed unless a theorem names it ([IEEE]).  The two
      zeros of the float format are not told apart; [haversine] never
      hands a negative zero to a function that would tell them apart.
    - A float stored in a record is a finite rational, as a JSON number
      within the range of the floats is.  The infinities and NaN come in
      through [float()] on text; records that hold them as numbers are
      not modelled.
    - [float()] on text and [repr] of a float belong to the Python runtime;
      they are parameters of the development.
    - The module variable [_last_import], the upstream response and the
      webhook are threaded explicitly through [check_and_notify]. *)

From Stdlib Require Import ZArith QArith Qreals Reals Lra Lia.
From Stdlib Require Import String Ascii List Sorted Permutation.
From stdpp Require Import base option list gmap strings pretty.

Open Scope string_scope.
Open Scope Z_scope.

(** ** Python values and exceptions *)

Inductive value : Type :=
| VNone
| VBool (b : bool)
| VInt (z : Z)
| VFloat (q : Q)
| VStr (s : string).

(** A record of the upstream API, a Python [dict]. *)
Abbreviation dict := (gmap string value).

Inductive exn : Type :=
| KeyError
| TypeError
| ValueError
| OverflowError
| ZeroDivisionError
| RequestError
| HTTPStatusError
| JSONDecodeError.

Inductive result (A : Type) : Type :=
| Ok (a : A)
| Raise (e : exn).

Arguments Ok {A} a.
Arguments Raise {A} e.

Definition bind {A B : Type} (m : result A) (k : A -> result B) : result B :=
  match m with
  | Ok a => k a
  | Raise e => Raise e
  end.

Notation "'do' x <- m ; k" := (bind m (fun x => k))
  (at level 10, x name, m at level 100, k at level 200).

(** ** Python floats *)

Inductive pyfloat : Type :=
| Finite (x : R)
| PosInf
| NegInf
| NaN.

(** What the platform contributes to float arithmetic.
    - [rnd x] is the float nearest to the real number [x], an infinity
      when [x] is beyond the range of the format.
    - [libm_sin], [libm_cos]: the C library on a finite argument.
    - [libm_atan2]: the C library's [atan2], defined on every pair.
    - [libm_pow]: the C library's [pow] on a positive base other than 1
      and a finite exponent; an infinity is its overflow.
    - [deg_to_rad]: the constant [math.radians] multiplies by, pi / 180
      as the platform computes it. *)
Class FloatRuntime : Type := {
  rnd : R -> pyfloat;
  libm_sin : R -> R;
  libm_cos : R -> R;
  libm_atan2 : pyfloat -> pyfloat -> pyfloat;
  libm_pow : R -> R -> pyfloat;
  deg_to_rad : R;
  deg_to_rad_pos : (0 < deg_to_rad)%R
}.

(** [a <= b] and [a < b] on floats: false as soon as one side is NaN. *)
Definition float_le (a b : pyfloat) : Prop :=
  match a, b with
  | NaN, _ => False
  | _, NaN => False
  | NegInf, _ => True
  | _, PosInf => True
  | Finite x, Finite y => (x <= y)%R
  | Finite _, NegInf => False
  | PosInf, Finite _ => False
  | PosInf, NegInf => False
  end.

Definition float_lt (a b : pyfloat) : Prop :=
  match a, b with
  | NaN, _ => False
  | _, NaN => False
  | Finite x, Finite y => (x < y)%R
  | NegInf, NegInf => False
  | NegInf, _ => True
  | PosInf, _ => False
  | Finite _, PosInf => True
  | Finite _, NegInf => False
  end.

#[local] Instance float_le_dec : RelDecision float_le.
Proof.
  intros [x | | |] [y | | |]; cbn;
    first [apply Rle_dec | left; exact I | right; exact (fun H => H)].
Defined.

#[local] Instance float_lt_dec : RelDecision float_lt.
Proof.
  intros [x | | |] [y | | |]; cbn;
    first [apply Rlt_dec | left; exact I | right; exact (fun H => H)].
Defined.

(** [- a]. *)
Definition fneg (a : pyfloat) : pyfloat :=
  match a with
  | Finite x => Finite (- x)
  | PosInf => NegInf
  | NegInf => PosInf
  | NaN => NaN
  end.

(** The infinity [i] times, or divided by, the finite number [x]. *)
Definition inf_times (i : pyfloat) (x : R) : pyfloat :=
  if Rlt_dec 0 x then i
  else if Rlt_dec x 0 then fneg i
  else NaN.

Section FloatArithmetic.
Context {rt : FloatRuntime}.

(** [a + b]. *)
Definition fadd (a b : pyfloat) : pyfloat :=
  match a, b with
  | NaN, _ => NaN
  | _, NaN => NaN
  | Finite x, Finite y => rnd (x + y)
  | PosInf, NegInf => NaN
  | NegInf, PosInf => NaN
  | PosInf, _ => PosInf
  | NegInf, _ => NegInf
  | Finite _, PosInf => PosInf
  | Finite _, NegInf => NegInf
  end.

(** [a - b]. *)
Definition fsub (a b : pyfloat) : pyfloat :=
  match a, b with
  | NaN, _ => NaN
  | _, NaN => NaN
  | Finite x, Finite y => rnd (x - y)
  | PosInf, PosInf => NaN
  | NegInf, NegInf => NaN
  | PosInf, _ => PosInf
  | NegInf, _ => NegInf
  | Finite _, PosInf => NegInf
  | Finite _, NegInf => PosInf
  end.

(** [a * b]. *)
Definition fmul (a b : pyfloat) : pyfloat :=
  match a, b with
  | NaN, _ => NaN
  | _, NaN => NaN
  | Finite x, Finite y => rnd (x * y)
  | Finite x, PosInf => inf_times PosInf x
  | Finite x, NegInf => inf_times NegInf x
  | PosInf, Finite y => inf_times PosInf y
  | NegInf, Finite y => inf_times NegInf y
  | PosInf, PosInf => PosInf
  | NegInf, NegInf => PosInf
  | PosInf, NegInf => NegInf
  | NegInf, PosInf => NegInf
  end.

(** [a / b]: a zero divisor is a [ZeroDivisionError], whatever [a]. *)
Definition fdiv (a b : pyfloat) : result pyfloat :=
  match b with
  | Finite y =>
      if Req_dec_T y 0 then Raise ZeroDivisionError
      else
        match a with
        | Finite x => Ok (rnd (x / y))
        | PosInf => Ok (inf_times PosInf y)
        | NegInf => Ok (inf_times NegInf y)
        | NaN => Ok NaN
        end
  | PosInf | NegInf =>
      match a with
      | Finite _ => Ok (Finite 0)
      | PosInf | NegInf | NaN => Ok NaN
      end
  | NaN => Ok NaN
  end.

(** [a ** 2].  The interpreter settles NaN, the infinities, zero and a
    base of magnitude 1 itself and hands the magnitude of any other base
    to the C library; an overflow there is an [OverflowError]. *)
Definition float_pow2 (a : pyfloat) : result pyfloat :=
  match a with
  | NaN => Ok NaN
  | PosInf | NegInf => Ok PosInf
  | Finite x =>
      if Req_dec_T x 0 then Ok (Finite 0)
      else if Req_dec_T (Rabs x) 1 then Ok (Finite 1)
      else
        match libm_pow (Rabs x) 2 with
        | Finite y => Ok (Finite y)
        | PosInf | NegInf => Raise OverflowError
        | NaN => Ok NaN
        end
  end.

(** [math.radians]. *)
Definition math_radians (x : pyfloat) : pyfloat := fmul x (Finite deg_to_rad).

(** [math.sin] and [math.cos]: an infinite argument is a [ValueError],
    NaN gives NaN. *)
Definition math_sin (x : pyfloat) : result pyfloat :=
  match x with
  | Finite r => Ok (Finite (libm_sin r))
  | PosInf | NegInf => Raise ValueError
  | NaN => Ok NaN
  end.

Definition math_cos (x : pyfloat) : result pyfloat :=
  match x with
  | Finite r => Ok (Finite (libm_cos r))
  | PosInf | NegInf => Raise ValueError
  | NaN => Ok NaN
  end.

(** [math.sqrt]: a negative argument is a [ValueError]. *)
Definition math_sqrt (x : pyfloat) : result pyfloat :=
  match x with
  | Finite r => if Rlt_dec r 0 then Raise ValueError else Ok (rnd (sqrt r))
  | PosInf => Ok PosInf
  | NegInf => Raise ValueError
  | NaN => Ok NaN
  end.

(** [math.atan2(y, x)]. *)
Definition math_atan2 (y x : pyfloat) : pyfloat := libm_atan2 y x.

End FloatArithmetic.

(** ** Builtins of the Python runtime *)

Module Py.

(** [d[k]]: raises [KeyError] when the key is absent. *)
Definition getitem (d : dict) (k : string) : result value :=
  match d !! k with
  | Some v => Ok v
  | None => Raise KeyError
  end.

(** [d.get(k, dflt)]. *)
Definition get (d : dict) (k : string) (dflt : value) : value :=
  match d !! k with
  | Some v => v
  | None => dflt
  end.

(** The number a [bool], [int] or [float] compares as. *)
Definition num_of (v : value) : option Q :=
  match v with
  | VBool b => Some (inject_Z (if b then 1 else 0))
  | VInt z => Some (inject_Z z)
  | VFloat q => Some q
  | VNone | VStr _ => None
  end.

(** [a == b]: numbers compare by value across [bool], [int] and [float],
    text compares with text, [None] only equals [None]. *)
Definition eq (a b : value) : bool :=
  match a, b with
  | VNone, VNone => true
  | VStr s, VStr t => String.eqb s t
  | _, _ =>
      match num_of a, num_of b with
      | Some x, Some y => Qeq_bool x y
      | _, _ => false
      end
  end.

(** [a != b]. *)
Definition ne (a b : value) : bool := negb (eq a b).

(** *** [int()] *)

(** The code points of a text, decoded from UTF-8; a byte that is not
    part of a well-formed sequence decodes to U+FFFD. *)
Definition continuation (b : ascii) : option N :=
  let n := N_of_ascii b in
  if ((0x80 <=? n) && (n <=? 0xBF))%N then Some (n - 0x80)%N else None.

Fixpoint code_points (l : list ascii) : list N :=
  match l with
  | [] => []
  | b0 :: l1 =>
      let n0 := N_of_ascii b0 in
      if (n0 <? 0x80)%N then n0 :: code_points l1
      else
        match l1 with
        | b1 :: l2 =>
            match continuation b1 with
            | Some c1 =>
                if ((0xC2 <=? n0) && (n0 <=? 0xDF))%N then
                  ((n0 - 0xC0) * 0x40 + c1)%N :: code_points l2
                else
                  match l2 with
                  | b2 :: l3 =>
                      match continuation b2 with
                      | Some c2 =>
                          if ((0xE0 <=? n0) && (n0 <=? 0xEF))%N then
                            ((n0 - 0xE0) * 0x1000 + c1 * 0x40 + c2)%N :: code_points l3
                          else
                            match l3 with
                            | b3 :: l4 =>
                                match continuation b3 with
                                | Some c3 =>
                                    if ((0xF0 <=? n0) && (n0 <=? 0xF4))%N then
                                      ((n0 - 0xF0) * 0x40000 + c1 * 0x1000
                                       + c2 * 0x40 + c3)%N :: code_points l4
                                    else 0xFFFD%N :: code_points l1
                                | None => 0xFFFD%N :: code_points l1
                                end
                            | [] => 0xFFFD%N :: code_points l1
                            end
                      | None => 0xFFFD%N :: code_points l1
                      end
                  | [] => 0xFFFD%N :: code_points l1
                  end
            | None => 0xFFFD%N :: code_points l1
            end
        | [] => [0xFFFD%N]
        end
  end.

(** The white space beyond ASCII (Unicode 14, as in CPython 3.11). *)
Definition unicode_spaces : list N :=
  [0x85; 0xA0; 0x1680; 0x2000; 0x2001; 0x2002; 0x2003; 0x2004; 0x2005; 0x2006;
   0x2007; 0x2008; 0x2009; 0x200A; 0x2028; 0x2029; 0x202F; 0x205F; 0x3000]%N.

(** The digit zero of every script beyond ASCII; the digits one to nine
    of the script follow it (Unicode 14, as in CPython 3.11). *)
Definition unicode_zeros : list N :=
  [0x660; 0x6F0; 0x7C0; 0x966; 0x9E6; 0xA66; 0xAE6; 0xB66; 0xBE6; 0xC66;
   0xCE6; 0xD66; 0xDE6; 0xE50; 0xED0; 0xF20; 0x1040; 0x1090; 0x17E0; 0x1810;
   0x1946; 0x19D0; 0x1A80; 0x1A90; 0x1B50; 0x1BB0; 0x1C40; 0x1C50; 0xA620;
   0xA8D0; 0xA900; 0xA9D0; 0xA9F0; 0xAA50; 0xABF0; 0xFF10; 0x104A0; 0x10D30;
   0x11066; 0x110F0; 0x11136; 0x111D0; 0x112F0; 0x11450; 0x114D0; 0x11650;
   0x116C0; 0x11730; 0x118E0; 0x11950; 0x11C50; 0x11D50; 0x11DA0; 0x16A60;
   0x16AC0; 0x16B50; 0x1D7CE; 0x1D7D8; 0x1D7E2; 0x1D7EC; 0x1D7F6; 0x1E140;
   0x1E2F0; 0x1E950; 0x1FBF0]%N.

(** What [int()] and [float()] make of a code point before they parse: an
    ASCII character stays, white space becomes a space, a decimal digit
    of any script becomes the ASCII digit, anything else a question
    mark. *)
Definition ascii_of_code_point (cp : N) : ascii :=
  if (cp <? 0x80)%N then ascii_of_N cp
  else if bool_decide (cp ∈ unicode_spaces) then " "%char
  else
    match List.find (λ z, (z <=? cp) && (cp <? z + 10))%N unicode_zeros with
    | Some z => ascii_of_N (0x30 + (cp - z))
    | None => "?"%char
    end.

Definition ascii_text (s : string) : list ascii :=
  map ascii_of_code_point (code_points (list_ascii_of_string s)).

(** The white space [int()] and [float()] strip from ASCII text. *)
Definition is_space (c : ascii) : bool :=
  let n := nat_of_ascii c in
  (Nat.eqb n 32 || (Nat.leb 9 n && Nat.leb n 13))%bool.

Definition is_digit (c : ascii) : bool :=
  let n := nat_of_ascii c in
  (Nat.leb 48 n && Nat.leb n 57)%bool.

Definition digit_val (c : ascii) : Z := Z.of_nat (nat_of_ascii c) - 48.

Fixpoint lstrip (l : list ascii) : list ascii :=
  match l with
  | c :: l' => if is_space c then lstrip l' else l
  | [] => []
  end.

Definition strip (l : list ascii) : list ascii :=
  rev (lstrip (rev (lstrip l))).

(** Decimal digits, where a single underscore may separate two digits.
    [after_digit] tells whether the previous character was a digit. *)
Fixpoint digits (acc : Z) (after_digit : bool) (l : list ascii) : option Z :=
  match l with
  | [] => if after_digit then Some acc else None
  | c :: l' =>
      if is_digit c then digits (10 * acc + digit_val c) true l'
      else if (Ascii.eqb c "_" && after_digit)%bool then
        match l' with
        | [] => None
        | _ => digits acc false l'
        end
      else None
  end.

(** The interpreter's default limit on the number of digits of an integer
    read from or written as decimal text. *)
Definition int_max_str_digits : nat := 4300.

(** [int(s)] for text, base 10: surrounding white space, an optional sign,
    digits.  [None] stands for [ValueError], which is also what a text of
    more than [int_max_str_digits] digits gets. *)
Definition int_of_str (s : string) : option Z :=
  let text := strip (ascii_text s) in
  if (int_max_str_digits <? length (List.filter is_digit text))%nat then None
  else
    match text with
    | "-"%char :: l => Z.opp <$> digits 0 false l
    | "+"%char :: l => digits 0 false l
    | l => digits 0 false l
    end.

(** [int(v)].  A float is truncated towards zero. *)
Definition int (v : value) : result Z :=
  match v with
  | VNone => Raise TypeError
  | VBool b => Ok (if b then 1 else 0)
  | VInt z => Ok z
  | VFloat q => Ok (Z.quot (Qnum q) (Z.pos (Qden q)))
  | VStr s =>
      match int_of_str s with
      | Some z => Ok z
      | None => Raise ValueError
      end
  end.

Section Runtime.

Context {rt : FloatRuntime}.
(** [float(s)] for text: the float read, which may be an infinity or NaN;
    [None] for [ValueError]. *)
Variable float_of_str : string -> option pyfloat.
(** [repr(x)] of a float, as used by [str()] and f-strings. *)
Variable float_repr : Q -> string.

(** [float(v)].  An integer is rounded to the nearest float; one beyond
    the range of the floats is an [OverflowError]. *)
Definition float (v : value) : result pyfloat :=
  match v with
  | VNone => Raise TypeError
  | VBool b => Ok (Finite (if b then 1 else 0))
  | VInt z =>
      match rnd (IZR z) with
      | Finite x => Ok (Finite x)
      | PosInf | NegInf | NaN => Raise OverflowError
      end
  | VFloat q => Ok (Finite (Q2R q))
  | VStr s =>
      match float_of_str s with
      | Some x => Ok x
      | None => Raise ValueError
      end
  end.

(** [str(v)], the conversion an f-string applies to a replacement field.
    An integer of a record has come through JSON parsing and so has at
    most [int_max_str_digits] digits: writing it does not fail. *)
Definition str (v : value) : string :=
  match v with
  | VNone => "None"
  | VBool true => "True"
  | VBool false => "False"
  | VInt z => pretty z
  | VFloat q => float_repr q
  | VStr s => s
  end.

End Runtime.

End Py.

(** ** The application *)

Section Distance.
Context {rt : FloatRuntime}.

(** [haversine], in kilometres; [R_] is the Earth radius.  The steps are
    in the order in which Python evaluates lines 42-46: the first to fail
    decides the exception.  The integers 2, 1 and [R * 2] become floats
    without rounding. *)
Definition haversine (lat1 lon1 lat2 lon2 : pyfloat) : result pyfloat :=
  let R_ := 6371 in
  let φ1 := math_radians lat1 in
  let φ2 := math_radians lat2 in
  let Δφ := math_radians (fsub lat2 lat1) in
  let Δλ := math_radians (fsub lon2 lon1) in
  do half_Δφ <- fdiv Δφ (Finite 2);
  do sin_Δφ <- math_sin half_Δφ;
  do sin2_Δφ <- float_pow2 sin_Δφ;
  do cos_φ1 <- math_cos φ1;
  do cos_φ2 <- math_cos φ2;
  do half_Δλ <- fdiv Δλ (Finite 2);
  do sin_Δλ <- math_sin half_Δλ;
  do sin2_Δλ <- float_pow2 sin_Δλ;
  let a := fadd sin2_Δφ (fmul (fmul cos_φ1 cos_φ2) sin2_Δλ) in
  do sqrt_a <- math_sqrt a;
  do sqrt_1a <- math_sqrt (fsub (Finite 1) a);
  Ok (fmul (Finite (IZR (R_ * 2))) (math_atan2 sqrt_a sqrt_1a)).

End Distance.

(** [list.sort(key=...)] on float keys: a stable sort that compares keys
    with [<] only. *)
Section Sort.
Context {A : Type} (key : A -> pyfloat).

Fixpoint sort_insert (x : A) (l : list A) : list A :=
  match l with
  | [] => [x]
  | y :: l' =>
      if decide (float_lt (key y) (key x)) then y :: sort_insert x l'
      else x :: y :: l'
  end.

Fixpoint list_sort (l : list A) : list A :=
  match l with
  | [] => []
  | x :: l' => sort_insert x (list_sort l')
  end.
End Sort.

Section Matcher.

Context {rt : FloatRuntime}.
Variable float_of_str : string -> option pyfloat.

(** Line 52: [rl, rn = float(r["latitude"]), float(r["longitude"])]. *)
Definition coordinates (r : dict) : result (pyfloat * pyfloat) :=
  do vlat <- Py.getitem r "latitude";
  do rl <- Py.float float_of_str vlat;
  do vlon <- Py.getitem r "longitude";
  do rn <- Py.float float_of_str vlon;
  Ok (rl, rn).

(** The [for] loop of [find_nearest], with [candidates] as accumulator.
    The [try] covers line 52 only: what [haversine] raises on line 55 ends
    the loop and the call. *)
Fixpoint find_nearest_loop (records : list dict) (lat lon max_km : pyfloat)
    (candidates : list (dict * pyfloat)) : result (list (dict * pyfloat)) :=
  match records with
  | [] => Ok candidates
  | r :: records' =>
      match coordinates r with
      | Raise _ => find_nearest_loop records' lat lon max_km candidates
      | Ok (rl, rn) =>
          do d <- haversine lat lon rl rn;
          if decide (float_le d max_km)
          then find_nearest_loop records' lat lon max_km (candidates ++ [(r, d)])
          else find_nearest_loop records' lat lon max_km candidates
      end
  end.

(** [find_nearest]; every caller passes [max_km], its default of 10 is
    not used. *)
Definition find_nearest (records : list dict) (lat lon max_km : pyfloat)
  : result (list dict) :=
  do candidates <- find_nearest_loop records lat lon max_km [];
  Ok (map fst (list_sort snd candidates)).

End Matcher.

(** ** The notification payload *)

Record field : Type := Field {
  f_name : string;
  f_value : value;
  f_inline : bool
}.

Record embed : Type := Embed {
  e_title : string;
  e_description : string;
  e_color : Z;
  e_timestamp : value;
  e_fields : list field;
  e_footer_text : string
}.

Record payload : Type := Payload {
  p_username : string;
  p_content : value;
  p_embeds : list embed
}.

(** The remark and colour of each branch of lines 83-96. *)
Definition remark_no_data : string := "無資料".
Definition remark_good : string := "👍 空氣品質良好，適合戶外活動!".
Definition remark_moderate : string := "👌 普通，長時間戶外要注意體感。".
Definition remark_sensitive : string := "⚠️ 對敏感族群不佳，請減少戶外活動。".
Definition remark_unhealthy : string := "⚠️ 對所有族群不健康，建議減少外出。".
Definition remark_very_unhealthy : string := "🚨 非常不健康，建議避免外出。".
Definition remark_hazardous : string := "☠️ 危害健康，應留在室內並採取防護措施。".

Definition gray : Z := 0x808080.
Definition green : Z := 0x008000.
Definition yellow : Z := 0xFFFF00.
Definition orange : Z := 0xFFA500.
Definition red : Z := 0xFF0000.
Definition purple : Z := 0x800080.
Definition brown : Z := 0xA52A2A.

(** Lines 78-81: [int(aqi)] under [try]/[except], [None] on any failure. *)
Definition aqi_value (aqi : value) : option Z :=
  match Py.int aqi with
  | Ok z => Some z
  | Raise _ => None
  end.

(** Lines 83-96: the [if]/[elif] cascade giving [(remark, color)]. *)
Definition severity (aqi_val : option Z) : string * Z :=
  match aqi_val with
  | None => (remark_no_data, gray)
  | Some v =>
      if v <=? 50 then (remark_good, green)
      else if v <=? 100 then (remark_moderate, yellow)
      else if v <=? 150 then (remark_sensitive, orange)
      else if v <=? 200 then (remark_unhealthy, red)
      else if v <=? 300 then (remark_very_unhealthy, purple)
      else (remark_hazardous, brown)
  end.

Section Formatter.

Variable float_repr : Q -> string.

(** [build_embed]: the two subscripts of line 98 are its only
    operations that can raise. *)
Definition build_embed (data : dict) : result payload :=
  let aqi := Py.get data "aqi" (VStr "N/A") in
  let aqi_val := aqi_value aqi in
  let '(remark, color) := severity aqi_val in
  do county <- Py.getitem data "county";
  do sitename <- Py.getitem data "sitename";
  let city := Py.str float_repr county ++ " / " ++ Py.str float_repr sitename in
  Ok {|
    p_username := "空氣小幫手 🌤️";
    p_content := VNone;
    p_embeds := [ {|
      e_title := "🌆 空氣品質快報";
      e_description := city ++ " 當前空氣品質數據如下:";
      e_color := color;
      e_timestamp := Py.get data "publishtime_iso" VNone;
      e_fields := [
        Field "地區" (VStr city) true;
        Field "AQI" aqi true;
        Field "狀態" (Py.get data "status" (VStr "N/A")) true;
        Field "PM2.5" (Py.get data "pm2.5" (VStr "N/A")) true;
        Field "PM10" (Py.get data "pm10" (VStr "N/A")) true;
        Field "O₃" (Py.get data "o3" (VStr "N/A")) true;
        Field "CO" (Py.get data "co" (VStr "N/A")) true;
        Field "SO₂" (Py.get data "so2" (VStr "N/A")) true;
        Field "NO₂" (Py.get data "no2" (VStr "N/A")) true;
        Field "風速(m/s)" (Py.get data "wind_speed" (VStr "N/A")) true;
        Field "風向(°)" (Py.get data "wind_direc" (VStr "N/A")) true;
        Field "更新時間" (Py.get data "publishtime" (VStr "N/A")) false;
        Field "📝 建議活動" (VStr remark) false
      ];
      e_footer_text := "由彭大帥團隊開發中"
    |} ]
  |}.

End Formatter.

(** ** The poll cycle *)

(** What the request of lines 63-74 comes back with: [client.get] raises,
    [raise_for_status] raises, [resp.json()] raises, or the body is a JSON
    object with or without a ["records"] entry. *)
Inductive upstream : Type :=
| Unreachable
| ErrorStatus
| BadBody
| Body (records : option (list dict)).

Definition fetch_all_records (u : upstream) : result (list dict) :=
  match u with
  | Unreachable => Raise RequestError
  | ErrorStatus => Raise HTTPStatusError
  | BadBody => Raise JSONDecodeError
  | Body (Some records) => Ok records
  | Body None => Ok []
  end.

(** What the webhook does with a POST: [requests.post] raises,
    [raise_for_status] raises, or the payload is accepted. *)
Inductive delivery : Type :=
| Lost
| Rejected
| Accepted.

(** The process as the poll cycle sees it: the module variable
    [_last_import], the payloads POSTed to the webhook so far and the
    errors printed so far. *)
Record world : Type := World {
  _last_import : value;
  posted : list payload;
  printed : list exn
}.

(** Process start: line 33, nothing posted, nothing printed. *)
Definition initial : world := World VNone [] [].

(** Lines 137-138: the test [newest != _last_import] and the assignment
    it guards.  The boolean tells whether the guarded block is entered. *)
Definition is_new_import (newest current : value) : bool * value :=
  if Py.ne newest current then (true, newest) else (false, current).

Section Poll.

Variable float_repr : Q -> string.
Variable webhook : payload -> delivery.

(** [send_to_discord]: the POST is issued, then its outcome may raise. *)
Definition send_to_discord (p : payload) (w : world) : world * result unit :=
  let w' := World (_last_import w) (posted w ++ [p]) (printed w) in
  match webhook p with
  | Lost => (w', Raise RequestError)
  | Rejected => (w', Raise HTTPStatusError)
  | Accepted => (w', Ok tt)
  end.

(** The body of the [try] block, lines 133-140. *)
Definition poll_body (u : upstream) (w : world) : world * result unit :=
  match fetch_all_records u with
  | Raise e => (w, Raise e)
  | Ok records =>
      match records with
      | [] => (w, Ok tt)
      | first :: _ =>
          match Py.getitem first "ImportDate" with
          | Raise e => (w, Raise e)
          | Ok newest =>
              let '(is_new, stored) := is_new_import newest (_last_import w) in
              let w1 := World stored (posted w) (printed w) in
              if is_new then
                match build_embed float_repr first with
                | Raise e => (w1, Raise e)
                | Ok p => send_to_discord p w1
                end
              else (w1, Ok tt)
          end
      end
  end.

(** [check_and_notify]: the [except] clause prints what the body raised. *)
Definition check_and_notify (u : upstream) (w : world) : world :=
  match poll_body u w with
  | (w', Ok _) => w'
  | (w', Raise e) => World (_last_import w') (posted w') (printed w' ++ [e])
  end.

End Poll.

(** ** The specification's side *)

(** The seven severity buckets of the specification's table. *)
Inductive bucket : Type :=
| NoData
| Good
| Moderate
| UnhealthySensitive
| UnhealthyAll
| VeryUnhealthy
| Hazardous.

(** The remark and colour the table gives to a bucket. *)
Definition bucket_style (b : bucket) : string * Z :=
  match b with
  | NoData => (remark_no_data, gray)
  | Good => (remark_good, green)
  | Moderate => (remark_moderate, yellow)
  | UnhealthySensitive => (remark_sensitive, orange)
  | UnhealthyAll => (remark_unhealthy, red)
  | VeryUnhealthy => (remark_very_unhealthy, purple)
  | Hazardous => (remark_hazardous, brown)
  end.

(** The table read as ranges: unparseable or missing, at most 50, 51-100,
    101-150, 151-200, 201-300, above 300. *)
Definition in_bucket (aqi_val : option Z) (b : bucket) : Prop :=
  match b, aqi_val with
  | NoData, None => True
  | Good, Some v => v <= 50
  | Moderate, Some v => 51 <= v <= 100
  | UnhealthySensitive, Some v => 101 <= v <= 150
  | UnhealthyAll, Some v => 151 <= v <= 200
  | VeryUnhealthy, Some v => 201 <= v <= 300
  | Hazardous, Some v => 300 < v
  | _, _ => False
  end.

(** The freshness tracker of the specification: two logical states and
    [isNewRevision], whose boolean is the answer and whose second component
    is the next state. *)
Inductive tracker : Type :=
| Unset
| Seen (revisionId : string).

Definition isNewRevision (revisionId : string) (t : tracker) : bool * tracker :=
  match t with
  | Unset => (true, Seen revisionId)
  | Seen r =>
      if String.eqb revisionId r then (false, Seen r)
      else (true, Seen revisionId)
  end.

(** How a tracker state is held in [_last_import]. *)
Definition stored (t : tracker) : value :=
  match t with
  | Unset => VNone
  | Seen r => VStr r
  end.

(** The names of the payload's fields, in the order of lines 108-120. *)
Definition field_layout : list string :=
  ["地區"; "AQI"; "狀態"; "PM2.5"; "PM10"; "O₃"; "CO"; "SO₂"; "NO₂"; "風速(m/s)"; "風向(°)"; "更新時間"; "📝 建議活動"].

(** The optional fields: the key of the record and the name it is shown
    under. *)
Definition optional_fields : list (string * string) :=
  [("status", "狀態"); ("pm2.5", "PM2.5"); ("pm10", "PM10"); ("o3", "O₃");
   ("co", "CO"); ("so2", "SO₂"); ("no2", "NO₂");
   ("wind_speed", "風速(m/s)"); ("wind_direc", "風向(°)");
   ("publishtime", "更新時間")].

Section Station.
Context {rt : FloatRuntime}.
Variable float_of_str : string -> option pyfloat.

(** The position a record gives: the floats its latitude and longitude
    convert to, when both are present and convert. *)
Definition position (r : dict) : option (pyfloat * pyfloat) :=
  match r !! "latitude", r !! "longitude" with
  | Some vlat, Some vlon =>
      match Py.float float_of_str vlat, Py.float float_of_str vlon with
      | Ok rl, Ok rn => Some (rl, rn)
      | _, _ => None
      end
  | _, _ => None
  end.

(** The haversine distance from the query point to a record: defined when
    the record gives a position and [haversine] returns on it. *)
Definition distance_to (lat lon : pyfloat) (r : dict) : option pyfloat :=
  match position r with
  | Some (rl, rn) =>
      match haversine lat lon rl rn with
      | Ok d => Some d
      | Raise _ => None
      end
  | None => None
  end.

(** What [haversine] raises on a record that gives a position, if it
    raises. *)
Definition failure_at (lat lon : pyfloat) (r : dict) : option exn :=
  match position r with
  | Some (rl, rn) =>
      match haversine lat lon rl rn with
      | Ok _ => None
      | Raise e => Some e
      end
  | None => None
  end.

End Station.

(** The finite floats of the platform are the real numbers that rounding
    leaves alone. *)
Definition representable {rt : FloatRuntime} (x : R) : Prop := rnd x = Finite x.

(** What is assumed of the platform where a theorem says so: rounding is
    odd, 0 and 1 are floats, and a number no larger in magnitude than a
    float rounds to a finite float; [deg_to_rad] is at most 1; the C
    library's sine is odd, its cosine stays within [[-1, 1]], and
    [atan2(0, 1)] is 0. *)
Class IEEE (rt : FloatRuntime) : Prop := {
  rnd_opp : forall x : R, rnd (- x) = fneg (rnd x);
  rnd_0 : representable 0;
  rnd_1 : representable 1;
  rnd_within : forall x y : R,
    representable x -> (Rabs y <= Rabs x)%R -> exists z : R, rnd y = Finite z;
  deg_to_rad_le_1 : (deg_to_rad <= 1)%R;
  libm_sin_odd : forall x : R, libm_sin (- x) = (- libm_sin x)%R;
  libm_cos_range : forall x : R, (Rabs (libm_cos x) <= 1)%R;
  libm_atan2_0_1 : libm_atan2 (Finite 0) (Finite 1) = Finite 0
}.

(** The square of the sine of half an angle given in degrees, as lines
    43-45 compute it twice. *)
Definition sin2_half {rt : FloatRuntime} (degrees : pyfloat) : result pyfloat :=
  do half <- fdiv (math_radians degrees) (Finite 2);
  do s <- math_sin half;
  float_pow2 s.

(** The haversine formula with Earth radius 6371 km, which the
    specification names: the radius times the central angle, the angle
    being twice the [atan2] of the square roots of [a] and [1 - a], where
    [a] is the haversine of the difference in latitude plus the product
    of the two cosines of latitude and the haversine of the difference in
    longitude. *)
Definition haversine_formula {rt : FloatRuntime} (lat1 lon1 lat2 lon2 : pyfloat)
  : result pyfloat :=
  do hav_lat <- sin2_half (fsub lat2 lat1);
  do cos_lat1 <- math_cos (math_radians lat1);
  do cos_lat2 <- math_cos (math_radians lat2);
  do hav_lon <- sin2_half (fsub lon2 lon1);
  let a := fadd hav_lat (fmul (fmul cos_lat1 cos_lat2) hav_lon) in
  do root_a <- math_sqrt a;
  do root_1a <- math_sqrt (fsub (Finite 1) a);
  Ok (fmul (Finite (6371 * 2)) (math_atan2 root_a root_1a)).

(** A float is infinite. *)
Definition infinite (x : pyfloat) : Prop := x = PosInf \/ x = NegInf.

(** ** A runtime to run the model on examples

    The exact runtime rounds nothing: its floats are all the real numbers,
    its sine, cosine and arc tangent are the mathematical ones.  [float()]
    reads decimal numerals: surrounding white space, an optional sign,
    digits with an optional fraction and an optional exponent, and the
    words for the infinities and NaN.  [repr] prints an integral float as
    Python does and any other float as a fraction. *)
Module Runtime.

(** [atan2] on the reals: the angle of the point [(x, y)] in [(-PI, PI]]. *)
Definition atan2 (y x : R) : R :=
  if Rlt_dec 0 x then atan (y / x)
  else if Rlt_dec x 0 then
    if Rle_dec 0 y then (atan (y / x) + PI)%R else (atan (y / x) - PI)%R
  else if Rlt_dec 0 y then (PI / 2)%R
  else if Rlt_dec y 0 then (- (PI / 2))%R
  else 0%R.

Definition float_atan2 (y x : pyfloat) : pyfloat :=
  match y, x with
  | NaN, _ => NaN
  | _, NaN => NaN
  | Finite y, Finite x => Finite (atan2 y x)
  | Finite _, PosInf => Finite 0
  | Finite y, NegInf => Finite (if Rle_dec 0 y then PI else - PI)
  | PosInf, Finite _ => Finite (PI / 2)
  | NegInf, Finite _ => Finite (- (PI / 2))
  | PosInf, PosInf => Finite (PI / 4)
  | NegInf, PosInf => Finite (- (PI / 4))
  | PosInf, NegInf => Finite (3 * PI / 4)
  | NegInf, NegInf => Finite (- (3 * PI / 4))
  end.

Definition exact : FloatRuntime.
Proof.
  refine {| rnd := Finite;
            libm_sin := sin;
            libm_cos := cos;
            libm_atan2 := float_atan2;
            libm_pow := fun x y => Finite (Rpower x y);
            deg_to_rad := (PI / 180)%R |}.
  pose proof PI_RGT_0. lra.
Defined.

(** Cuts [l] at the first character satisfying [p]. *)
Fixpoint cut (p : ascii -> bool) (l : list ascii)
  : list ascii * option (list ascii) :=
  match l with
  | [] => ([], None)
  | c :: l' =>
      if p c then ([], Some l')
      else let '(a, b) := cut p l' in (c :: a, b)
  end.

Definition is_dot (c : ascii) : bool := Ascii.eqb c ".".
Definition is_exp (c : ascii) : bool := (Ascii.eqb c "e" || Ascii.eqb c "E")%bool.

(** Digits that may be absent. *)
Definition opt_digits (l : list ascii) : option Z :=
  match l with
  | [] => Some 0
  | _ => Py.digits 0 false l
  end.

Definition signed (l : list ascii) : option Z :=
  match l with
  | "-"%char :: l' => Z.opp <$> Py.digits 0 false l'
  | "+"%char :: l' => Py.digits 0 false l'
  | _ => Py.digits 0 false l
  end.

Definition scale (m e : Z) : Q :=
  if 0 <=? e then inject_Z (m * 10 ^ e)
  else Qmake m (Z.to_pos (10 ^ (- e))).

Definition unsigned_float (l : list ascii) : option Q :=
  let '(mant, expo) := cut is_exp l in
  let '(ipart, fpart) := cut is_dot mant in
  let fdigits := default [] fpart in
  match ipart, fdigits with
  | [], [] => None
  | _, _ =>
      i ← opt_digits ipart;
      f ← opt_digits fdigits;
      e ← match expo with
          | None => Some 0
          | Some x => signed x
          end;
      let k := Z.of_nat (length (filter (λ c, Py.is_digit c = true) fdigits)) in
      Some (scale (i * 10 ^ k + f) (e - k))
  end.

(** What a text reads as, before it becomes a float. *)
Inductive numeral : Type :=
| Number (q : Q)
| Infinity (negative : bool)
| NotANumber.

Definition lower (c : ascii) : ascii :=
  let n := nat_of_ascii c in
  if (Nat.leb 65 n && Nat.leb n 90)%bool then ascii_of_nat (n + 32) else c.

(** The words [inf], [infinity] and [nan], in any case. *)
Definition word (l : list ascii) : option numeral :=
  let w := string_of_list_ascii (map lower l) in
  if (String.eqb w "inf" || String.eqb w "infinity")%bool then Some (Infinity false)
  else if String.eqb w "nan" then Some NotANumber
  else None.

Definition unsigned_numeral (l : list ascii) : option numeral :=
  match word l with
  | Some n => Some n
  | None => Number <$> unsigned_float l
  end.

Definition negate (n : numeral) : numeral :=
  match n with
  | Number q => Number (Qopp q)
  | Infinity negative => Infinity (negb negative)
  | NotANumber => NotANumber
  end.

Definition read_float (s : string) : option numeral :=
  match Py.strip (Py.ascii_text s) with
  | "-"%char :: l => negate <$> unsigned_numeral l
  | "+"%char :: l => unsigned_numeral l
  | l => unsigned_numeral l
  end.

Definition float_of_numeral (n : numeral) : pyfloat :=
  match n with
  | Number q => Finite (Q2R q)
  | Infinity false => PosInf
  | Infinity true => NegInf
  | NotANumber => NaN
  end.

Definition float_of_str (s : string) : option pyfloat :=
  float_of_numeral <$> read_float s.

Definition float_repr (q : Q) : string :=
  if Pos.eqb (Qden q) 1 then pretty (Qnum q) ++ ".0"
  else pretty (Qnum q) ++ "/" ++ pretty (Z.pos (Qden q)).

End Runtime.

(** Decisions over the reals, for [filter]. *)
#[local] Instance R_eq_dec : EqDecision R := Req_dec_T.

#[local] Instance Q_eq_dec : EqDecision Q.
Proof. solve_decision. Defined.

#[local] Instance value_eq_dec : EqDecision value.
Proof. solve_decision. Defined.

#[local] Instance pyfloat_eq_dec : EqDecision pyfloat.
Proof. solve_decision. Defined.

#[local] Instance exn_eq_dec : EqDecision exn.
Proof. solve_decision. Defined.

Section Reach.
Context {rt : FloatRuntime}.
Variable float_of_str : string -> option pyfloat.

(** A record is within reach when it has a distance and that distance is
    at most the radius. *)
Definition within (lat lon max_km : pyfloat) (r : dict) : Prop :=
  match distance_to float_of_str lat lon r with
  | Some d => float_le d max_km
  | None => False
  end.

#[local] Instance within_dec lat lon max_km r : Decision (within lat lon max_km r).
Proof.
  unfold within. destruct (distance_to float_of_str lat lon r);
    [apply float_le_dec | right; tauto].
Defined.

(** Two records in non-decreasing order of distance. *)
Definition nearer (lat lon : pyfloat) (r1 r2 : dict) : Prop :=
  match distance_to float_of_str lat lon r1, distance_to float_of_str lat lon r2 with
  | Some d1, Some d2 => float_le d1 d2
  | _, _ => False
  end.

(** What one turn of the loop of [find_nearest] adds to [candidates] when
    it does not raise. *)
Definition candidate (lat lon max_km : pyfloat) (r : dict) : option (dict * pyfloat) :=
  match distance_to float_of_str lat lon r with
  | Some d => if decide (float_le d max_km) then Some (r, d) else None
  | None => None
  end.

(** A coordinate that [float(r[k])] cannot deliver: the key is missing or
    its value does not convert. *)
Definition unreadable (o : option value) : Prop :=
  match o with
  | None => True
  | Some v =>
      match Py.float float_of_str v with
      | Ok _ => False
      | Raise _ => True
      end
  end.

(** A record whose latitude or longitude is missing or not a number. *)
Definition malformed (r : dict) : Prop :=
  unreadable (r !! "latitude") \/ unreadable (r !! "longitude").

(** [find_nearest] gets through a record: the record is skipped, or
    [haversine] returns on it. *)
Definition passable (lat lon : pyfloat) (r : dict) : Prop :=
  failure_at float_of_str lat lon r = None.

(** A record that [find_nearest] leaves out without raising: it is
    malformed, or it has a distance and that distance is not at most the
    radius. *)
Definition out_of_reach (lat lon max_km : pyfloat) (r : dict) : Prop :=
  malformed r
  \/ exists d : pyfloat,
       distance_to float_of_str lat lon r = Some d /\ ~ float_le d max_km.

End Reach.

#[local] Existing Instance within_dec.

(** The remark and colour a payload shows: the value of its last field
    and the colour of its embed. *)
Definition payload_style (p : payload) : option (string * Z) :=
  match p_embeds p with
  | [e] =>
      match last (e_fields e) with
      | Some (Field _ (VStr remark) _) => Some (remark, e_color e)
      | _ => None
      end
  | _ => None
  end.

(** Successive freshness checks, starting from a stored value. *)
Fixpoint checks (revisions : list value) (current : value) : list bool :=
  match revisions with
  | [] => []
  | newest :: rest =>
      let '(is_new, stored) := is_new_import newest current in
      is_new :: checks rest stored
  end.

(** A record as the upstream API delivers it, for the examples. *)
Definition example_station : dict :=
  {[ "county" := VStr "臺北市"; "sitename" := VStr "中山";
     "aqi" := VStr "101"; "pm2.5" := VStr "35";
     "latitude" := VStr "25.0623"; "longitude" := VStr "121.5265";
     "ImportDate" := VStr "2024-01-01T00:00" ]}.

(** A station with textual coordinates, for the examples. *)
Definition station_at (name lat lon : string) : dict :=
  {[ "sitename" := VStr name; "latitude" := VStr lat; "longitude" := VStr lon ]}.

(** ** The request handlers *)

(** What a handler raises: an exception it does not catch, or the
    [HTTPException] it raises itself. *)
Inductive raised : Type :=
| Uncaught (e : exn)
| HTTPException (status_code : Z) (detail : string).

Inductive outcome (A : Type) : Type :=
| Return (a : A)
| Throw (r : raised).

Arguments Return {A} a.
Arguments Throw {A} r.

(** A handler runs in the process and returns or raises. *)
Definition handler (A : Type) : Type := world -> world * outcome A.

Definition hbind {A B : Type} (m : handler A) (k : A -> handler B) : handler B :=
  fun w =>
    match m w with
    | (w', Return a) => k a w'
    | (w', Throw r) => (w', Throw r)
    end.

Notation "'run' x <- m ; k" := (hbind m (fun x => k))
  (at level 10, x name, m at level 100, k at level 200).

Definition hreturn {A : Type} (a : A) : handler A := fun w => (w, Return a).

Definition hraise {A : Type} (r : raised) : handler A := fun w => (w, Throw r).

(** A computation that does not touch the process. *)
Definition pure {A : Type} (m : result A) : handler A :=
  fun w =>
    match m with
    | Ok a => (w, Return a)
    | Raise e => (w, Throw (Uncaught e))
    end.

(** A computation of the poll cycle's kind, used by a handler. *)
Definition effect {A : Type} (m : world -> world * result A) : handler A :=
  fun w =>
    match m w with
    | (w', Ok a) => (w', Return a)
    | (w', Raise e) => (w', Throw (Uncaught e))
    end.

(** A list comprehension whose element expression may raise. *)
Fixpoint comprehension {A B : Type} (f : A -> result B) (l : list A)
  : result (list B) :=
  match l with
  | [] => Ok []
  | x :: l' =>
      do y <- f x;
      do ys <- comprehension f l';
      Ok (y :: ys)
  end.

(** An entry of the answer of [/stations], lines 159-160. *)
Record station_row : Type := StationRow {
  row_county : value;
  row_sitename : value;
  row_lat : value;
  row_lon : value
}.

Definition station_row_of (r : dict) : result station_row :=
  do c <- Py.getitem r "county";
  do s <- Py.getitem r "sitename";
  Ok (StationRow c s (Py.get r "latitude" VNone) (Py.get r "longitude" VNone)).

(** [stations]: the list under the key ["records"] of its answer. *)
Definition stations (u : upstream) : result (list station_row) :=
  do recs <- fetch_all_records u;
  comprehension station_row_of recs.

(** An entry of the answer of [/stations/nearby], line 171: county and
    site name. *)
Definition nearby_row_of (r : dict) : result (value * value) :=
  do c <- Py.getitem r "county";
  do s <- Py.getitem r "sitename";
  Ok (c, s).

(** The request body of [/send_message]. *)
Module SiteSelection.
Record t : Type := Make {
  county : string;
  sitename : string
}.
End SiteSelection.

(** Line 189: [next((r for r in recs if ...), None)].  The condition
    subscripts [county], and [sitename] only when the county agrees. *)
Fixpoint first_match (recs : list dict) (data : SiteSelection.t)
  : result (option dict) :=
  match recs with
  | [] => Ok None
  | r :: recs' =>
      do c <- Py.getitem r "county";
      if Py.eq c (VStr (SiteSelection.county data)) then
        do s <- Py.getitem r "sitename";
        if Py.eq s (VStr (SiteSelection.sitename data)) then Ok (Some r)
        else first_match recs' data
      else first_match recs' data
  end.

Section Handlers.

Context {rt : FloatRuntime}.
Variable float_of_str : string -> option pyfloat.
Variable float_repr : Q -> string.
(** [str(km)] of the query parameter, as used by the f-string of line 178. *)
Variable km_repr : pyfloat -> string.
Variable webhook : payload -> delivery.

(** [stations_nearby]: the list under the key ["records"] of its answer. *)
Definition stations_nearby (u : upstream) (lat lon km : pyfloat)
  : result (list (value * value)) :=
  do recs <- fetch_all_records u;
  do near <- find_nearest float_of_str recs lat lon km;
  comprehension nearby_row_of near.

(** [auto_notify]: the message of its answer. *)
Definition auto_notify (u : upstream) (lat lon km : pyfloat) : handler string :=
  run recs <- pure (fetch_all_records u);
  run near <- pure (find_nearest float_of_str recs lat lon km);
  match near with
  | [] => hraise (HTTPException 404 ("範圍 " ++ km_repr km ++ "km 內找不到任何測站"))
  | station :: _ =>
      run payload <- pure (build_embed float_repr station);
      run _ <- effect (send_to_discord webhook payload);
      run c <- pure (Py.getitem station "county");
      run s <- pure (Py.getitem station "sitename");
      hreturn ("已自動推播最近測站：" ++ Py.str float_repr c ++ "/"
               ++ Py.str float_repr s ++ "，AQI "
               ++ Py.str float_repr (Py.get station "aqi" (VStr "N/A")))
  end.

(** [send_message]: the message of its answer.  [not match] holds of
    [None] and of an empty record. *)
Definition send_message (u : upstream) (data : SiteSelection.t) : handler string :=
  run recs <- pure (fetch_all_records u);
  run found <- pure (first_match recs data);
  match found with
  | Some r =>
      if bool_decide (r = ∅) then
        hraise (HTTPException 404
                  ("找不到 " ++ SiteSelection.county data ++ "/"
                   ++ SiteSelection.sitename data))
      else
        run payload <- pure (build_embed float_repr r);
        run _ <- effect (send_to_discord webhook payload);
        hreturn ("已推播 " ++ SiteSelection.county data ++ "/"
                 ++ SiteSelection.sitename data ++ " AQI "
                 ++ Py.str float_repr (Py.get r "aqi" (VStr "N/A")))
  | None =>
      hraise (HTTPException 404
                ("找不到 " ++ SiteSelection.county data ++ "/"
                 ++ SiteSelection.sitename data))
  end.

End Handlers.

(** Successive poll cycles, one per upstream response. *)
Fixpoint polls (float_repr : Q -> string) (webhook : payload -> delivery)
    (us : list upstream) (w : world) : world :=
  match us with
  | [] => w
  | u :: us' => polls float_repr webhook us' (check_and_notify float_repr webhook u w)
  end.

(** The rank of a bucket in the table, from no data to hazardous. *)
Definition bucket_rank (b : bucket) : nat :=
  match b with
  | NoData => 0
  | Good => 1
  | Moderate => 2
  | UnhealthySensitive => 3
  | UnhealthyAll => 4
  | VeryUnhealthy => 5
  | Hazardous => 6
  end.

(** A record carries the two keys every handler subscripts. *)
Definition has_station_keys (r : dict) : Prop :=
  is_Some (r !! "county") /\ is_Some (r !! "sitename").

(** A record the generator of line 189 passes over without raising: it
    has a county, and either the county differs from the requested one or
    the record has a site name that differs from the requested one. *)
Definition passed_over (data : SiteSelection.t) (r : dict) : Prop :=
  exists c : value,
    r !! "county" = Some c
    /\ (c <> VStr (SiteSelection.county data)
        \/ exists s : value,
             r !! "sitename" = Some s /\ s <> VStr (SiteSelection.sitename data)).

(** A record the generator of line 189 selects. *)
Definition selected (data : SiteSelection.t) (r : dict) : Prop :=
  r !! "county" = Some (VStr (SiteSelection.county data))
  /\ r !! "sitename" = Some (VStr (SiteSelection.sitename data)).

(** The keys of a record that [build_embed] reads. *)
Definition embed_keys : list string :=
  ["aqi"; "county"; "sitename"; "publishtime_iso"; "status"; "pm2.5"; "pm10";
   "o3"; "co"; "so2"; "no2"; "wind_speed"; "wind_direc"; "publishtime"].

(** A handler call leaves the freshness state and the printed errors
    alone and POSTs at most one payload. *)
Definition handler_footprint (w w' : world) : Prop :=
  _last_import w' = _last_import w
  /\ printed w' = printed w
  /\ (posted w' = posted w \/ exists p : payload, posted w' = (posted w ++ [p])%list).

(** A record on which the generator of line 189 raises [KeyError]: it has
    no county, or it has the requested county and no site name. *)
Definition breaks_search (data : SiteSelection.t) (r : dict) : Prop :=
  r !! "county" = None
  \/ (r !! "county" = Some (VStr (SiteSelection.county data))
      /\ r !! "sitename" = None).

(** * Theorems *)

(** ** The runtime on examples *)

Example int_of_str_ex :
  map Py.int_of_str ["45"; " -5 "; "+1_000"; "abc"; "N/A"; ""; "1__0"; "4 5"; "007"]
  = [Some 45; Some (-5); Some 1000; None; None; None; None; None; Some 7].
Proof. vm_compute. reflexivity. Qed.

(** Full-width and Arabic-Indic digits and an ideographic space are read;
    the ASCII separators that [str.isspace] accepts are not stripped. *)
Example int_of_str_unicode_ex :
  map Py.int_of_str ["５０"; "٣٤"; "　5"; String "028" "5"]
  = [Some 50; Some 34; Some 5; None].
Proof. vm_compute. reflexivity. Qed.

(** ** The order of the floats *)

#[local] Open Scope R_scope.

Lemma float_le_trans (a b c : pyfloat) : float_le a b -> float_le b c -> float_le a c.
Proof. destruct a, b, c; cbn; try tauto. lra. Qed.

Lemma float_lt_irrefl (a : pyfloat) : ~ float_lt a a.
Proof. destruct a; cbn; try tauto. lra. Qed.

Lemma float_le_not_nan (a b : pyfloat) : float_le a b -> a <> NaN /\ b <> NaN.
Proof. destruct a, b; cbn; try tauto; split; discriminate. Qed.

Lemma float_not_lt_le (a b : pyfloat) :
  a <> NaN -> b <> NaN -> ~ float_lt a b -> float_le b a.
Proof. destruct a, b; cbn; try tauto. lra. Qed.

Lemma float_le_not_lt (a b : pyfloat) : float_le a b -> ~ float_lt b a.
Proof. destruct a, b; cbn; try tauto. lra. Qed.

Lemma float_lt_le (a b : pyfloat) : float_lt a b -> float_le a b.
Proof. destruct a, b; cbn; try tauto. lra. Qed.

Lemma float_le_refl (a : pyfloat) : a <> NaN -> float_le a a.
Proof. destruct a; cbn; try tauto. lra. Qed.

Lemma float_le_total (a b : pyfloat) :
  a <> NaN -> b <> NaN -> float_le a b \/ float_le b a.
Proof. destruct a, b; cbn; try tauto. lra. Qed.

Lemma float_le_antisym (a b : pyfloat) : float_le a b -> float_le b a -> a = b.
Proof. destruct a, b; cbn; try tauto. intros. f_equal. lra. Qed.

(** ** Properties of [haversine] *)

Lemma inf_times_pos (i : pyfloat) (x : R) : 0 < x -> inf_times i x = i.
Proof.
  intros Hx. unfold inf_times. destruct (Rlt_dec 0 x); [reflexivity | contradiction].
Qed.

Lemma inf_times_fneg (i : pyfloat) (x : R) : inf_times (fneg i) x = fneg (inf_times i x).
Proof. unfold inf_times. destruct (Rlt_dec 0 x), (Rlt_dec x 0); reflexivity. Qed.

Section FloatProps.
Context {rt : FloatRuntime}.

(** [haversine] is the haversine formula with Earth radius 6371 km. *)
Lemma haversine_is_formula (lat1 lon1 lat2 lon2 : pyfloat) :
  haversine lat1 lon1 lat2 lon2 = haversine_formula lat1 lon1 lat2 lon2.
Proof.
  unfold haversine, haversine_formula, sin2_half. cbv zeta.
  replace (IZR (6371 * 2)) with (6371 * 2) by (rewrite mult_IZR; reflexivity).
  repeat match goal with
         | |- bind ?m _ = _ => destruct m; cbn [bind]; [| reflexivity]
         end.
  reflexivity.
Qed.

Lemma math_radians_inf (x : pyfloat) : infinite x -> math_radians x = x.
Proof.
  intros [-> | ->]; unfold math_radians; cbn; apply inf_times_pos, deg_to_rad_pos.
Qed.

Lemma math_radians_nan : math_radians NaN = NaN.
Proof. reflexivity. Qed.

Lemma fdiv_2_inf (x : pyfloat) : infinite x -> fdiv x (Finite 2) = Ok x.
Proof.
  intros [-> | ->]; cbn; destruct (Req_dec_T 2 0); try lra;
    rewrite inf_times_pos by lra; reflexivity.
Qed.

Lemma fdiv_2_nan : fdiv NaN (Finite 2) = Ok NaN.
Proof. cbn. destruct (Req_dec_T 2 0); [lra | reflexivity]. Qed.

Lemma sin2_half_inf (x : pyfloat) : infinite x -> sin2_half x = Raise ValueError.
Proof.
  intros Hx. unfold sin2_half. rewrite math_radians_inf, fdiv_2_inf by exact Hx.
  destruct Hx as [-> | ->]; reflexivity.
Qed.

Lemma sin2_half_nan : sin2_half NaN = Ok NaN.
Proof. unfold sin2_half. rewrite math_radians_nan, fdiv_2_nan. reflexivity. Qed.

Lemma math_cos_radians_inf (x : pyfloat) :
  infinite x -> math_cos (math_radians x) = Raise ValueError.
Proof.
  intros Hx. rewrite math_radians_inf by exact Hx.
  destruct Hx as [-> | ->]; reflexivity.
Qed.

Lemma math_cos_raise (x : pyfloat) (e : exn) : math_cos x = Raise e -> e = ValueError.
Proof. destruct x; cbn; congruence. Qed.

(** An infinite latitude, of either point, makes [haversine] raise
    [ValueError]: the sine of an infinite half difference, or else the
    cosine of the infinite latitude, has no value. *)
Lemma haversine_infinite_latitude (lat1 lon1 lat2 lon2 : pyfloat) :
  infinite lat1 \/ infinite lat2 -> haversine lat1 lon1 lat2 lon2 = Raise ValueError.
Proof.
  intros H. rewrite haversine_is_formula. unfold haversine_formula.
  assert (Hsub : infinite (fsub lat2 lat1)
                 \/ fsub lat2 lat1 = NaN
                    /\ (infinite lat1 \/ lat1 = NaN /\ infinite lat2)).
  { unfold infinite in *.
    destruct lat1 as [x | | |], lat2 as [y | | |]; cbn;
      try (destruct H as [[H | H] | [H | H]]; discriminate H); auto 10. }
  destruct Hsub as [Hinf | [Hnan Hcos]].
  - rewrite sin2_half_inf by exact Hinf. reflexivity.
  - rewrite Hnan, sin2_half_nan. cbn [bind].
    destruct Hcos as [H1 | [-> H2]].
    + rewrite math_cos_radians_inf by exact H1. reflexivity.
    + rewrite math_radians_nan. cbn [math_cos bind].
      rewrite math_cos_radians_inf by exact H2. reflexivity.
Qed.

End FloatProps.

Section HaversineIEEE.
Context {rt : FloatRuntime} {ieee : IEEE rt}.

Lemma fsub_swap (a b : pyfloat) : fsub b a = fneg (fsub a b).
Proof.
  destruct a as [x | | |], b as [y | | |]; cbn; try reflexivity.
  rewrite <- rnd_opp. f_equal. lra.
Qed.

Lemma fmul_comm (a b : pyfloat) : fmul a b = fmul b a.
Proof.
  destruct a as [x | | |], b as [y | | |]; cbn; try reflexivity.
  f_equal. lra.
Qed.

Lemma math_radians_fneg (x : pyfloat) : math_radians (fneg x) = fneg (math_radians x).
Proof.
  unfold math_radians. destruct x as [x | | |]; cbn; try reflexivity.
  - rewrite <- rnd_opp. f_equal. lra.
  - apply (inf_times_fneg PosInf).
  - apply (inf_times_fneg NegInf).
Qed.

Lemma float_pow2_fneg (x : pyfloat) : float_pow2 (fneg x) = float_pow2 x.
Proof.
  destruct x as [x | | |]; cbn; try reflexivity.
  rewrite Rabs_Ropp.
  destruct (Req_dec_T (- x) 0), (Req_dec_T x 0); try lra; reflexivity.
Qed.

Lemma sin2_half_fneg (x : pyfloat) : sin2_half (fneg x) = sin2_half x.
Proof.
  unfold sin2_half. rewrite math_radians_fneg.
  destruct (math_radians x) as [r | | |]; cbn;
    destruct (Req_dec_T 2 0); try lra; cbn [bind].
  - replace (- r / 2) with (- (r / 2)) by lra. rewrite rnd_opp.
    destruct (rnd (r / 2)) as [h | | |]; cbn; try reflexivity.
    rewrite libm_sin_odd. apply (float_pow2_fneg (Finite (libm_sin h))).
  - rewrite !inf_times_pos by lra. reflexivity.
  - rewrite !inf_times_pos by lra. reflexivity.
  - reflexivity.
Qed.

Lemma libm_sin_0 : libm_sin 0 = 0.
Proof.
  pose proof (libm_sin_odd 0) as H. rewrite Ropp_0 in H. lra.
Qed.

Lemma sin2_half_0 : sin2_half (Finite 0) = Ok (Finite 0).
Proof.
  unfold sin2_half, math_radians. cbn.
  rewrite Rmult_0_l, rnd_0. cbn.
  destruct (Req_dec_T 2 0); [lra |].
  replace (0 / 2) with 0 by lra. rewrite rnd_0. cbn.
  rewrite libm_sin_0. destruct (Req_dec_T 0 0); [reflexivity | contradiction].
Qed.

Lemma math_cos_radians_finite (x : R) :
  representable x ->
  exists c : R, math_cos (math_radians (Finite x)) = Ok (Finite c) /\ Rabs c <= 1.
Proof.
  intros Hx. unfold math_radians. cbn.
  destruct (rnd_within x (x * deg_to_rad) Hx) as [z Hz].
  { rewrite Rabs_mult. pose proof (Rabs_pos x). pose proof deg_to_rad_pos.
    pose proof deg_to_rad_le_1. rewrite (Rabs_pos_eq deg_to_rad) by lra. nra. }
  rewrite Hz. cbn. eexists. split; [reflexivity | apply libm_cos_range].
Qed.

(** The two points can be swapped. *)
Lemma haversine_formula_sym (lat1 lon1 lat2 lon2 : pyfloat) :
  haversine_formula lat1 lon1 lat2 lon2 = haversine_formula lat2 lon2 lat1 lon1.
Proof.
  unfold haversine_formula.
  rewrite (fsub_swap lat2 lat1), (fsub_swap lon2 lon1), !sin2_half_fneg.
  destruct (sin2_half (fsub lat2 lat1)) as [hav_lat | e]; cbn [bind]; [| reflexivity].
  destruct (math_cos (math_radians lat1)) as [c1 | e1] eqn:H1,
           (math_cos (math_radians lat2)) as [c2 | e2] eqn:H2; cbn [bind];
    try reflexivity.
  - rewrite (fmul_comm c2 c1). reflexivity.
  - apply math_cos_raise in H1, H2. congruence.
Qed.

(** A point is at distance zero from itself. *)
Lemma haversine_formula_same (lat lon : R) :
  representable lat ->
  haversine_formula (Finite lat) (Finite lon) (Finite lat) (Finite lon) = Ok (Finite 0).
Proof.
  intros Hlat. unfold haversine_formula.
  assert (Hsame : forall x : R, sin2_half (fsub (Finite x) (Finite x)) = Ok (Finite 0)).
  { intros x. cbn [fsub]. rewrite Rminus_diag, rnd_0. apply sin2_half_0. }
  rewrite !Hsame. cbn [bind].
  destruct (math_cos_radians_finite lat Hlat) as (c & -> & Hc). cbn [bind fmul].
  destruct (rnd_within 1 (c * c) rnd_1) as [p Hp].
  { rewrite Rabs_mult, Rabs_R1. pose proof (Rabs_pos c). nra. }
  rewrite Hp. unfold math_atan2.
  repeat first
    [ progress cbn [bind fmul fadd fsub math_sqrt]
    | rewrite Rmult_0_r | rewrite Rplus_0_r | rewrite Rminus_0_r
    | rewrite sqrt_0 | rewrite sqrt_1 | rewrite rnd_0 | rewrite rnd_1
    | rewrite libm_atan2_0_1
    | match goal with
      | |- context [Rlt_dec ?a 0] => destruct (Rlt_dec a 0); [lra |]
      end ].
  reflexivity.
Qed.

End HaversineIEEE.

Lemma exact_ieee : IEEE Runtime.exact.
Proof.
  split; unfold representable; cbn.
  - reflexivity.
  - reflexivity.
  - reflexivity.
  - eauto.
  - pose proof PI_4. lra.
  - apply sin_neg.
  - intros x. pose proof (COS_bound x). apply Rabs_le. lra.
  - unfold Runtime.atan2. destruct (Rlt_dec 0 1); [| lra].
    replace (0 / 1) with 0 by lra. rewrite atan_0. reflexivity.
Qed.

(** On the exact runtime the two ends of a half turn along the equator
    are half the circumference of the Earth apart: 6371 times pi. *)
Example haversine_half_turn :
  haversine (rt := Runtime.exact) (Finite 0) (Finite 0) (Finite 0) (Finite 180)
  = Ok (Finite (6371 * PI)).
Proof.
  pose proof PI_RGT_0 as Hpi.
  unfold haversine. cbv zeta. cbn [fsub math_radians fmul rnd Runtime.exact deg_to_rad fdiv].
  destruct (Req_dec_T 2 0) as [H | _]; [lra |]. cbn [bind math_sin libm_sin Runtime.exact].
  replace ((0 - 0) * (PI / 180) / 2) with 0 by lra.
  replace ((180 - 0) * (PI / 180) / 2) with (PI / 2) by lra.
  replace (0 * (PI / 180)) with 0 by lra.
  rewrite sin_0, sin_PI2. cbn [float_pow2 bind math_cos libm_cos Runtime.exact].
  destruct (Req_dec_T 0 0) as [_ | H]; [| contradiction].
  destruct (Req_dec_T 1 0) as [H | _]; [lra |].
  rewrite Rabs_R1. destruct (Req_dec_T 1 1) as [_ | H]; [| contradiction].
  rewrite cos_0. cbn [bind fmul fadd fsub rnd Runtime.exact math_sqrt].
  replace (0 + 1 * 1 * 1) with 1 by lra.
  destruct (Rlt_dec 1 0) as [H | _]; [lra |]. rewrite sqrt_1. cbn [bind].
  rewrite Rminus_diag. destruct (Rlt_dec 0 0) as [H | _]; [lra |]. rewrite sqrt_0.
  cbn [bind math_atan2 libm_atan2 Runtime.exact Runtime.float_atan2 fmul rnd].
  unfold Runtime.atan2.
  destruct (Rlt_dec 0 0) as [H | _]; [lra |].
  destruct (Rlt_dec 0 1) as [_ | H]; [| lra].
  f_equal. f_equal. rewrite mult_IZR. lra.
Qed.

(** C7. On a platform that keeps to [IEEE], the haversine distance is the
    same when the two points are swapped, whether the call returns or
    raises; it is exactly zero between a point with float coordinates and
    itself; and it is the haversine formula with Earth radius 6371 km. *)
Theorem haversine_symmetric_zero {rt : FloatRuntime} {ieee : IEEE rt}
    (lat1 lon1 lat2 lon2 : pyfloat) :
  haversine lat1 lon1 lat2 lon2 = haversine lat2 lon2 lat1 lon1
  /\ (forall lat lon : R,
        representable lat -> representable lon ->
        haversine (Finite lat) (Finite lon) (Finite lat) (Finite lon) = Ok (Finite 0))
  /\ haversine lat1 lon1 lat2 lon2 = haversine_formula lat1 lon1 lat2 lon2.
Proof.
  split; [| split].
  - rewrite !haversine_is_formula. apply haversine_formula_sym.
  - intros lat lon Hlat _. rewrite haversine_is_formula.
    apply haversine_formula_same, Hlat.
  - apply haversine_is_formula.
Qed.

Lemma haversine_symmetric_zero_witness :
  IEEE Runtime.exact
  /\ haversine (rt := Runtime.exact) (Finite 25) (Finite 121) (Finite (-8)) (Finite 180)
     = haversine (rt := Runtime.exact) (Finite (-8)) (Finite 180) (Finite 25) (Finite 121)
  /\ (forall lat lon : R,
        representable (rt := Runtime.exact) lat ->
        representable (rt := Runtime.exact) lon ->
        haversine (rt := Runtime.exact) (Finite lat) (Finite lon) (Finite lat) (Finite lon)
        = Ok (Finite 0))
  /\ haversine (rt := Runtime.exact) (Finite 25) (Finite 121) (Finite (-8)) (Finite 180)
     = haversine_formula (rt := Runtime.exact)
         (Finite 25) (Finite 121) (Finite (-8)) (Finite 180).
Proof.
  split; [exact exact_ieee |].
  apply (haversine_symmetric_zero (ieee := exact_ieee)).
Defined.


#[local] Open Scope Z_scope.

(** ** Properties of [list.sort] *)

Section SortProps.
Context {A : Type} (key : A -> pyfloat).

Lemma sort_insert_perm (x : A) (l : list A) : sort_insert key x l ≡ₚ x :: l.
Proof.
  induction l as [| y l IH]; cbn; [reflexivity |].
  destruct (decide (float_lt (key y) (key x))); [| reflexivity].
  rewrite IH. apply perm_swap.
Qed.

Lemma list_sort_perm (l : list A) : list_sort key l ≡ₚ l.
Proof.
  induction l as [| x l IH]; cbn; [reflexivity |].
  rewrite sort_insert_perm, IH. reflexivity.
Qed.

(** Keys that are not NaN are totally ordered, and the sort puts them in
    order. *)
Lemma sort_insert_sorted (x : A) (l : list A) :
  key x <> NaN -> Forall (λ a, key a <> NaN) l ->
  StronglySorted (λ a b, float_le (key a) (key b)) l ->
  StronglySorted (λ a b, float_le (key a) (key b)) (sort_insert key x l).
Proof.
  intros Hx Hl. induction 1 as [| y l Hs IH Hy]; cbn.
  - repeat constructor.
  - apply Forall_cons in Hl as [Hyn Hl].
    destruct (decide (float_lt (key y) (key x))) as [Hlt | Hge].
    + constructor; [exact (IH Hl) |].
      rewrite sort_insert_perm. constructor; [apply float_lt_le, Hlt | exact Hy].
    + apply float_not_lt_le in Hge; [| exact Hyn | exact Hx].
      constructor; [constructor; assumption |].
      constructor; [exact Hge |].
      eapply Forall_impl; [exact Hy |]. cbn. intros z Hz.
      eapply float_le_trans; eassumption.
Qed.

Lemma list_sort_sorted (l : list A) :
  Forall (λ a, key a <> NaN) l ->
  StronglySorted (λ a b, float_le (key a) (key b)) (list_sort key l).
Proof.
  induction 1 as [| x l Hx Hl IH]; cbn; [constructor |].
  apply sort_insert_sorted; [exact Hx | rewrite list_sort_perm; exact Hl | exact IH].
Qed.

(** Stability: the elements of any one key keep their order. *)
Lemma sort_insert_stable (d : pyfloat) (x : A) (l : list A) :
  filter (λ a, key a = d) (sort_insert key x l)
  = filter (λ a, key a = d) (x :: l).
Proof.
  induction l as [| y l IH]; cbn; [reflexivity |].
  destruct (decide (float_lt (key y) (key x))) as [Hlt | Hge]; [| reflexivity].
  rewrite (filter_cons _ y), IH, !filter_cons.
  destruct (decide (key y = d)) as [Hy | Hy], (decide (key x = d)) as [Hx | Hx];
    try reflexivity.
  exfalso. rewrite Hy, Hx in Hlt. exact (float_lt_irrefl d Hlt).
Qed.

Lemma list_sort_stable (d : pyfloat) (l : list A) :
  filter (λ a, key a = d) (list_sort key l) = filter (λ a, key a = d) l.
Proof.
  induction l as [| x l IH]; cbn; [reflexivity |].
  rewrite sort_insert_stable, !filter_cons, IH. reflexivity.
Qed.
End SortProps.

(** ** [list.sort] and selections *)

Section SortFilter.
Context {A : Type} (key : A -> pyfloat).
Context (P : A -> Prop) `{!forall a, Decision (P a)}.

Lemma sort_insert_least (x : A) (l : list A) :
  Forall (λ z, float_le (key x) (key z)) l -> sort_insert key x l = x :: l.
Proof.
  destruct 1 as [| z l Hz _]; cbn; [reflexivity |].
  destruct (decide (float_lt (key z) (key x))) as [Hlt | _]; [| reflexivity].
  exfalso. exact (float_le_not_lt _ _ Hz Hlt).
Qed.

Lemma sort_insert_filter (x : A) (l : list A) :
  key x <> NaN -> Forall (λ a, key a <> NaN) l ->
  StronglySorted (λ a b, float_le (key a) (key b)) l ->
  filter P (sort_insert key x l)
  = if decide (P x) then sort_insert key x (filter P l) else filter P l.
Proof.
  intros Hx Hl. induction 1 as [| y l Hs IH Hy]; cbn [sort_insert].
  - rewrite filter_cons, filter_nil. destruct (decide (P x)); reflexivity.
  - apply Forall_cons in Hl as [Hyn Hl].
    destruct (decide (float_lt (key y) (key x))) as [Hlt | Hge].
    + rewrite !(filter_cons _ y), (IH Hl).
      destruct (decide (P y)), (decide (P x)); try reflexivity.
      cbn [sort_insert].
      destruct (decide (float_lt (key y) (key x))); [reflexivity | contradiction].
    + rewrite (filter_cons _ x).
      destruct (decide (P x)); [| reflexivity].
      symmetry. apply sort_insert_least.
      apply float_not_lt_le in Hge; [| exact Hyn | exact Hx].
      apply Forall_forall. intros z Hz.
      apply list_elem_of_filter in Hz as [_ Hz].
      apply elem_of_cons in Hz as [-> | Hz]; [exact Hge |].
      rewrite Forall_forall in Hy. specialize (Hy _ Hz). cbn in Hy.
      eapply float_le_trans; eassumption.
Qed.

(** Sorting a selection is selecting from the sorted list. *)
Lemma list_sort_filter (l : list A) :
  Forall (λ a, key a <> NaN) l ->
  list_sort key (filter P l) = filter P (list_sort key l).
Proof.
  induction 1 as [| x l Hx Hl IH]; [reflexivity |].
  cbn [list_sort].
  rewrite sort_insert_filter;
    [| exact Hx | rewrite list_sort_perm; exact Hl | apply list_sort_sorted, Hl].
  rewrite filter_cons. destruct (decide (P x)); cbn [list_sort]; rewrite IH; reflexivity.
Qed.
End SortFilter.

Lemma filter_none {A : Type} (P : A -> Prop) `{!forall a, Decision (P a)}
    (l : list A) :
  Forall (λ a, ~ P a) l -> filter P l = [].
Proof.
  induction 1 as [| a l Ha _ IH]; [reflexivity |].
  rewrite filter_cons_False by exact Ha. exact IH.
Qed.

(** In a sorted list the elements up to a bound form a prefix. *)
Lemma sorted_filter_le_prefix {A : Type} (key : A -> pyfloat) (k : pyfloat) (l : list A) :
  StronglySorted (λ a b, float_le (key a) (key b)) l ->
  filter (λ a, float_le (key a) k) l `prefix_of` l.
Proof.
  induction 1 as [| y l Hs IH Hy]; [apply prefix_nil |].
  rewrite filter_cons. destruct (decide (float_le (key y) k)) as [Hle | Hgt].
  - apply prefix_cons, IH.
  - rewrite filter_none; [apply prefix_nil |].
    eapply Forall_impl; [exact Hy |]. cbn. intros z Hz Hzk.
    apply Hgt. eapply float_le_trans; eassumption.
Qed.

Lemma map_prefix {A B : Type} (f : A -> B) (l1 l2 : list A) :
  l1 `prefix_of` l2 -> map f l1 `prefix_of` map f l2.
Proof. intros [k ->]. exists (map f k). apply map_app. Qed.

(** ** The station matcher *)

Section MatcherProps.
Context {rt : FloatRuntime}.
Variable float_of_str : string -> option pyfloat.
Variables lat lon max_km : pyfloat.

Local Abbreviation candidate := (candidate float_of_str lat lon max_km).
Local Abbreviation passable := (passable float_of_str lat lon).
Local Abbreviation failure_at := (failure_at float_of_str lat lon).
Local Abbreviation distance_to := (distance_to float_of_str lat lon).
Local Abbreviation loop :=
  (fun records => find_nearest_loop float_of_str records lat lon max_km).

(** Line 52 delivers the position of the record, or raises. *)
Lemma coordinates_position (r : dict) :
  position float_of_str r
  = match coordinates float_of_str r with
    | Ok p => Some p
    | Raise _ => None
    end.
Proof.
  unfold position, coordinates, Py.getitem.
  destruct (r !! "latitude") as [vlat |], (r !! "longitude") as [vlon |]; cbn [bind];
    try reflexivity;
    destruct (Py.float float_of_str vlat) as [rl | e]; cbn [bind]; try reflexivity.
  destruct (Py.float float_of_str vlon) as [rn | e]; reflexivity.
Qed.

Lemma malformed_position (r : dict) :
  malformed float_of_str r <-> position float_of_str r = None.
Proof.
  unfold malformed, unreadable, position.
  destruct (r !! "latitude") as [vlat |], (r !! "longitude") as [vlon |];
    try destruct (Py.float float_of_str vlat);
    try destruct (Py.float float_of_str vlon);
    split; try reflexivity; try discriminate; tauto.
Qed.

Lemma malformed_no_distance (r : dict) :
  malformed float_of_str r -> distance_to r = None.
Proof.
  intros H. apply malformed_position in H. unfold distance_to. rewrite H. reflexivity.
Qed.

Lemma malformed_passable (r : dict) : malformed float_of_str r -> passable r.
Proof.
  intros H. apply malformed_position in H.
  unfold passable, failure_at. rewrite H. reflexivity.
Qed.

(** One turn of the loop. *)
Lemma find_nearest_loop_cons (r : dict) (records : list dict) (acc : list (dict * pyfloat)) :
  loop (r :: records) acc
  = match failure_at r with
    | Some e => Raise e
    | None => loop records (acc ++ option_list (candidate r))%list
    end.
Proof.
  cbn [find_nearest_loop].
  unfold failure_at, candidate, distance_to.
  rewrite coordinates_position.
  destruct (coordinates float_of_str r) as [[rl rn] | e].
  - destruct (haversine lat lon rl rn) as [d | e]; cbn [bind]; [| reflexivity].
    destruct (decide (float_le d max_km)); cbn [option_list]; [reflexivity |].
    rewrite app_nil_r. reflexivity.
  - cbn [option_list]. rewrite app_nil_r. reflexivity.
Qed.

Lemma find_nearest_loop_passable (records : list dict) (acc : list (dict * pyfloat)) :
  Forall passable records ->
  loop records acc = Ok (acc ++ omap candidate records)%list.
Proof.
  intros H. revert acc. induction H as [| r records Hr _ IH]; intros acc.
  - cbn. rewrite app_nil_r. reflexivity.
  - rewrite find_nearest_loop_cons. unfold passable in Hr. rewrite Hr, IH.
    cbn [omap list_omap]. destruct (candidate r); cbn [option_list];
      rewrite <- ?app_assoc, ?app_nil_r; reflexivity.
Qed.

Lemma find_nearest_loop_failure (before : list dict) (r : dict) (after : list dict)
    (e : exn) (acc : list (dict * pyfloat)) :
  Forall passable before -> failure_at r = Some e ->
  loop (before ++ r :: after)%list acc = Raise e.
Proof.
  intros H He. revert acc. induction H as [| r' before Hr _ IH]; intros acc; cbn [app].
  - rewrite find_nearest_loop_cons, He. reflexivity.
  - rewrite find_nearest_loop_cons. unfold passable in Hr. rewrite Hr. apply IH.
Qed.

(** Either the loop gets through every record, or there is a first record
    on which [haversine] raises. *)
Lemma records_cases (records : list dict) :
  Forall passable records
  \/ exists (before : list dict) (r : dict) (after : list dict) (e : exn),
       records = (before ++ r :: after)%list
       /\ Forall passable before /\ failure_at r = Some e.
Proof.
  induction records as [| r records IH]; [left; constructor |].
  destruct (failure_at r) as [e |] eqn:Hr.
  - right. exists [], r, records, e. auto.
  - destruct IH as [IH | (before & r' & after & e & -> & Hb & He)].
    + left. constructor; assumption.
    + right. exists (r :: before), r', after, e.
      split; [reflexivity |]. split; [constructor; assumption | exact He].
Qed.

Lemma find_nearest_passable (records : list dict) :
  Forall passable records ->
  find_nearest float_of_str records lat lon max_km
  = Ok (map fst (list_sort snd (omap candidate records))).
Proof.
  intros H. unfold find_nearest.
  rewrite (find_nearest_loop_passable records [] H). reflexivity.
Qed.

Lemma find_nearest_failure (before : list dict) (r : dict) (after : list dict) (e : exn) :
  Forall passable before -> failure_at r = Some e ->
  find_nearest float_of_str (before ++ r :: after)%list lat lon max_km = Raise e.
Proof.
  intros H He. unfold find_nearest.
  rewrite (find_nearest_loop_failure before r after e [] H He). reflexivity.
Qed.

Lemma find_nearest_ok_inv (records : list dict) (out : list dict) :
  find_nearest float_of_str records lat lon max_km = Ok out ->
  Forall passable records
  /\ out = map fst (list_sort snd (omap candidate records)).
Proof.
  intros Hout.
  destruct (records_cases records) as [H | (before & r & after & e & -> & Hb & He)].
  - rewrite (find_nearest_passable records H) in Hout. split; congruence.
  - rewrite (find_nearest_failure before r after e Hb He) in Hout. discriminate Hout.
Qed.

(** Every candidate pairs a record with its distance, within reach. *)
Lemma candidates_distance (records : list dict) :
  Forall (λ c, distance_to c.1 = Some c.2 /\ float_le c.2 max_km)
         (omap candidate records).
Proof.
  induction records as [| r records IH]; cbn; [constructor |].
  unfold candidate at 1.
  destruct (distance_to r) as [d |] eqn:Hd; [| exact IH].
  destruct (decide (float_le d max_km)); [| exact IH].
  constructor; [cbn; auto | exact IH].
Qed.

Lemma candidates_records (records : list dict) :
  map fst (omap candidate records)
  = filter (within float_of_str lat lon max_km) records.
Proof.
  induction records as [| r records IH]; [reflexivity |].
  rewrite filter_cons. cbn. unfold candidate at 1.
  destruct (decide _) as [Hw | Hw]; unfold within in Hw;
    destruct (distance_to r) as [d |];
    try destruct (decide (float_le d max_km));
    cbn; rewrite ?IH; try reflexivity; tauto.
Qed.

Lemma filter_distance_fst (d : pyfloat) (l : list (dict * pyfloat)) :
  Forall (λ c, distance_to c.1 = Some c.2 /\ float_le c.2 max_km) l ->
  filter (λ r, distance_to r = Some d) (map fst l)
  = map fst (filter (λ c, snd c = d) l).
Proof.
  induction 1 as [| c l [Hc _] _ IH]; [reflexivity |].
  rewrite map_cons, !filter_cons, IH.
  destruct (decide (c.2 = d)) as [Heq | Hne];
    destruct (decide (distance_to c.1 = Some d)) as [Heq' | Hne'];
    try reflexivity; exfalso.
  - apply Hne'. rewrite Hc, Heq. reflexivity.
  - apply Hne. rewrite Hc in Heq'. congruence.
Qed.

Lemma sorted_nearer (l : list (dict * pyfloat)) :
  Forall (λ c, distance_to c.1 = Some c.2 /\ float_le c.2 max_km) l ->
  StronglySorted (λ a b, float_le (snd a) (snd b)) l ->
  StronglySorted (nearer float_of_str lat lon) (map fst l).
Proof.
  intros Hall Hs. induction Hs as [| c l Hs IH Hc]; cbn; [constructor |].
  apply Forall_cons in Hall as [[Hd _] Hall].
  constructor; [apply IH, Hall |].
  apply Forall_map. apply Forall_forall. intros c' Hin.
  rewrite Forall_forall in Hc, Hall.
  destruct (Hall _ Hin) as [Hd' _]. specialize (Hc _ Hin).
  unfold nearer. cbn. rewrite Hd, Hd'. exact Hc.
Qed.

(** What [find_nearest] returns, when it returns. *)
Lemma find_nearest_facts (records : list dict) (out : list dict) :
  find_nearest float_of_str records lat lon max_km = Ok out ->
  out ≡ₚ filter (within float_of_str lat lon max_km) records
  /\ StronglySorted (nearer float_of_str lat lon) out
  /\ (forall d : pyfloat,
        filter (λ r, distance_to r = Some d) out
        = filter (λ r, distance_to r = Some d)
            (filter (within float_of_str lat lon max_km) records)).
Proof.
  intros Hout. apply find_nearest_ok_inv in Hout as [_ ->].
  pose proof (candidates_distance records) as Hall.
  assert (Hall' : Forall (λ c, distance_to c.1 = Some c.2 /\ float_le c.2 max_km)
                    (list_sort snd (omap candidate records))).
  { rewrite list_sort_perm. exact Hall. }
  split; [| split].
  - rewrite list_sort_perm, candidates_records. reflexivity.
  - apply sorted_nearer; [exact Hall' |]. apply list_sort_sorted.
    eapply Forall_impl; [exact Hall |]. cbn. intros c [_ Hle].
    apply float_le_not_nan in Hle. tauto.
  - intros d. rewrite filter_distance_fst by exact Hall'.
    rewrite list_sort_stable, <- candidates_records.
    rewrite filter_distance_fst by exact Hall. reflexivity.
Qed.

Lemma find_nearest_perm (records : list dict) (out : list dict) :
  find_nearest float_of_str records lat lon max_km = Ok out ->
  out ≡ₚ filter (within float_of_str lat lon max_km) records.
Proof. intros H. apply find_nearest_facts in H. tauto. Qed.

End MatcherProps.

(** ** The matcher on examples *)

#[local] Open Scope R_scope.

Section MatcherExamples.
Context {rt : FloatRuntime}.
Variable float_of_str : string -> option pyfloat.

Lemma position_text (r : dict) (a b : string) (x y : pyfloat) :
  r !! "latitude" = Some (VStr a) -> r !! "longitude" = Some (VStr b) ->
  float_of_str a = Some x -> float_of_str b = Some y ->
  position float_of_str r = Some (x, y).
Proof.
  intros Ha Hb Hx Hy. unfold position. rewrite Ha, Hb. cbn [Py.float].
  rewrite Hx, Hy. reflexivity.
Qed.

Lemma coordinates_of_position (r : dict) (p : pyfloat * pyfloat) :
  position float_of_str r = Some p <-> coordinates float_of_str r = Ok p.
Proof.
  rewrite coordinates_position. destruct (coordinates float_of_str r); split; congruence.
Qed.

Lemma distance_passable (lat lon : pyfloat) (r : dict) (d : pyfloat) :
  distance_to float_of_str lat lon r = Some d -> passable float_of_str lat lon r.
Proof.
  unfold distance_to, passable, failure_at.
  destruct (position float_of_str r) as [[rl rn] |]; [| discriminate].
  destruct (haversine lat lon rl rn); [reflexivity | discriminate].
Qed.

Lemma candidate_within (lat lon max_km : pyfloat) (r : dict) (d : pyfloat) :
  distance_to float_of_str lat lon r = Some d -> float_le d max_km ->
  candidate float_of_str lat lon max_km r = Some (r, d).
Proof.
  intros Hd Hle. unfold candidate. rewrite Hd.
  destruct (decide (float_le d max_km)); [reflexivity | contradiction].
Qed.

Lemma candidate_malformed (lat lon max_km : pyfloat) (r : dict) :
  malformed float_of_str r -> candidate float_of_str lat lon max_km r = None.
Proof.
  intros H. unfold candidate. rewrite (malformed_no_distance _ _ _ _ H). reflexivity.
Qed.

(** A record at the query point is at distance zero. *)
Lemma distance_at_query {ieee : IEEE rt} (lat lon : R) (r : dict) (rl rn : R) :
  position float_of_str r = Some (Finite rl, Finite rn) ->
  rl = lat -> rn = lon -> representable lat ->
  distance_to float_of_str (Finite lat) (Finite lon) r = Some (Finite 0).
Proof.
  intros Hp -> -> Hlat. unfold distance_to. rewrite Hp.
  rewrite haversine_is_formula, haversine_formula_same by exact Hlat. reflexivity.
Qed.

End MatcherExamples.

Example read_float_ex :
  map Runtime.read_float
      ["25.0330"; " -1.5e1 "; "12"; "1_0.5"; "inf"; "-Infinity"; "NaN"; "abc"; ""; ".";
       "1e"; "infinit"]
  = [Some (Runtime.Number (250330 # 10000)); Some (Runtime.Number (-15 # 1));
     Some (Runtime.Number (12 # 1)); Some (Runtime.Number (105 # 10));
     Some (Runtime.Infinity false); Some (Runtime.Infinity true);
     Some Runtime.NotANumber; None; None; None; None; None].
Proof. vm_compute. reflexivity. Qed.

Lemma float_of_str_number (s : string) (q : Q) :
  Runtime.read_float s = Some (Runtime.Number q) ->
  Runtime.float_of_str s = Some (Finite (Q2R q)).
Proof. intros H. unfold Runtime.float_of_str. rewrite H. reflexivity. Qed.

Lemma float_of_str_none (s : string) :
  Runtime.read_float s = None -> Runtime.float_of_str s = None.
Proof. intros H. unfold Runtime.float_of_str. rewrite H. reflexivity. Qed.

Lemma station_at_position (name a b : string) (x y : pyfloat) :
  Runtime.float_of_str a = Some x -> Runtime.float_of_str b = Some y ->
  position (rt := Runtime.exact) Runtime.float_of_str (station_at name a b) = Some (x, y).
Proof.
  intros Hx Hy.
  apply (position_text _ _ a b); [reflexivity | reflexivity | exact Hx | exact Hy].
Qed.

Lemma station_at_malformed (name a b : string) :
  Runtime.read_float a = None ->
  malformed (rt := Runtime.exact) Runtime.float_of_str (station_at name a b).
Proof.
  intros H. left. unfold unreadable, station_at.
  change (({["sitename" := VStr name; "latitude" := VStr a; "longitude" := VStr b]} : dict)
            !! "latitude") with (Some (VStr a)).
  cbn [Py.float]. rewrite (float_of_str_none a H). exact I.
Qed.

Example find_nearest_ex :
  find_nearest (rt := Runtime.exact) Runtime.float_of_str
    [station_at "A" "25" "121"; station_at "B" "abc" "121"; station_at "C" "25.0" "121.0"]
    (Finite 25) (Finite 121) (Finite 0)
  = Ok [station_at "A" "25" "121"; station_at "C" "25.0" "121.0"].
Proof.
  assert (HA : distance_to (rt := Runtime.exact) Runtime.float_of_str
                 (Finite 25) (Finite 121) (station_at "A" "25" "121") = Some (Finite 0)).
  { apply (distance_at_query (ieee := exact_ieee) _ _ _ _ (Q2R (25 # 1)) (Q2R (121 # 1)));
      [apply station_at_position; apply float_of_str_number; vm_compute; reflexivity
      | unfold Q2R; cbn; lra | unfold Q2R; cbn; lra | reflexivity]. }
  assert (HB : malformed (rt := Runtime.exact) Runtime.float_of_str
                 (station_at "B" "abc" "121")).
  { apply station_at_malformed. vm_compute. reflexivity. }
  assert (HC : distance_to (rt := Runtime.exact) Runtime.float_of_str
                 (Finite 25) (Finite 121) (station_at "C" "25.0" "121.0") = Some (Finite 0)).
  { apply (distance_at_query (ieee := exact_ieee) _ _ _ _ (Q2R (250 # 10)) (Q2R (1210 # 10)));
      [apply station_at_position; apply float_of_str_number; vm_compute; reflexivity
      | unfold Q2R; cbn; lra | unfold Q2R; cbn; lra | reflexivity]. }
  rewrite find_nearest_passable.
  - cbn [omap list_omap].
    rewrite (candidate_within _ _ _ _ _ _ HA) by (cbn; lra).
    rewrite (candidate_malformed _ _ _ _ _ HB).
    rewrite (candidate_within _ _ _ _ _ _ HC) by (cbn; lra).
    cbn [list_sort sort_insert snd].
    destruct (decide (float_lt (Finite 0) (Finite 0))) as [H | _]; [cbn in H; lra |].
    reflexivity.
  - repeat apply Forall_cons_2; [| | | apply Forall_nil_2].
    + eapply distance_passable, HA.
    + apply malformed_passable, HB.
    + eapply distance_passable, HC.
Qed.

#[local] Open Scope Z_scope.

Section MatcherMore.
Context {rt : FloatRuntime}.
Variable float_of_str : string -> option pyfloat.
Variables lat lon : pyfloat.

Lemma find_nearest_returns_iff (records : list dict) (max_km : pyfloat) :
  (exists out : list dict, find_nearest float_of_str records lat lon max_km = Ok out)
  <-> Forall (passable float_of_str lat lon) records.
Proof.
  split.
  - intros [out Hout]. apply find_nearest_ok_inv in Hout. tauto.
  - intros H. rewrite (find_nearest_passable _ _ _ _ _ H). eauto.
Qed.

(** A malformed record does not count: the loop goes on as if it were
    not in the list. *)
Lemma find_nearest_loop_skip (before : list dict) (r : dict) (after : list dict)
    (max_km : pyfloat) (acc : list (dict * pyfloat)) :
  malformed float_of_str r ->
  find_nearest_loop float_of_str (before ++ r :: after) lat lon max_km acc
  = find_nearest_loop float_of_str (before ++ after) lat lon max_km acc.
Proof.
  intros Hr. revert acc. induction before as [| x before IH]; intros acc; cbn [app].
  - rewrite find_nearest_loop_cons.
    rewrite (malformed_passable _ _ _ _ Hr), (candidate_malformed _ _ _ _ _ Hr).
    cbn [option_list]. rewrite app_nil_r. reflexivity.
  - rewrite !find_nearest_loop_cons.
    destruct (failure_at float_of_str lat lon x); [reflexivity | apply IH].
Qed.

Lemma within_not_malformed (max_km : pyfloat) (r : dict) :
  within float_of_str lat lon max_km r -> ~ malformed float_of_str r.
Proof.
  intros Hw Hm. unfold within in Hw.
  rewrite (malformed_no_distance _ _ _ _ Hm) in Hw. exact Hw.
Qed.

Lemma out_of_reach_iff (max_km : pyfloat) (r : dict) :
  out_of_reach float_of_str lat lon max_km r
  <-> passable float_of_str lat lon r /\ ~ within float_of_str lat lon max_km r.
Proof.
  unfold out_of_reach, within. split.
  - intros [Hm | (d & Hd & Hle)].
    + split; [apply malformed_passable, Hm |].
      rewrite (malformed_no_distance _ _ _ _ Hm). tauto.
    + split; [eapply distance_passable, Hd | rewrite Hd; exact Hle].
  - intros [Hp Hw]. unfold passable, failure_at in Hp. unfold distance_to in *.
    destruct (position float_of_str r) as [[rl rn] |] eqn:Hpos.
    + destruct (haversine lat lon rl rn) as [d | e]; [| discriminate Hp].
      right. eauto.
    + left. apply malformed_position, Hpos.
Qed.

Lemma find_nearest_nil_iff (records : list dict) (max_km : pyfloat) :
  find_nearest float_of_str records lat lon max_km = Ok []
  <-> Forall (out_of_reach float_of_str lat lon max_km) records.
Proof.
  split.
  - intros Hout. pose proof (find_nearest_perm _ _ _ _ _ _ Hout) as Hperm.
    apply find_nearest_ok_inv in Hout as [Hpass _].
    apply Forall_forall. intros r Hr. apply out_of_reach_iff.
    split; [rewrite Forall_forall in Hpass; auto |].
    intros Hw.
    assert (Hin : r ∈ filter (within float_of_str lat lon max_km) records)
      by (apply list_elem_of_filter; tauto).
    rewrite <- Hperm in Hin. apply elem_of_nil in Hin. exact Hin.
  - intros Hall.
    assert (Hpass : Forall (passable float_of_str lat lon) records).
    { eapply Forall_impl; [exact Hall |]. intros r Hr. apply out_of_reach_iff in Hr. tauto. }
    destruct (proj2 (find_nearest_returns_iff records max_km) Hpass) as [out Hout].
    pose proof (find_nearest_perm _ _ _ _ _ _ Hout) as Hperm.
    rewrite filter_none in Hperm.
    + apply Permutation_nil_r in Hperm. congruence.
    + eapply Forall_impl; [exact Hall |]. intros r Hr. apply out_of_reach_iff in Hr. tauto.
Qed.

(** A record on which [haversine] raises makes the call raise, wherever
    the record is in the list. *)
Lemma find_nearest_fails (records : list dict) (max_km : pyfloat) (r : dict) (e0 : exn) :
  r ∈ records -> failure_at float_of_str lat lon r = Some e0 ->
  exists e : exn, find_nearest float_of_str records lat lon max_km = Raise e.
Proof.
  intros Hr Hfail.
  destruct (records_cases float_of_str lat lon records)
    as [Hpass | (before & r' & after & e & -> & Hb & He)].
  - rewrite Forall_forall in Hpass. specialize (Hpass r Hr).
    unfold passable in Hpass. congruence.
  - exists e. apply find_nearest_failure; assumption.
Qed.

Lemma failure_at_infinite (r : dict) (rl rn : pyfloat) :
  position float_of_str r = Some (rl, rn) ->
  infinite lat \/ infinite rl ->
  failure_at float_of_str lat lon r = Some ValueError.
Proof.
  intros Hp Hinf. unfold failure_at. rewrite Hp.
  rewrite haversine_infinite_latitude by exact Hinf. reflexivity.
Qed.

End MatcherMore.

(** C2, where the code departs from it.  A record whose latitude reads as
    an infinity, or a query point of infinite latitude and a record that
    has coordinates at all, makes [find_nearest] raise instead of return:
    whatever list the record is in, the call raises, and when only
    malformed records come before it, what it raises is the [ValueError]
    of [math.sin] or [math.cos] in [haversine]. *)
Theorem find_nearest_infinite_latitude {rt : FloatRuntime}
    (float_of_str : string -> option pyfloat) (lat lon max_km : pyfloat)
    (r : dict) (rl rn : pyfloat) :
  coordinates float_of_str r = Ok (rl, rn) ->
  infinite lat \/ infinite rl ->
  (forall records : list dict,
      r ∈ records ->
      exists e : exn, find_nearest float_of_str records lat lon max_km = Raise e)
  /\ (forall skipped rest : list dict,
        Forall (malformed float_of_str) skipped ->
        find_nearest float_of_str (skipped ++ r :: rest)%list lat lon max_km
        = Raise ValueError).
Proof.
  intros Hc Hinf. apply coordinates_of_position in Hc.
  pose proof (failure_at_infinite _ _ lon _ _ _ Hc Hinf) as Hfail.
  split.
  - intros records Hr. eapply find_nearest_fails; eassumption.
  - intros skipped rest Hs. apply find_nearest_failure; [| exact Hfail].
    eapply Forall_impl; [exact Hs |]. apply malformed_passable.
Qed.

Lemma find_nearest_infinite_latitude_witness :
  (forall records : list dict,
      station_at "B" "inf" "121" ∈ records ->
      exists e : exn,
        find_nearest (rt := Runtime.exact) Runtime.float_of_str records
          (Finite 25) (Finite 121) (Finite 10) = Raise e)
  /\ (forall skipped rest : list dict,
        Forall (malformed (rt := Runtime.exact) Runtime.float_of_str) skipped ->
        find_nearest (rt := Runtime.exact) Runtime.float_of_str
          (skipped ++ station_at "B" "inf" "121" :: rest)%list
          (Finite 25) (Finite 121) (Finite 10)
        = Raise ValueError).
Proof.
  apply (find_nearest_infinite_latitude (rt := Runtime.exact) Runtime.float_of_str
           (Finite 25) (Finite 121) (Finite 10) (station_at "B" "inf" "121")
           PosInf (Finite (Q2R (121 # 1)))).
  - apply coordinates_of_position, station_at_position; reflexivity.
  - right. left. reflexivity.
Defined.

(** C6. A record whose latitude or longitude is missing or does not
    convert to a number is passed over in silence: with it in the list
    [find_nearest] does exactly what it does without it, so the record
    never makes the call raise; a list of such a record alone gives the
    empty result; and the record is never part of what is returned. *)
Theorem find_nearest_skips_malformed {rt : FloatRuntime}
    (float_of_str : string -> option pyfloat) (before after : list dict)
    (lat lon max_km : pyfloat) (r : dict) :
  malformed float_of_str r ->
  find_nearest float_of_str (before ++ r :: after)%list lat lon max_km
  = find_nearest float_of_str (before ++ after)%list lat lon max_km
  /\ find_nearest float_of_str [r] lat lon max_km = Ok []
  /\ (forall (records out : list dict),
        find_nearest float_of_str records lat lon max_km = Ok out -> r ∉ out).
Proof.
  intros Hr. split; [| split].
  - unfold find_nearest. rewrite find_nearest_loop_skip by exact Hr. reflexivity.
  - apply find_nearest_nil_iff. constructor; [left; exact Hr | constructor].
  - intros records out Hout Hin.
    apply find_nearest_perm in Hout. rewrite Hout in Hin.
    apply list_elem_of_filter in Hin as [Hw _].
    exact (within_not_malformed _ _ _ _ _ Hw Hr).
Qed.

Lemma find_nearest_skips_malformed_witness :
  find_nearest (rt := Runtime.exact) Runtime.float_of_str
    ([station_at "A" "25" "121"] ++ station_at "B" "abc" "121"
                                 :: [station_at "C" "25.0" "121.0"])%list
    (Finite 25) (Finite 121) (Finite 0)
  = find_nearest (rt := Runtime.exact) Runtime.float_of_str
      ([station_at "A" "25" "121"] ++ [station_at "C" "25.0" "121.0"])%list
      (Finite 25) (Finite 121) (Finite 0)
  /\ find_nearest (rt := Runtime.exact) Runtime.float_of_str
       [station_at "B" "abc" "121"] (Finite 25) (Finite 121) (Finite 0)
     = Ok []
  /\ (forall (records out : list dict),
        find_nearest (rt := Runtime.exact) Runtime.float_of_str records
          (Finite 25) (Finite 121) (Finite 0) = Ok out ->
        station_at "B" "abc" "121" ∉ out).
Proof.
  apply (find_nearest_skips_malformed (rt := Runtime.exact) Runtime.float_of_str
           [station_at "A" "25" "121"] [station_at "C" "25.0" "121.0"]
           (Finite 25) (Finite 121) (Finite 0) (station_at "B" "abc" "121")).
  apply station_at_malformed. vm_compute. reflexivity.
Defined.

(** ** The notification formatter *)

#[local] Open Scope Z_scope.

Lemma bucket_style_inj (b1 b2 : bucket) :
  bucket_style b1 = bucket_style b2 -> b1 = b2.
Proof.
  intros H. apply (f_equal snd) in H.
  destruct b1, b2; first [reflexivity | vm_compute in H; discriminate H].
Qed.

(** The cascade of lines 83-96 and the table read as ranges agree. *)
Lemma severity_in_bucket (aqi_val : option Z) (b : bucket) :
  in_bucket aqi_val b <-> severity aqi_val = bucket_style b.
Proof.
  split.
  - destruct aqi_val as [v |], b; cbn [in_bucket]; try tauto; intros H;
      unfold severity;
      repeat match goal with
             | |- context [?x <=? ?y] => destruct (Z.leb_spec x y); try lia
             end; reflexivity.
  - assert (Hex : exists b', in_bucket aqi_val b' /\ severity aqi_val = bucket_style b').
    { destruct aqi_val as [v |]; [| exists NoData; split; [exact I | reflexivity]].
      unfold severity.
      destruct (Z.leb_spec v 50); [exists Good; cbn; split; [lia | reflexivity] |].
      destruct (Z.leb_spec v 100); [exists Moderate; cbn; split; [lia | reflexivity] |].
      destruct (Z.leb_spec v 150);
        [exists UnhealthySensitive; cbn; split; [lia | reflexivity] |].
      destruct (Z.leb_spec v 200); [exists UnhealthyAll; cbn; split; [lia | reflexivity] |].
      destruct (Z.leb_spec v 300); [exists VeryUnhealthy; cbn; split; [lia | reflexivity] |].
      exists Hazardous; cbn; split; [lia | reflexivity]. }
    destruct Hex as (b' & Hin & Hsev). intros H.
    rewrite Hsev in H. apply bucket_style_inj in H. subst b'. exact Hin.
Qed.

Lemma severity_bucket (aqi_val : option Z) :
  exists b : bucket, in_bucket aqi_val b.
Proof.
  destruct aqi_val as [v |]; [| exists NoData; exact I].
  destruct (Z_le_gt_dec v 50); [exists Good; cbn; lia |].
  destruct (Z_le_gt_dec v 100); [exists Moderate; cbn; lia |].
  destruct (Z_le_gt_dec v 150); [exists UnhealthySensitive; cbn; lia |].
  destruct (Z_le_gt_dec v 200); [exists UnhealthyAll; cbn; lia |].
  destruct (Z_le_gt_dec v 300); [exists VeryUnhealthy; cbn; lia |].
  exists Hazardous; cbn; lia.
Qed.

Section FormatterProps.
Variable float_repr : Q -> string.

(** [build_embed] fails exactly on the two subscripts of line 98. *)
Lemma build_embed_ok (data : dict) (county sitename : value) :
  data !! "county" = Some county ->
  data !! "sitename" = Some sitename ->
  exists p : payload,
    build_embed float_repr data = Ok p
    /\ payload_style p
       = Some (severity (aqi_value (Py.get data "aqi" (VStr "N/A")))).
Proof.
  intros Hc Hs. unfold build_embed, Py.getitem.
  destruct (severity _) as [remark color] eqn:Hsev.
  rewrite Hc, Hs. cbn [bind]. eexists. split; reflexivity.
Qed.

Lemma build_embed_inv (data : dict) (p : payload) :
  build_embed float_repr data = Ok p ->
  exists county sitename : value,
    data !! "county" = Some county /\ data !! "sitename" = Some sitename.
Proof.
  unfold build_embed, Py.getitem.
  destruct (severity _) as [remark color].
  destruct (data !! "county") as [c |]; [| discriminate].
  destruct (data !! "sitename") as [s |]; [| discriminate].
  eauto.
Qed.

Lemma build_embed_style (data : dict) (p : payload) :
  build_embed float_repr data = Ok p ->
  payload_style p = Some (severity (aqi_value (Py.get data "aqi" (VStr "N/A")))).
Proof.
  intros H. destruct (build_embed_inv _ _ H) as (c & s & Hc & Hs).
  destruct (build_embed_ok data c s Hc Hs) as (p' & Hp' & Hstyle).
  congruence.
Qed.
End FormatterProps.

(** The sample AQI values of the specification, and three textual ones. *)
Example severity_samples :
  map (λ aqi, severity (aqi_value aqi))
      [VNone; VStr "abc"; VInt (-5); VInt 0; VInt 50; VInt 51; VInt 100;
       VInt 101; VInt 300; VInt 301; VInt 1000; VStr "N/A"; VStr "-5"; VStr " 151 "]
  = map bucket_style
      [NoData; NoData; Good; Good; Good; Moderate; Moderate;
       UnhealthySensitive; VeryUnhealthy; Hazardous; Hazardous; NoData; Good;
       UnhealthyAll].
Proof. vm_compute. reflexivity. Qed.

(** C3, as the code has it.  For a record that carries the two keys
    [county] and [sitename], whatever else is missing and whatever the AQI
    value is, [build_embed] returns a payload, and the remark and colour it
    shows are those of exactly one of the seven buckets. *)
Theorem build_embed_total_with_station
    (float_repr : Q -> string) (data : dict) (county sitename : value) :
  data !! "county" = Some county ->
  data !! "sitename" = Some sitename ->
  exists p : payload,
    build_embed float_repr data = Ok p
    /\ exists! b : bucket, payload_style p = Some (bucket_style b).
Proof.
  intros Hc Hs.
  destruct (build_embed_ok float_repr data county sitename Hc Hs) as (p & Hp & Hstyle).
  exists p. split; [exact Hp |].
  destruct (severity_bucket (aqi_value (Py.get data "aqi" (VStr "N/A")))) as [b Hb].
  apply severity_in_bucket in Hb.
  exists b. split.
  - rewrite Hstyle, Hb. reflexivity.
  - intros b' Hb'. rewrite Hstyle, Hb in Hb'.
    apply bucket_style_inj. congruence.
Qed.

Lemma build_embed_total_with_station_witness :
  exists p : payload,
    build_embed Runtime.float_repr
      {[ "county" := VStr "Taipei"; "sitename" := VStr "Zhongshan" ]} = Ok p
    /\ exists! b : bucket, payload_style p = Some (bucket_style b).
Proof.
  apply (build_embed_total_with_station Runtime.float_repr _
           (VStr "Taipei") (VStr "Zhongshan")); reflexivity.
Defined.

(** C3, as the claim states it, fails: a record without [county] makes
    line 98 raise [KeyError], and no payload is produced. *)
Lemma build_embed_not_total :
  build_embed Runtime.float_repr {[ "aqi" := VInt 50; "sitename" := VStr "Zhongshan" ]}
  = Raise KeyError
  /\ ~ exists p : payload,
        build_embed Runtime.float_repr
          {[ "aqi" := VInt 50; "sitename" := VStr "Zhongshan" ]} = Ok p.
Proof.
  assert (H : build_embed Runtime.float_repr
                {[ "aqi" := VInt 50; "sitename" := VStr "Zhongshan" ]}
              = Raise KeyError) by (vm_compute; reflexivity).
  split; [exact H |]. intros [p Hp]. rewrite H in Hp. discriminate Hp.
Qed.


(** C10. When the AQI converts to a negative integer, the payload shows
    the remark and colour of the lowest bucket, good and green. *)
Theorem build_embed_negative_aqi
    (float_repr : Q -> string) (data : dict) (p : payload) (z : Z) :
  build_embed float_repr data = Ok p ->
  Py.int (Py.get data "aqi" (VStr "N/A")) = Ok z ->
  z < 0 ->
  payload_style p = Some (remark_good, green).
Proof.
  intros Hp Hz Hneg. rewrite (build_embed_style _ _ _ Hp).
  unfold aqi_value. rewrite Hz. unfold severity.
  destruct (Z.leb_spec z 50); [reflexivity | lia].
Qed.


Lemma build_embed_negative_aqi_witness :
  exists p : payload,
    build_embed Runtime.float_repr (<["aqi" := VStr "-5"]> example_station) = Ok p
    /\ payload_style p = Some (remark_good, green).
Proof.
  eexists. split; [vm_compute; reflexivity |].
  apply (build_embed_negative_aqi Runtime.float_repr
           (<["aqi" := VStr "-5"]> example_station) _ (-5));
    [vm_compute; reflexivity | vm_compute; reflexivity | lia].
Defined.

(** C9. The payload [build_embed] returns has one embed whose fields are,
    in this order, location, AQI, status, the six pollutant readings, wind
    speed, wind direction, update time and remark; each of status, the six
    readings, wind speed, wind direction and update time that the record
    lacks is shown with the text N/A, and each one it has with its value. *)
Theorem build_embed_layout
    (float_repr : Q -> string) (data : dict) (p : payload) :
  build_embed float_repr data = Ok p ->
  exists e : embed,
    p_embeds p = [e]
    /\ map f_name (e_fields e) = field_layout
    /\ Forall (λ kn : string * string,
                 (data !! kn.1 = None ->
                  exists i : bool, Field kn.2 (VStr "N/A") i ∈ e_fields e)
                 /\ (forall v : value, data !! kn.1 = Some v ->
                     exists i : bool, Field kn.2 v i ∈ e_fields e))
              optional_fields.
Proof.
  unfold build_embed, Py.getitem.
  destruct (severity _) as [remark color].
  destruct (data !! "county") as [c |]; [| discriminate].
  destruct (data !! "sitename") as [s |]; [| discriminate].
  cbn [bind]. intros [= <-]. eexists. split; [reflexivity |].
  split; [reflexivity |].
  unfold optional_fields, Py.get.
  repeat apply Forall_cons_2; try apply Forall_nil_2;
    cbn [fst snd]; (split; [intros -> | intros v ->]); eexists; cbn [e_fields];
    repeat first [apply list_elem_of_here | apply list_elem_of_further].
Qed.

Lemma build_embed_layout_witness :
  exists p : payload,
    build_embed Runtime.float_repr example_station = Ok p
    /\ exists e : embed,
         p_embeds p = [e]
         /\ map f_name (e_fields e) = field_layout
         /\ Forall (λ kn : string * string,
                      (example_station !! kn.1 = None ->
                       exists i : bool, Field kn.2 (VStr "N/A") i ∈ e_fields e)
                      /\ (forall v : value, example_station !! kn.1 = Some v ->
                          exists i : bool, Field kn.2 v i ∈ e_fields e))
                   optional_fields.
Proof.
  eexists. split; [vm_compute; reflexivity |].
  apply (build_embed_layout Runtime.float_repr example_station).
  vm_compute. reflexivity.
Defined.

(** ** The freshness check and the poll cycle *)

Lemma py_eq_refl (v : value) : Py.eq v v = true.
Proof.
  destruct v as [| b | z | q | s]; cbn; try reflexivity.
  - apply Qeq_bool_refl.
  - apply Qeq_bool_refl.
  - apply Qeq_bool_refl.
  - apply String.eqb_refl.
Qed.

Lemma py_eq_str (r : string) (v : value) :
  Py.eq (VStr r) v = true <-> v = VStr r.
Proof.
  destruct v as [| b | z | q | s]; cbn; try (split; discriminate).
  rewrite String.eqb_eq. split; congruence.
Qed.

Lemma is_new_import_str (r : string) (v : value) :
  is_new_import (VStr r) v
  = if decide (v = VStr r) then (false, v) else (true, VStr r).
Proof.
  unfold is_new_import, Py.ne.
  destruct (Py.eq (VStr r) v) eqn:Heq; cbn [negb].
  - apply py_eq_str in Heq. destruct (decide _); [reflexivity | contradiction].
  - destruct (decide (v = VStr r)) as [Hv | Hv]; [| reflexivity].
    apply py_eq_str in Hv. congruence.
Qed.

Section PollProps.
Variable float_repr : Q -> string.
Variable webhook : payload -> delivery.

(** The poll cycle on a record set whose first record has a revision. *)
Lemma check_and_notify_first (first : dict) (rest : list dict)
    (newest : value) (w : world) :
  first !! "ImportDate" = Some newest ->
  check_and_notify float_repr webhook (Body (Some (first :: rest))) w
  = if Py.ne newest (_last_import w) then
      match build_embed float_repr first with
      | Ok p =>
          World newest (posted w ++ [p])
            match webhook p with
            | Lost => printed w ++ [RequestError]
            | Rejected => printed w ++ [HTTPStatusError]
            | Accepted => printed w
            end
      | Raise e => World newest (posted w) (printed w ++ [e])
      end
    else w.
Proof.
  intros Hrev.
  cbv [check_and_notify poll_body is_new_import Py.getitem fetch_all_records].
  rewrite Hrev.
  destruct (Py.ne newest (_last_import w)).
  - destruct (build_embed float_repr first) as [p | e]; [| reflexivity].
    unfold send_to_discord. destruct (webhook p); reflexivity.
  - destruct w; reflexivity.
Qed.
End PollProps.

(** C1. The check of lines 137-138 on a revision identifier is the
    specification's tracker: it answers true and stores the identifier
    exactly when the identifier differs from the stored value; from the
    unset state every identifier is new; the answer and the next stored
    value are those of [isNewRevision]; a first call, an immediate repeat
    and a later call answer true, false, and true when the later identifier
    differs; and [check_and_notify] leaves in [_last_import] the tracker's
    next state. *)
Theorem is_new_import_tracker (revisionId : string) (t : tracker) :
  (is_new_import (VStr revisionId) (stored t) = (true, VStr revisionId)
   <-> stored t <> VStr revisionId)
  /\ (is_new_import (VStr revisionId) (stored t) = (false, stored t)
      <-> stored t = VStr revisionId)
  /\ is_new_import (VStr revisionId) (_last_import initial) = (true, VStr revisionId)
  /\ is_new_import (VStr revisionId) (stored t)
     = ((isNewRevision revisionId t).1, stored (isNewRevision revisionId t).2)
  /\ (forall later : string,
        checks [VStr revisionId; VStr revisionId; VStr later] (_last_import initial)
        = [true; false; negb (String.eqb later revisionId)])
  /\ (forall (float_repr : Q -> string) (webhook : payload -> delivery)
             (first : dict) (rest : list dict) (w : world),
        _last_import w = stored t ->
        _last_import
          (check_and_notify float_repr webhook
             (Body (Some (<["ImportDate" := VStr revisionId]> first :: rest))) w)
        = stored (isNewRevision revisionId t).2).
Proof.
  assert (Hspec : is_new_import (VStr revisionId) (stored t)
                  = ((isNewRevision revisionId t).1,
                     stored (isNewRevision revisionId t).2)).
  { rewrite is_new_import_str. destruct t as [| r]; cbn.
    - destruct (decide _) as [H | H]; [discriminate H | reflexivity].
    - destruct (String.eqb_spec revisionId r) as [-> | Hne];
        destruct (decide _) as [H | H]; cbn; try reflexivity; congruence. }
  split; [| split; [| split; [| split; [| split]]]].
  - rewrite is_new_import_str. destruct (decide _); split; congruence.
  - rewrite is_new_import_str. destruct (decide _); split; congruence.
  - reflexivity.
  - exact Hspec.
  - intros later.
    cbv [checks initial _last_import is_new_import Py.ne Py.eq Py.num_of negb].
    rewrite String.eqb_refl.
    destruct (String.eqb later revisionId); reflexivity.
  - intros float_repr webhook first rest w Hw.
    rewrite (check_and_notify_first _ _ _ _ (VStr revisionId))
      by apply lookup_insert_eq.
    pose proof Hspec as Hs. unfold is_new_import in Hs. rewrite <- Hw in Hs.
    destruct (Py.ne (VStr revisionId) (_last_import w)).
    + injection Hs as _ <-.
      destruct (build_embed _ _); reflexivity.
    + injection Hs as _ Hs. rewrite <- Hs. reflexivity.
Qed.

(** C5, as the code has it.  An empty record set, or a body without
    records, leaves the process as it was.  When the first record carries
    [ImportDate], [county] and [sitename], the cycle POSTs exactly one
    notification, the payload of that record, if its revision differs from
    the stored one, and none otherwise; polling the same record set again
    POSTs nothing more. *)
Theorem check_and_notify_once
    (float_repr : Q -> string) (webhook : payload -> delivery)
    (first : dict) (rest : list dict) (w : world)
    (newest county sitename : value) :
  first !! "ImportDate" = Some newest ->
  first !! "county" = Some county ->
  first !! "sitename" = Some sitename ->
  check_and_notify float_repr webhook (Body (Some [])) w = w
  /\ check_and_notify float_repr webhook (Body None) w = w
  /\ exists p : payload,
       build_embed float_repr first = Ok p
       /\ posted (check_and_notify float_repr webhook (Body (Some (first :: rest))) w)
          = (posted w ++ if Py.ne newest (_last_import w) then [p] else [])%list
       /\ posted
            (check_and_notify float_repr webhook (Body (Some (first :: rest)))
               (check_and_notify float_repr webhook (Body (Some (first :: rest))) w))
          = posted (check_and_notify float_repr webhook (Body (Some (first :: rest))) w).
Proof.
  intros Hrev Hc Hs.
  split; [destruct w; reflexivity |]. split; [destruct w; reflexivity |].
  destruct (build_embed_ok float_repr first county sitename Hc Hs) as (p & Hp & _).
  exists p. split; [exact Hp |].
  rewrite !(check_and_notify_first _ _ _ _ newest) by exact Hrev.
  rewrite Hp.
  destruct (Py.ne newest (_last_import w)) eqn:Hne; cbn [_last_import posted].
  - unfold Py.ne. rewrite py_eq_refl. cbn [negb posted]. split; reflexivity.
  - rewrite Hne, app_nil_r. split; reflexivity.
Qed.

Lemma check_and_notify_once_witness :
  exists p : payload,
    build_embed Runtime.float_repr example_station = Ok p
    /\ posted (check_and_notify Runtime.float_repr (λ _, Accepted)
                 (Body (Some [example_station]))
                 (World (VStr "2023-12-31T23:00") [] []))
       = [p]
    /\ posted
         (check_and_notify Runtime.float_repr (λ _, Accepted)
            (Body (Some [example_station]))
            (check_and_notify Runtime.float_repr (λ _, Accepted)
               (Body (Some [example_station]))
               (World (VStr "2023-12-31T23:00") [] [])))
       = posted (check_and_notify Runtime.float_repr (λ _, Accepted)
                   (Body (Some [example_station]))
                   (World (VStr "2023-12-31T23:00") [] [])).
Proof.
  apply (check_and_notify_once Runtime.float_repr (λ _, Accepted)
           example_station [] (World (VStr "2023-12-31T23:00") [] [])
           (VStr "2024-01-01T00:00") (VStr "臺北市") (VStr "中山"));
    reflexivity.
Defined.

(** C5, as the claim states it, fails: the revision of the first record is
    new, yet no notification is POSTed, because the record lacks [county]
    and line 98 raises inside the [try] block. *)
Lemma check_and_notify_new_without_post :
  Py.ne (VStr "2024-01-01T00:00") (VStr "2023-12-31T23:00") = true
  /\ check_and_notify Runtime.float_repr (λ _, Accepted)
       (Body (Some [ {[ "ImportDate" := VStr "2024-01-01T00:00" ]} ]))
       (World (VStr "2023-12-31T23:00") [] [])
     = World (VStr "2024-01-01T00:00") [] [KeyError].
Proof. split; vm_compute; reflexivity. Qed.

(** C8. When the upstream fetch fails, the poll cycle POSTs nothing and
    leaves [_last_import] as it was; the failure is printed. *)
Theorem check_and_notify_fetch_failure
    (float_repr : Q -> string) (webhook : payload -> delivery)
    (u : upstream) (w : world) (e : exn) :
  fetch_all_records u = Raise e ->
  _last_import (check_and_notify float_repr webhook u w) = _last_import w
  /\ posted (check_and_notify float_repr webhook u w) = posted w
  /\ printed (check_and_notify float_repr webhook u w) = (printed w ++ [e])%list.
Proof.
  intros Hfetch. unfold check_and_notify, poll_body. rewrite Hfetch.
  repeat split.
Qed.

Lemma check_and_notify_fetch_failure_witness :
  _last_import (check_and_notify Runtime.float_repr (λ _, Accepted) ErrorStatus
                 (World (VStr "2023-12-31T23:00") [] []))
  = VStr "2023-12-31T23:00"
  /\ posted (check_and_notify Runtime.float_repr (λ _, Accepted) ErrorStatus
               (World (VStr "2023-12-31T23:00") [] []))
     = []
  /\ printed (check_and_notify Runtime.float_repr (λ _, Accepted) ErrorStatus
                (World (VStr "2023-12-31T23:00") [] []))
     = [HTTPStatusError].
Proof.
  apply (check_and_notify_fetch_failure Runtime.float_repr (λ _, Accepted)
           ErrorStatus (World (VStr "2023-12-31T23:00") [] []) HTTPStatusError).
  reflexivity.
Defined.

(** Which upstream outcomes are fetch failures. *)
Lemma fetch_all_records_failure (u : upstream) :
  (exists e : exn, fetch_all_records u = Raise e)
  <-> u = Unreachable \/ u = ErrorStatus \/ u = BadBody.
Proof.
  split.
  - intros [e He]. destruct u as [| | | [records |]]; try discriminate He; auto.
  - intros [-> | [-> | ->]]; eexists; reflexivity.
Qed.

(** * Further properties of the code *)

(** ** [haversine] *)

#[local] Open Scope R_scope.

Section HaversineMore.
Context {rt : FloatRuntime}.

Lemma fdiv_2_ok (x : pyfloat) : exists h : pyfloat, fdiv x (Finite 2) = Ok h.
Proof.
  unfold fdiv. destruct (Req_dec_T 2 0); [lra |]. destruct x; eauto.
Qed.

Lemma math_sin_raise (x : pyfloat) (e : exn) : math_sin x = Raise e -> e = ValueError.
Proof. destruct x; cbn; congruence. Qed.

Lemma math_sqrt_raise (x : pyfloat) (e : exn) : math_sqrt x = Raise e -> e = ValueError.
Proof.
  destruct x as [r | | |]; cbn; try congruence.
  destruct (Rlt_dec r 0); congruence.
Qed.

Lemma float_pow2_raise (x : pyfloat) (e : exn) :
  float_pow2 x = Raise e -> e = OverflowError.
Proof.
  destruct x as [r | | |]; cbn; try congruence.
  destruct (Req_dec_T r 0); [congruence |].
  destruct (Req_dec_T (Rabs r) 1); [congruence |].
  destruct (libm_pow (Rabs r) 2); congruence.
Qed.

Lemma sin2_half_raise (x : pyfloat) (e : exn) :
  sin2_half x = Raise e -> e = ValueError \/ e = OverflowError.
Proof.
  unfold sin2_half. destruct (fdiv_2_ok (math_radians x)) as [h ->]. cbn [bind].
  destruct (math_sin h) as [s | e'] eqn:Hs; cbn [bind].
  - intros H. right. exact (float_pow2_raise _ _ H).
  - intros [= <-]. left. exact (math_sin_raise _ _ Hs).
Qed.

Lemma haversine_formula_raise (lat1 lon1 lat2 lon2 : pyfloat) (e : exn) :
  haversine_formula lat1 lon1 lat2 lon2 = Raise e -> e = ValueError \/ e = OverflowError.
Proof.
  unfold haversine_formula.
  destruct (sin2_half (fsub lat2 lat1)) as [h1 | e1] eqn:H1; cbn [bind];
    [| intros [= <-]; exact (sin2_half_raise _ _ H1)].
  destruct (math_cos (math_radians lat1)) as [c1 | e1] eqn:Hc1; cbn [bind];
    [| intros [= <-]; left; exact (math_cos_raise _ _ Hc1)].
  destruct (math_cos (math_radians lat2)) as [c2 | e2] eqn:Hc2; cbn [bind];
    [| intros [= <-]; left; exact (math_cos_raise _ _ Hc2)].
  destruct (sin2_half (fsub lon2 lon1)) as [h2 | e2] eqn:H2; cbn [bind];
    [| intros [= <-]; exact (sin2_half_raise _ _ H2)].
  destruct (math_sqrt (fadd h1 (fmul (fmul c1 c2) h2))) as [sa | e3] eqn:Hsa; cbn [bind];
    [| intros [= <-]; left; exact (math_sqrt_raise _ _ Hsa)].
  destruct (math_sqrt (fsub (Finite 1) _)) as [sb | e4] eqn:Hsb; cbn [bind];
    [intros H; discriminate H | intros [= <-]; left; exact (math_sqrt_raise _ _ Hsb)].
Qed.

End HaversineMore.

(** X1. [haversine] has two ways to fail and no other: a [ValueError]
    from [math.sin], [math.cos] or [math.sqrt], or an [OverflowError] from
    the squaring.  It does fail, with [ValueError], whenever one of the
    two latitudes is infinite. *)
Theorem haversine_failure_modes {rt : FloatRuntime} (lat1 lon1 lat2 lon2 : pyfloat) :
  (forall e : exn,
      haversine lat1 lon1 lat2 lon2 = Raise e -> e = ValueError \/ e = OverflowError)
  /\ (infinite lat1 \/ infinite lat2 ->
      haversine lat1 lon1 lat2 lon2 = Raise ValueError).
Proof.
  split.
  - intros e. rewrite haversine_is_formula. apply haversine_formula_raise.
  - apply haversine_infinite_latitude.
Qed.

(** X2. On a platform that keeps to [IEEE] and whose cosine is even,
    mirroring both points at the equator changes nothing: the call
    returns the same distance or raises the same exception. *)
Theorem haversine_mirror {rt : FloatRuntime} {ieee : IEEE rt}
    (lat1 lon1 lat2 lon2 : pyfloat) :
  (forall x : R, libm_cos (- x) = libm_cos x) ->
  haversine (fneg lat1) lon1 (fneg lat2) lon2 = haversine lat1 lon1 lat2 lon2.
Proof.
  intros Heven. rewrite !haversine_is_formula. unfold haversine_formula.
  assert (Hcos : forall x : pyfloat,
             math_cos (math_radians (fneg x)) = math_cos (math_radians x)).
  { intros x. rewrite math_radians_fneg.
    destruct (math_radians x) as [r | | |]; cbn; try reflexivity.
    rewrite Heven. reflexivity. }
  assert (Hsub : fsub (fneg lat2) (fneg lat1) = fneg (fsub lat2 lat1)).
  { destruct lat1 as [x | | |], lat2 as [y | | |]; cbn; try reflexivity.
    rewrite <- rnd_opp. f_equal. lra. }
  rewrite Hsub, sin2_half_fneg, !Hcos. reflexivity.
Qed.

Lemma haversine_mirror_witness :
  haversine (rt := Runtime.exact) (fneg (Finite 25)) (Finite 121) (fneg (Finite 24)) (Finite 120)
  = haversine (rt := Runtime.exact) (Finite 25) (Finite 121) (Finite 24) (Finite 120).
Proof.
  apply (haversine_mirror (ieee := exact_ieee)). intros x. apply cos_neg.
Defined.

#[local] Open Scope Z_scope.

(** ** More on the station matcher *)

(** X5. The first record [find_nearest] returns is a nearest one: no
    record of the input with readable coordinates is closer to the query
    point.  Among the records at that same distance it is the first of the
    input. *)
Theorem find_nearest_head_is_nearest {rt : FloatRuntime}
    (float_of_str : string -> option pyfloat) (records : list dict)
    (lat lon max_km : pyfloat) (first : dict) (rest : list dict) :
  find_nearest float_of_str records lat lon max_km = Ok (first :: rest) ->
  exists d0 : pyfloat,
    distance_to float_of_str lat lon first = Some d0
    /\ float_le d0 max_km
    /\ first ∈ records
    /\ (forall (r : dict) (d : pyfloat),
          r ∈ records -> distance_to float_of_str lat lon r = Some d ->
          float_le d0 d \/ d = NaN)
    /\ exists later : list dict,
         filter (λ r, distance_to float_of_str lat lon r = Some d0) records
         = first :: later.
Proof.
  intros Hout.
  destruct (find_nearest_facts _ _ _ _ _ _ Hout) as (Hperm & Hsorted & Hstable).
  assert (Hfirst : first ∈ filter (within float_of_str lat lon max_km) records).
  { rewrite <- Hperm. apply list_elem_of_here. }
  apply list_elem_of_filter in Hfirst as [Hw Hin].
  unfold within in Hw.
  destruct (distance_to float_of_str lat lon first) as [d0 |] eqn:Hd0; [| tauto].
  destruct (float_le_not_nan _ _ Hw) as [Hd0n Hkm].
  exists d0. split; [reflexivity |]. split; [exact Hw |]. split; [exact Hin |]. split.
  - intros r d Hr Hd.
    destruct (decide (d = NaN)) as [-> | Hdn]; [right; reflexivity | left].
    destruct (decide (float_le d max_km)) as [Hle | Hgt].
    + assert (Hr' : r ∈ first :: rest).
      { rewrite Hperm. apply list_elem_of_filter. split; [| exact Hr].
        unfold within. rewrite Hd. exact Hle. }
      apply elem_of_cons in Hr' as [-> | Hr'].
      * rewrite Hd0 in Hd. injection Hd as <-. apply float_le_refl, Hd0n.
      * apply StronglySorted_inv in Hsorted as [_ Hall].
        rewrite Forall_forall in Hall. specialize (Hall _ Hr').
        unfold nearer in Hall. rewrite Hd0, Hd in Hall. exact Hall.
    + destruct (float_le_total d0 d Hd0n Hdn) as [H | H]; [exact H |].
      exfalso. apply Hgt. eapply float_le_trans; eassumption.
  - specialize (Hstable d0). rewrite filter_cons in Hstable.
    destruct (decide (distance_to float_of_str lat lon first = Some d0)); [| contradiction].
    rewrite list_filter_filter in Hstable.
    eexists. rewrite Hstable. apply list_filter_iff. intros r. split; [| tauto].
    intros Hr. split; [exact Hr |]. unfold within. rewrite Hr. exact Hw.
Qed.

Lemma find_nearest_head_is_nearest_witness :
  exists d0 : pyfloat,
    distance_to (rt := Runtime.exact) Runtime.float_of_str (Finite 25) (Finite 121)
      (station_at "A" "25" "121") = Some d0
    /\ float_le d0 (Finite 0)
    /\ station_at "A" "25" "121"
       ∈ [station_at "A" "25" "121"; station_at "B" "abc" "121";
          station_at "C" "25.0" "121.0"]
    /\ (forall (r : dict) (d : pyfloat),
          r ∈ [station_at "A" "25" "121"; station_at "B" "abc" "121";
               station_at "C" "25.0" "121.0"] ->
          distance_to (rt := Runtime.exact) Runtime.float_of_str (Finite 25) (Finite 121) r
          = Some d ->
          float_le d0 d \/ d = NaN)
    /\ exists later : list dict,
         filter (λ r, distance_to (rt := Runtime.exact) Runtime.float_of_str
                        (Finite 25) (Finite 121) r = Some d0)
           [station_at "A" "25" "121"; station_at "B" "abc" "121";
            station_at "C" "25.0" "121.0"]
         = station_at "A" "25" "121" :: later.
Proof.
  apply (find_nearest_head_is_nearest (rt := Runtime.exact) Runtime.float_of_str _
           (Finite 25) (Finite 121) (Finite 0)
           (station_at "A" "25" "121") [station_at "C" "25.0" "121.0"]).
  exact find_nearest_ex.
Defined.

Section RadiusProps.
Context {rt : FloatRuntime}.
Variable float_of_str : string -> option pyfloat.
Variables lat lon : pyfloat.

Lemma candidate_shrink (km1 km2 : pyfloat) (r : dict) :
  float_le km1 km2 ->
  candidate float_of_str lat lon km1 r
  = match candidate float_of_str lat lon km2 r with
    | Some c => if decide (float_le (snd c) km1) then Some c else None
    | None => None
    end.
Proof.
  intros Hk. unfold candidate.
  destruct (distance_to float_of_str lat lon r) as [d |]; [| reflexivity].
  destruct (decide (float_le d km1)) as [H1 | H1],
           (decide (float_le d km2)) as [H2 | H2];
    cbn [snd]; try destruct (decide (float_le d km1)); try reflexivity;
    try contradiction.
  exfalso. apply H2. eapply float_le_trans; eassumption.
Qed.

Lemma candidates_shrink (km1 km2 : pyfloat) (records : list dict) :
  float_le km1 km2 ->
  omap (candidate float_of_str lat lon km1) records
  = filter (λ c, float_le (snd c) km1) (omap (candidate float_of_str lat lon km2) records).
Proof.
  intros Hk. induction records as [| r records IH]; [reflexivity |].
  cbn [omap list_omap]. rewrite (candidate_shrink km1 km2 r Hk).
  destruct (candidate float_of_str lat lon km2 r) as [c |]; [| exact IH].
  rewrite filter_cons. destruct (decide (float_le c.2 km1)); rewrite IH; reflexivity.
Qed.

Lemma candidates_not_nan (max_km : pyfloat) (records : list dict) :
  Forall (λ c : dict * pyfloat, snd c <> NaN)
         (omap (candidate float_of_str lat lon max_km) records).
Proof.
  eapply Forall_impl; [apply candidates_distance |]. cbn. intros c [_ Hle].
  apply float_le_not_nan in Hle. tauto.
Qed.

(** Whether [find_nearest] raises, and what, does not depend on the
    radius. *)
Lemma find_nearest_raise_radius (records : list dict) (km1 km2 : pyfloat) (e : exn) :
  find_nearest float_of_str records lat lon km1 = Raise e ->
  find_nearest float_of_str records lat lon km2 = Raise e.
Proof.
  intros H.
  destruct (records_cases float_of_str lat lon records)
    as [Hpass | (before & r & after & e' & -> & Hb & He)].
  - rewrite (find_nearest_passable _ _ _ _ _ Hpass) in H. discriminate H.
  - rewrite (find_nearest_failure _ _ _ _ _ _ _ _ Hb He) in H.
    rewrite (find_nearest_failure _ _ _ _ _ _ _ _ Hb He). exact H.
Qed.

End RadiusProps.

(** X6. Enlarging the radius only appends farther records.  The two calls
    raise alike, whatever they raise; and when the call with the larger
    radius returns, the call with the smaller radius returns a prefix of
    its result. *)
Theorem find_nearest_radius_monotone {rt : FloatRuntime}
    (float_of_str : string -> option pyfloat) (records : list dict)
    (lat lon km1 km2 : pyfloat) :
  float_le km1 km2 ->
  (forall e : exn,
      find_nearest float_of_str records lat lon km1 = Raise e
      <-> find_nearest float_of_str records lat lon km2 = Raise e)
  /\ (forall out2 : list dict,
        find_nearest float_of_str records lat lon km2 = Ok out2 ->
        exists out1 : list dict,
          find_nearest float_of_str records lat lon km1 = Ok out1
          /\ out1 `prefix_of` out2).
Proof.
  intros Hk. split.
  - intros e. split; apply find_nearest_raise_radius.
  - intros out2 Hout2. apply find_nearest_ok_inv in Hout2 as [Hpass ->].
    eexists. split; [apply find_nearest_passable, Hpass |].
    rewrite (candidates_shrink float_of_str lat lon km1 km2 records Hk).
    rewrite list_sort_filter by apply candidates_not_nan.
    apply map_prefix, sorted_filter_le_prefix, list_sort_sorted, candidates_not_nan.
Qed.

Lemma find_nearest_radius_monotone_witness :
  (forall e : exn,
      find_nearest (rt := Runtime.exact) Runtime.float_of_str
        [station_at "A" "25" "121"; station_at "B" "abc" "121"]
        (Finite 25) (Finite 121) (Finite 0) = Raise e
      <-> find_nearest (rt := Runtime.exact) Runtime.float_of_str
            [station_at "A" "25" "121"; station_at "B" "abc" "121"]
            (Finite 25) (Finite 121) (Finite 10) = Raise e)
  /\ (forall out2 : list dict,
        find_nearest (rt := Runtime.exact) Runtime.float_of_str
          [station_at "A" "25" "121"; station_at "B" "abc" "121"]
          (Finite 25) (Finite 121) (Finite 10) = Ok out2 ->
        exists out1 : list dict,
          find_nearest (rt := Runtime.exact) Runtime.float_of_str
            [station_at "A" "25" "121"; station_at "B" "abc" "121"]
            (Finite 25) (Finite 121) (Finite 0) = Ok out1
          /\ out1 `prefix_of` out2).
Proof.
  apply find_nearest_radius_monotone. cbn. lra.
Defined.

(** X7. [find_nearest] returns the empty list exactly when every record
    of the input is left out without raising: each is malformed, or has a
    distance that is not at most the radius. *)
Theorem find_nearest_empty_iff {rt : FloatRuntime}
    (float_of_str : string -> option pyfloat) (records : list dict)
    (lat lon max_km : pyfloat) :
  find_nearest float_of_str records lat lon max_km = Ok []
  <-> forall r : dict, r ∈ records ->
        malformed float_of_str r
        \/ exists d : pyfloat,
             distance_to float_of_str lat lon r = Some d /\ ~ float_le d max_km.
Proof.
  rewrite find_nearest_nil_iff, Forall_forall. reflexivity.
Qed.

(** X8. Which records [find_nearest] returns does not depend on the order
    of the input: a permuted input makes the call return exactly when the
    original does, and the two results are permutations of each other. *)
Theorem find_nearest_permutation {rt : FloatRuntime}
    (float_of_str : string -> option pyfloat) (records records' : list dict)
    (lat lon max_km : pyfloat) :
  records ≡ₚ records' ->
  ((exists out : list dict, find_nearest float_of_str records lat lon max_km = Ok out)
   <-> (exists out' : list dict,
          find_nearest float_of_str records' lat lon max_km = Ok out'))
  /\ (forall out out' : list dict,
        find_nearest float_of_str records lat lon max_km = Ok out ->
        find_nearest float_of_str records' lat lon max_km = Ok out' ->
        out ≡ₚ out').
Proof.
  intros Hp. split.
  - rewrite !find_nearest_returns_iff, Hp. reflexivity.
  - intros out out' Hout Hout'.
    apply find_nearest_perm in Hout, Hout'. rewrite Hout, Hout', Hp. reflexivity.
Qed.

Lemma find_nearest_permutation_witness :
  ((exists out : list dict,
       find_nearest (rt := Runtime.exact) Runtime.float_of_str
         [station_at "A" "25" "121"; station_at "B" "abc" "121"]
         (Finite 25) (Finite 121) (Finite 10) = Ok out)
   <-> (exists out' : list dict,
          find_nearest (rt := Runtime.exact) Runtime.float_of_str
            [station_at "B" "abc" "121"; station_at "A" "25" "121"]
            (Finite 25) (Finite 121) (Finite 10) = Ok out'))
  /\ (forall out out' : list dict,
        find_nearest (rt := Runtime.exact) Runtime.float_of_str
          [station_at "A" "25" "121"; station_at "B" "abc" "121"]
          (Finite 25) (Finite 121) (Finite 10) = Ok out ->
        find_nearest (rt := Runtime.exact) Runtime.float_of_str
          [station_at "B" "abc" "121"; station_at "A" "25" "121"]
          (Finite 25) (Finite 121) (Finite 10) = Ok out' ->
        out ≡ₚ out').
Proof.
  apply find_nearest_permutation. apply perm_swap.
Defined.

(** X28. What [find_nearest] returns, whenever it returns, is exactly the
    records within the radius (a permutation of them), in non-decreasing
    order of distance, records at one and the same distance keeping their
    input order; every returned record has a distance, which is at most
    the radius. *)
Theorem find_nearest_returned_sorted_within {rt : FloatRuntime}
    (float_of_str : string -> option pyfloat) (records : list dict)
    (lat lon max_km : pyfloat) (out : list dict) :
  find_nearest float_of_str records lat lon max_km = Ok out ->
  out ≡ₚ filter (within float_of_str lat lon max_km) records
  /\ StronglySorted (nearer float_of_str lat lon) out
  /\ (forall d : pyfloat,
        filter (λ r, distance_to float_of_str lat lon r = Some d) out
        = filter (λ r, distance_to float_of_str lat lon r = Some d)
            (filter (within float_of_str lat lon max_km) records))
  /\ Forall (within float_of_str lat lon max_km) out.
Proof.
  intros Hout.
  destruct (find_nearest_facts _ _ _ _ _ _ Hout) as (Hperm & Hsorted & Hstable).
  split; [exact Hperm |]. split; [exact Hsorted |]. split; [exact Hstable |].
  apply Forall_forall. intros r Hr. rewrite Hperm in Hr.
  apply list_elem_of_filter in Hr. tauto.
Qed.

Lemma find_nearest_returned_sorted_within_witness :
  [station_at "A" "25" "121"; station_at "C" "25.0" "121.0"]
  ≡ₚ filter (within (rt := Runtime.exact) Runtime.float_of_str
               (Finite 25) (Finite 121) (Finite 0))
       [station_at "A" "25" "121"; station_at "B" "abc" "121";
        station_at "C" "25.0" "121.0"]
  /\ StronglySorted
       (nearer (rt := Runtime.exact) Runtime.float_of_str (Finite 25) (Finite 121))
       [station_at "A" "25" "121"; station_at "C" "25.0" "121.0"]
  /\ (forall d : pyfloat,
        filter (λ r, distance_to (rt := Runtime.exact) Runtime.float_of_str
                       (Finite 25) (Finite 121) r = Some d)
          [station_at "A" "25" "121"; station_at "C" "25.0" "121.0"]
        = filter (λ r, distance_to (rt := Runtime.exact) Runtime.float_of_str
                         (Finite 25) (Finite 121) r = Some d)
            (filter (within (rt := Runtime.exact) Runtime.float_of_str
                       (Finite 25) (Finite 121) (Finite 0))
               [station_at "A" "25" "121"; station_at "B" "abc" "121";
                station_at "C" "25.0" "121.0"]))
  /\ Forall (within (rt := Runtime.exact) Runtime.float_of_str
               (Finite 25) (Finite 121) (Finite 0))
       [station_at "A" "25" "121"; station_at "C" "25.0" "121.0"].
Proof.
  apply (find_nearest_returned_sorted_within (rt := Runtime.exact) Runtime.float_of_str).
  exact find_nearest_ex.
Defined.

(** X29. [find_nearest] returns exactly when [haversine] returns on every
    record that gives a position.  Otherwise it raises what [haversine]
    raises on the first record on which it fails, the records after that
    one not being looked at; and whatever it raises, [haversine] raised on
    a record of the input. *)
Theorem find_nearest_first_failure {rt : FloatRuntime}
    (float_of_str : string -> option pyfloat) (records : list dict)
    (lat lon max_km : pyfloat) :
  ((exists out : list dict, find_nearest float_of_str records lat lon max_km = Ok out)
   <-> Forall (passable float_of_str lat lon) records)
  /\ (forall (before : list dict) (r : dict) (after : list dict) (e : exn),
        records = (before ++ r :: after)%list ->
        Forall (passable float_of_str lat lon) before ->
        failure_at float_of_str lat lon r = Some e ->
        find_nearest float_of_str records lat lon max_km = Raise e)
  /\ (forall e : exn,
        find_nearest float_of_str records lat lon max_km = Raise e ->
        exists (r : dict) (rl rn : pyfloat),
          r ∈ records
          /\ coordinates float_of_str r = Ok (rl, rn)
          /\ haversine lat lon rl rn = Raise e).
Proof.
  split; [apply find_nearest_returns_iff |]. split.
  - intros before r after e -> Hb He. apply find_nearest_failure; assumption.
  - intros e H.
    destruct (records_cases float_of_str lat lon records)
      as [Hpass | (before & r & after & e' & -> & Hb & He)].
    + rewrite (find_nearest_passable _ _ _ _ _ Hpass) in H. discriminate H.
    + rewrite (find_nearest_failure _ _ _ _ _ _ _ _ Hb He) in H. injection H as <-.
      unfold failure_at in He.
      destruct (position float_of_str r) as [[rl rn] |] eqn:Hpos; [| discriminate He].
      exists r, rl, rn. split; [apply elem_of_app; right; apply list_elem_of_here |].
      split; [apply coordinates_of_position, Hpos |].
      destruct (haversine lat lon rl rn); congruence.
Qed.

(** X31. With a radius that is NaN nothing is within reach:
    [find_nearest] returns the empty list, unless [haversine] raises on a
    record. *)
Theorem find_nearest_nan_radius {rt : FloatRuntime}
    (float_of_str : string -> option pyfloat) (records : list dict)
    (lat lon : pyfloat) :
  find_nearest float_of_str records lat lon NaN = Ok []
  \/ exists e : exn, find_nearest float_of_str records lat lon NaN = Raise e.
Proof.
  destruct (records_cases float_of_str lat lon records)
    as [Hpass | (before & r & after & e & -> & Hb & He)].
  - left. apply find_nearest_nil_iff. apply Forall_forall. intros r Hr.
    apply out_of_reach_iff. rewrite Forall_forall in Hpass.
    split; [auto |]. unfold within.
    destruct (distance_to float_of_str lat lon r) as [d |]; [| tauto].
    destruct d; cbn; tauto.
  - right. exists e. apply find_nearest_failure; assumption.
Qed.

(** ** The request handlers *)

#[local] Open Scope Z_scope.

Lemma comprehension_ok {A B : Type} (f : A -> result B) (l : list A) (ys : list B) :
  comprehension f l = Ok ys <-> Forall2 (λ x y, f x = Ok y) l ys.
Proof.
  revert ys. induction l as [| x l IH]; intros ys; cbn [comprehension].
  - split; [intros [= <-]; constructor | intros H; inversion H; reflexivity].
  - split.
    + destruct (f x) as [y | e] eqn:Hx; [| discriminate]. cbn [bind].
      destruct (comprehension f l) as [ys' | e] eqn:Hl; [| discriminate].
      cbn [bind]. intros [= <-]. constructor; [exact Hx | apply IH; reflexivity].
    + intros H. inversion H as [| x' y l' ys' Hx Hl]; subst.
      rewrite Hx. cbn [bind]. apply IH in Hl. rewrite Hl. reflexivity.
Qed.

Lemma comprehension_raise {A B : Type} (f : A -> result B) (l : list A) (e : exn) :
  comprehension f l = Raise e -> exists x : A, x ∈ l /\ f x = Raise e.
Proof.
  induction l as [| x l IH]; cbn [comprehension]; [discriminate |].
  destruct (f x) as [y | e'] eqn:Hx; cbn [bind].
  - destruct (comprehension f l) as [ys | e'']; cbn [bind]; [discriminate |].
    intros [= ->]. destruct (IH eq_refl) as (x' & Hin & Hx').
    exists x'. split; [apply list_elem_of_further, Hin | exact Hx'].
  - intros [= ->]. exists x. split; [apply list_elem_of_here | exact Hx].
Qed.

Lemma station_row_of_ok (r : dict) :
  has_station_keys r <-> exists row : station_row, station_row_of r = Ok row.
Proof.
  unfold has_station_keys, station_row_of, Py.getitem. split.
  - intros [[c ->] [s ->]]. cbn [bind]. eauto.
  - intros [row H].
    destruct (r !! "county"); [| discriminate].
    destruct (r !! "sitename"); [| discriminate]. eauto.
Qed.

Lemma station_row_of_raise (r : dict) (e : exn) :
  station_row_of r = Raise e -> e = KeyError /\ ~ has_station_keys r.
Proof.
  unfold has_station_keys, station_row_of, Py.getitem.
  destruct (r !! "county") as [c |]; cbn [bind].
  - destruct (r !! "sitename") as [s |]; cbn [bind]; [discriminate |].
    intros [= <-]. split; [reflexivity |]. intros [_ [s Hs]]. discriminate Hs.
  - intros [= <-]. split; [reflexivity |]. intros [[c Hc] _]. discriminate Hc.
Qed.

Lemma station_rows_iff (recs : list dict) :
  (exists rows : list station_row, comprehension station_row_of recs = Ok rows)
  <-> Forall has_station_keys recs.
Proof.
  split.
  - intros [rows Hrows]. apply comprehension_ok in Hrows.
    induction Hrows as [| r row recs' rows' Hr _ IH]; constructor; [| exact IH].
    apply station_row_of_ok. eauto.
  - induction 1 as [| r recs' Hr _ [rows IH]]; [exists []; reflexivity |].
    apply station_row_of_ok in Hr as [row Hrow].
    exists (row :: rows). cbn [comprehension]. rewrite Hrow, IH. reflexivity.
Qed.

(** X9. [stations] answers for all records or for none: it returns
    exactly when every fetched record carries [county] and [sitename], and
    raises [KeyError] otherwise.  When it returns, its rows follow the
    records one by one in their order, with [None] for a latitude or
    longitude the record lacks. *)
Theorem stations_all_or_nothing (u : upstream) (recs : list dict) :
  fetch_all_records u = Ok recs ->
  ((exists rows : list station_row, stations u = Ok rows)
   <-> Forall has_station_keys recs)
  /\ (~ Forall has_station_keys recs -> stations u = Raise KeyError)
  /\ (forall rows : list station_row,
        stations u = Ok rows ->
        Forall2 (λ r row,
                   r !! "county" = Some (row_county row)
                   /\ r !! "sitename" = Some (row_sitename row)
                   /\ row_lat row = Py.get r "latitude" VNone
                   /\ row_lon row = Py.get r "longitude" VNone)
                recs rows).
Proof.
  intros Hfetch. unfold stations. rewrite Hfetch. cbn [bind].
  pose proof (station_rows_iff recs) as Hiff.
  split; [exact Hiff |]. split.
  - intros Hnot.
    destruct (comprehension station_row_of recs) as [rows | e] eqn:Hc.
    + exfalso. apply Hnot, Hiff. eauto.
    + apply comprehension_raise in Hc as (r & _ & Hr).
      apply station_row_of_raise in Hr as [-> _]. reflexivity.
  - intros rows Hrows. apply comprehension_ok in Hrows.
    eapply Forall2_impl; [exact Hrows |]. cbn. intros r row.
    unfold station_row_of, Py.getitem.
    destruct (r !! "county") as [c |]; [| discriminate].
    destruct (r !! "sitename") as [s |]; [| discriminate].
    cbn [bind]. intros [= <-]. cbn. auto.
Qed.

Lemma stations_all_or_nothing_witness :
  ((exists rows : list station_row,
       stations (Body (Some [example_station; station_at "A" "25" "121"])) = Ok rows)
   <-> Forall has_station_keys [example_station; station_at "A" "25" "121"])
  /\ (~ Forall has_station_keys [example_station; station_at "A" "25" "121"] ->
      stations (Body (Some [example_station; station_at "A" "25" "121"]))
      = Raise KeyError)
  /\ (forall rows : list station_row,
        stations (Body (Some [example_station; station_at "A" "25" "121"])) = Ok rows ->
        Forall2 (λ r row,
                   r !! "county" = Some (row_county row)
                   /\ r !! "sitename" = Some (row_sitename row)
                   /\ row_lat row = Py.get r "latitude" VNone
                   /\ row_lon row = Py.get r "longitude" VNone)
                [example_station; station_at "A" "25" "121"] rows).
Proof.
  apply stations_all_or_nothing. reflexivity.
Defined.

Lemma nearby_row_of_ok (r : dict) :
  has_station_keys r <-> exists row : value * value, nearby_row_of r = Ok row.
Proof.
  unfold has_station_keys, nearby_row_of, Py.getitem. split.
  - intros [[c ->] [s ->]]. cbn [bind]. eauto.
  - intros [row H].
    destruct (r !! "county"); [| discriminate].
    destruct (r !! "sitename"); [| discriminate]. eauto.
Qed.

Lemma nearby_rows_iff (near : list dict) :
  (exists rows : list (value * value), comprehension nearby_row_of near = Ok rows)
  <-> Forall has_station_keys near.
Proof.
  split.
  - intros [rows Hrows]. apply comprehension_ok in Hrows.
    induction Hrows as [| r row near' rows' Hr _ IH]; constructor; [| exact IH].
    apply nearby_row_of_ok. eauto.
  - induction 1 as [| r near' Hr _ [rows IH]]; [exists []; reflexivity |].
    apply nearby_row_of_ok in Hr as [row Hrow].
    exists (row :: rows). cbn [comprehension]. rewrite Hrow, IH. reflexivity.
Qed.

(** X10. [stations_nearby] lets through what [find_nearest] raises.  When
    [find_nearest] returns, the handler looks at [county] and [sitename] of
    the records within the radius only: it returns exactly when each of
    those carries both keys, whatever the other records look like; with no
    record within the radius it returns the empty list; and its rows follow
    the result of [find_nearest] one by one. *)
Theorem stations_nearby_in_range_only {rt : FloatRuntime}
    (float_of_str : string -> option pyfloat) (u : upstream) (recs : list dict)
    (lat lon km : pyfloat) :
  fetch_all_records u = Ok recs ->
  (forall e : exn,
      find_nearest float_of_str recs lat lon km = Raise e ->
      stations_nearby float_of_str u lat lon km = Raise e)
  /\ (forall near : list dict,
        find_nearest float_of_str recs lat lon km = Ok near ->
        (near = [] -> stations_nearby float_of_str u lat lon km = Ok [])
        /\ ((exists rows : list (value * value),
               stations_nearby float_of_str u lat lon km = Ok rows)
            <-> Forall (λ r, within float_of_str lat lon km r -> has_station_keys r) recs)
        /\ (forall rows : list (value * value),
              stations_nearby float_of_str u lat lon km = Ok rows ->
              Forall2 (λ r row, r !! "county" = Some row.1
                                /\ r !! "sitename" = Some row.2)
                      near rows)).
Proof.
  intros Hfetch. unfold stations_nearby. rewrite Hfetch. cbn [bind]. split.
  - intros e ->. reflexivity.
  - intros near Hnear. pose proof (find_nearest_perm _ _ _ _ _ _ Hnear) as Hperm.
    rewrite Hnear. cbn [bind]. split; [| split].
    + intros ->. reflexivity.
    + rewrite nearby_rows_iff, Hperm, !Forall_forall.
      split.
      * intros H r Hr Hw. apply H, list_elem_of_filter. tauto.
      * intros H r Hr. apply list_elem_of_filter in Hr as [Hw Hr]. auto.
    + intros rows Hrows. apply comprehension_ok in Hrows.
      eapply Forall2_impl; [exact Hrows |]. cbn. intros r row.
      unfold nearby_row_of, Py.getitem.
      destruct (r !! "county") as [c |]; [| discriminate].
      destruct (r !! "sitename") as [s |]; [| discriminate].
      cbn [bind]. intros [= <-]. cbn. auto.
Qed.

Lemma stations_nearby_in_range_only_witness :
  (forall e : exn,
      find_nearest (rt := Runtime.exact) Runtime.float_of_str
        [station_at "A" "25" "121"; ∅] (Finite 25) (Finite 121) (Finite 0) = Raise e ->
      stations_nearby (rt := Runtime.exact) Runtime.float_of_str
        (Body (Some [station_at "A" "25" "121"; ∅])) (Finite 25) (Finite 121) (Finite 0)
      = Raise e)
  /\ (forall near : list dict,
        find_nearest (rt := Runtime.exact) Runtime.float_of_str
          [station_at "A" "25" "121"; ∅] (Finite 25) (Finite 121) (Finite 0) = Ok near ->
        (near = [] ->
         stations_nearby (rt := Runtime.exact) Runtime.float_of_str
           (Body (Some [station_at "A" "25" "121"; ∅])) (Finite 25) (Finite 121) (Finite 0)
         = Ok [])
        /\ ((exists rows : list (value * value),
               stations_nearby (rt := Runtime.exact) Runtime.float_of_str
                 (Body (Some [station_at "A" "25" "121"; ∅]))
                 (Finite 25) (Finite 121) (Finite 0) = Ok rows)
            <-> Forall (λ r, within (rt := Runtime.exact) Runtime.float_of_str
                               (Finite 25) (Finite 121) (Finite 0) r
                             -> has_station_keys r)
                  [station_at "A" "25" "121"; ∅])
        /\ (forall rows : list (value * value),
              stations_nearby (rt := Runtime.exact) Runtime.float_of_str
                (Body (Some [station_at "A" "25" "121"; ∅]))
                (Finite 25) (Finite 121) (Finite 0) = Ok rows ->
              Forall2 (λ r row, r !! "county" = Some row.1
                                /\ r !! "sitename" = Some row.2)
                      near rows)).
Proof.
  apply (stations_nearby_in_range_only (rt := Runtime.exact)). reflexivity.
Defined.

#[local] Open Scope R_scope.

(** The matcher on the example station, queried at its own position. *)
Example find_nearest_example_station :
  find_nearest (rt := Runtime.exact) Runtime.float_of_str
    [station_at "A" "abc" "121"; example_station]
    (Finite 25.0623) (Finite 121.5265) (Finite 0)
  = Ok [example_station].
Proof.
  assert (HA : malformed (rt := Runtime.exact) Runtime.float_of_str
                 (station_at "A" "abc" "121")).
  { apply station_at_malformed. vm_compute. reflexivity. }
  assert (HE : distance_to (rt := Runtime.exact) Runtime.float_of_str
                 (Finite 25.0623) (Finite 121.5265) example_station = Some (Finite 0)).
  { apply (distance_at_query (ieee := exact_ieee) _ _ _ _
             (Q2R (250623 # 10000)) (Q2R (1215265 # 10000)));
      [apply (position_text _ _ "25.0623" "121.5265");
         [reflexivity | reflexivity
         | apply float_of_str_number; vm_compute; reflexivity
         | apply float_of_str_number; vm_compute; reflexivity]
      | unfold Q2R; cbn; lra | unfold Q2R; cbn; lra | reflexivity]. }
  rewrite find_nearest_passable.
  - cbn [omap list_omap].
    rewrite (candidate_malformed _ _ _ _ _ HA).
    rewrite (candidate_within _ _ _ _ _ _ HE) by (cbn; lra).
    reflexivity.
  - repeat apply Forall_cons_2; [| | apply Forall_nil_2].
    + apply malformed_passable, HA.
    + eapply distance_passable, HE.
Qed.

#[local] Open Scope Z_scope.

Section HandlerProps.
Context {rt : FloatRuntime}.
Variable float_of_str : string -> option pyfloat.
Variable float_repr : Q -> string.
Variable km_repr : pyfloat -> string.
Variable webhook : payload -> delivery.

Local Abbreviation auto_notify' := (auto_notify float_of_str float_repr km_repr webhook).
Local Abbreviation send_message' := (send_message float_repr webhook).

(** [auto_notify] once the records are fetched and matched. *)
Lemma auto_notify_matched (u : upstream) (recs near : list dict)
    (lat lon km : pyfloat) (w : world) :
  fetch_all_records u = Ok recs ->
  find_nearest float_of_str recs lat lon km = Ok near ->
  auto_notify' u lat lon km w
  = match near with
    | [] =>
        (w, Throw (HTTPException 404 ("範圍 " ++ km_repr km ++ "km 內找不到任何測站")))
    | station :: _ =>
        match build_embed float_repr station with
        | Raise e => (w, Throw (Uncaught e))
        | Ok p =>
            (World (_last_import w) (posted w ++ [p]) (printed w),
             match webhook p with
             | Lost => Throw (Uncaught RequestError)
             | Rejected => Throw (Uncaught HTTPStatusError)
             | Accepted =>
                 Return ("已自動推播最近測站："
                         ++ Py.str float_repr (Py.get station "county" VNone) ++ "/"
                         ++ Py.str float_repr (Py.get station "sitename" VNone)
                         ++ "，AQI "
                         ++ Py.str float_repr (Py.get station "aqi" (VStr "N/A")))
             end)
        end
    end.
Proof.
  intros Hfetch Hnear.
  unfold auto_notify, hbind, pure, hraise, hreturn, effect.
  rewrite Hfetch, Hnear. destruct near as [| station rest]; [reflexivity |].
  destruct (build_embed float_repr station) as [p | e] eqn:Hp; [| reflexivity].
  destruct (build_embed_inv _ _ _ Hp) as (c & s & Hc & Hs).
  unfold send_to_discord, Py.getitem, Py.get. rewrite Hc, Hs.
  destruct (webhook p); reflexivity.
Qed.

(** [auto_notify] when the matcher raises: line 176 is not in a [try]. *)
Lemma auto_notify_unmatched (u : upstream) (recs : list dict) (e : exn)
    (lat lon km : pyfloat) (w : world) :
  fetch_all_records u = Ok recs ->
  find_nearest float_of_str recs lat lon km = Raise e ->
  auto_notify' u lat lon km w = (w, Throw (Uncaught e)).
Proof.
  intros Hfetch Hnear. unfold auto_notify, hbind, pure.
  rewrite Hfetch, Hnear. reflexivity.
Qed.
End HandlerProps.

(** X11. [auto_notify] raises an [HTTPException] exactly when
    [find_nearest] returns the empty list, which it does exactly when every
    fetched record is left out without raising; the exception is the 404 of
    line 178, the process is left as it was and nothing is POSTed.  What
    [find_nearest] raises is not turned into the 404: it goes through. *)
Theorem auto_notify_not_found_iff {rt : FloatRuntime}
    (float_of_str : string -> option pyfloat) (float_repr : Q -> string)
    (km_repr : pyfloat -> string) (webhook : payload -> delivery)
    (u : upstream) (recs : list dict) (lat lon km : pyfloat) (w : world) :
  fetch_all_records u = Ok recs ->
  ((exists (code : Z) (detail : string),
       (auto_notify float_of_str float_repr km_repr webhook u lat lon km w).2
       = Throw (HTTPException code detail))
   <-> Forall (out_of_reach float_of_str lat lon km) recs)
  /\ (Forall (out_of_reach float_of_str lat lon km) recs ->
      auto_notify float_of_str float_repr km_repr webhook u lat lon km w
      = (w, Throw (HTTPException 404
                     ("範圍 " ++ km_repr km ++ "km 內找不到任何測站"))))
  /\ (forall e : exn,
        find_nearest float_of_str recs lat lon km = Raise e ->
        auto_notify float_of_str float_repr km_repr webhook u lat lon km w
        = (w, Throw (Uncaught e))).
Proof.
  intros Hfetch.
  assert (Hnone : Forall (out_of_reach float_of_str lat lon km) recs ->
                  auto_notify float_of_str float_repr km_repr webhook u lat lon km w
                  = (w, Throw (HTTPException 404
                                 ("範圍 " ++ km_repr km ++ "km 內找不到任何測站")))).
  { intros Hall. apply find_nearest_nil_iff in Hall.
    rewrite (auto_notify_matched _ _ _ _ u recs [] lat lon km w Hfetch Hall).
    reflexivity. }
  split; [| split; [exact Hnone |]].
  - split; [| intros Hall; rewrite (Hnone Hall); eauto].
    intros (code & detail & H). apply find_nearest_nil_iff.
    destruct (find_nearest float_of_str recs lat lon km) as [near | e] eqn:Hnear.
    + destruct near as [| station rest]; [reflexivity |]. exfalso.
      rewrite (auto_notify_matched _ _ _ _ u recs _ lat lon km w Hfetch Hnear) in H.
      destruct (build_embed float_repr station) as [p | e]; [| discriminate H].
      cbn in H. destruct (webhook p); discriminate H.
    + exfalso.
      rewrite (auto_notify_unmatched _ _ _ _ u recs e lat lon km w Hfetch Hnear) in H.
      discriminate H.
  - intros e Hnear. apply (auto_notify_unmatched _ _ _ _ u recs); assumption.
Qed.

Lemma auto_notify_not_found_iff_witness :
  ((exists (code : Z) (detail : string),
       (auto_notify (rt := Runtime.exact) Runtime.float_of_str Runtime.float_repr
          (λ _, "0.0") (λ _, Accepted) (Body (Some [∅]))
          (Finite 25) (Finite 121) (Finite 0) initial).2
       = Throw (HTTPException code detail))
   <-> Forall (out_of_reach (rt := Runtime.exact) Runtime.float_of_str
                 (Finite 25) (Finite 121) (Finite 0)) [∅])
  /\ (Forall (out_of_reach (rt := Runtime.exact) Runtime.float_of_str
                (Finite 25) (Finite 121) (Finite 0)) [∅] ->
      auto_notify (rt := Runtime.exact) Runtime.float_of_str Runtime.float_repr
        (λ _, "0.0") (λ _, Accepted) (Body (Some [∅]))
        (Finite 25) (Finite 121) (Finite 0) initial
      = (initial, Throw (HTTPException 404 ("範圍 " ++ "0.0" ++ "km 內找不到任何測站"))))
  /\ (forall e : exn,
        find_nearest (rt := Runtime.exact) Runtime.float_of_str [∅]
          (Finite 25) (Finite 121) (Finite 0) = Raise e ->
        auto_notify (rt := Runtime.exact) Runtime.float_of_str Runtime.float_repr
          (λ _, "0.0") (λ _, Accepted) (Body (Some [∅]))
          (Finite 25) (Finite 121) (Finite 0) initial
        = (initial, Throw (Uncaught e))).
Proof.
  apply (auto_notify_not_found_iff (rt := Runtime.exact) Runtime.float_of_str
           Runtime.float_repr (λ _, "0.0") (λ _, Accepted) (Body (Some [∅])) [∅]).
  reflexivity.
Defined.

(** X12. When the nearest station carries [county] and [sitename],
    [auto_notify] POSTs exactly one payload, the one [build_embed] makes of
    that station, and leaves the freshness state and the printed errors
    alone.  It returns its message when the webhook accepts the POST and
    lets the delivery error through otherwise. *)
Theorem auto_notify_posts_nearest {rt : FloatRuntime}
    (float_of_str : string -> option pyfloat) (float_repr : Q -> string)
    (km_repr : pyfloat -> string) (webhook : payload -> delivery)
    (u : upstream) (recs : list dict) (lat lon km : pyfloat) (w : world)
    (station : dict) (rest : list dict) (c s : value) :
  fetch_all_records u = Ok recs ->
  find_nearest float_of_str recs lat lon km = Ok (station :: rest) ->
  station !! "county" = Some c ->
  station !! "sitename" = Some s ->
  exists p : payload,
    build_embed float_repr station = Ok p
    /\ (auto_notify float_of_str float_repr km_repr webhook u lat lon km w).1
       = World (_last_import w) (posted w ++ [p]) (printed w)
    /\ (auto_notify float_of_str float_repr km_repr webhook u lat lon km w).2
       = match webhook p with
         | Lost => Throw (Uncaught RequestError)
         | Rejected => Throw (Uncaught HTTPStatusError)
         | Accepted =>
             Return ("已自動推播最近測站：" ++ Py.str float_repr c ++ "/"
                     ++ Py.str float_repr s ++ "，AQI "
                     ++ Py.str float_repr (Py.get station "aqi" (VStr "N/A")))
         end.
Proof.
  intros Hfetch Hnear Hc Hs.
  destruct (build_embed_ok float_repr station c s Hc Hs) as (p & Hp & _).
  exists p. split; [exact Hp |].
  rewrite (auto_notify_matched _ _ _ _ u recs _ lat lon km w Hfetch Hnear), Hp.
  unfold Py.get. rewrite Hc, Hs. split; reflexivity.
Qed.

Lemma auto_notify_posts_nearest_witness :
  exists p : payload,
    build_embed Runtime.float_repr example_station = Ok p
    /\ (auto_notify (rt := Runtime.exact) Runtime.float_of_str Runtime.float_repr
          (λ _, "0.0") (λ _, Accepted)
          (Body (Some [station_at "A" "abc" "121"; example_station]))
          (Finite 25.0623) (Finite 121.5265) (Finite 0) initial).1
       = World (_last_import initial) (posted initial ++ [p]) (printed initial)
    /\ (auto_notify (rt := Runtime.exact) Runtime.float_of_str Runtime.float_repr
          (λ _, "0.0") (λ _, Accepted)
          (Body (Some [station_at "A" "abc" "121"; example_station]))
          (Finite 25.0623) (Finite 121.5265) (Finite 0) initial).2
       = Return ("已自動推播最近測站：" ++ "臺北市" ++ "/" ++ "中山" ++ "，AQI " ++ "101").
Proof.
  apply (auto_notify_posts_nearest (rt := Runtime.exact) Runtime.float_of_str
           Runtime.float_repr (λ _, "0.0") (λ _, Accepted)
           (Body (Some [station_at "A" "abc" "121"; example_station]))
           [station_at "A" "abc" "121"; example_station]
           (Finite 25.0623) (Finite 121.5265) (Finite 0) initial example_station []
           (VStr "臺北市") (VStr "中山"));
    [reflexivity | exact find_nearest_example_station | reflexivity | reflexivity].
Defined.

(** X13. [auto_notify] does not fall back to a farther station: when
    the nearest station lacks [county] or [sitename] the request fails with
    [KeyError] and nothing is POSTed, whatever the other stations within
    the radius are. *)
Theorem auto_notify_no_fallback {rt : FloatRuntime}
    (float_of_str : string -> option pyfloat) (float_repr : Q -> string)
    (km_repr : pyfloat -> string) (webhook : payload -> delivery)
    (u : upstream) (recs : list dict) (lat lon km : pyfloat) (w : world)
    (station : dict) (rest : list dict) :
  fetch_all_records u = Ok recs ->
  find_nearest float_of_str recs lat lon km = Ok (station :: rest) ->
  ~ has_station_keys station ->
  auto_notify float_of_str float_repr km_repr webhook u lat lon km w
  = (w, Throw (Uncaught KeyError)).
Proof.
  intros Hfetch Hnear Hkeys.
  rewrite (auto_notify_matched _ _ _ _ u recs _ lat lon km w Hfetch Hnear).
  destruct (build_embed float_repr station) as [p | e] eqn:Hp.
  - exfalso. apply Hkeys.
    destruct (build_embed_inv _ _ _ Hp) as (c & s & Hc & Hs).
    split; eauto.
  - unfold build_embed, Py.getitem in Hp.
    destruct (severity _) as [remark color].
    destruct (station !! "county"); cbn [bind] in Hp;
      [destruct (station !! "sitename"); cbn [bind] in Hp |];
      congruence.
Qed.

Lemma auto_notify_no_fallback_witness :
  auto_notify (rt := Runtime.exact) Runtime.float_of_str Runtime.float_repr
    (λ _, "0.0") (λ _, Accepted)
    (Body (Some [station_at "A" "25" "121"; station_at "B" "abc" "121";
                 station_at "C" "25.0" "121.0"]))
    (Finite 25) (Finite 121) (Finite 0) initial
  = (initial, Throw (Uncaught KeyError)).
Proof.
  apply (auto_notify_no_fallback (rt := Runtime.exact) Runtime.float_of_str
           Runtime.float_repr (λ _, "0.0") (λ _, Accepted) _
           [station_at "A" "25" "121"; station_at "B" "abc" "121";
            station_at "C" "25.0" "121.0"]
           (Finite 25) (Finite 121) (Finite 0) initial
           (station_at "A" "25" "121") [station_at "C" "25.0" "121.0"]);
    [reflexivity | exact find_nearest_ex |].
  intros [[c Hc] _]. vm_compute in Hc. discriminate Hc.
Defined.

Lemma py_eq_str_r (r : string) (v : value) :
  Py.eq v (VStr r) = true <-> v = VStr r.
Proof.
  destruct v as [| b | z | q | s]; cbn; try (split; discriminate).
  rewrite String.eqb_eq. split; congruence.
Qed.

Lemma py_eq_str_r_false (r : string) (v : value) :
  Py.eq v (VStr r) = false <-> v <> VStr r.
Proof.
  rewrite <- py_eq_str_r. destruct (Py.eq v (VStr r)); split; congruence.
Qed.

Section SearchProps.
Variable data : SiteSelection.t.

Lemma first_match_passed_over (r : dict) (recs : list dict) :
  passed_over data r ->
  first_match (r :: recs) data = first_match recs data.
Proof.
  intros (c & Hc & Hne). cbn [first_match]. unfold Py.getitem.
  rewrite Hc. cbn [bind].
  destruct Hne as [Hne | (s & Hs & Hne)].
  - apply py_eq_str_r_false in Hne. rewrite Hne. reflexivity.
  - destruct (Py.eq c _); [| reflexivity].
    rewrite Hs. cbn [bind]. apply py_eq_str_r_false in Hne. rewrite Hne. reflexivity.
Qed.

Lemma first_match_selected (r : dict) (recs : list dict) :
  selected data r -> first_match (r :: recs) data = Ok (Some r).
Proof.
  intros [Hc Hs]. cbn [first_match]. unfold Py.getitem.
  rewrite Hc. cbn [bind]. rewrite py_eq_refl, Hs. cbn [bind].
  rewrite py_eq_refl. reflexivity.
Qed.

Lemma first_match_breaks (r : dict) (recs : list dict) :
  breaks_search data r -> first_match (r :: recs) data = Raise KeyError.
Proof.
  intros [Hc | [Hc Hs]]; cbn [first_match]; unfold Py.getitem; rewrite Hc.
  - reflexivity.
  - cbn [bind]. rewrite py_eq_refl, Hs. reflexivity.
Qed.

(** Every record is passed over, selected, or breaks the search. *)
Lemma search_cases (r : dict) :
  passed_over data r \/ selected data r \/ breaks_search data r.
Proof.
  unfold passed_over, selected, breaks_search.
  destruct (r !! "county") as [c |]; [| auto].
  destruct (decide (c = VStr (SiteSelection.county data))) as [-> | Hc];
    [| left; eauto].
  destruct (r !! "sitename") as [s |]; [| auto].
  destruct (decide (s = VStr (SiteSelection.sitename data))) as [-> | Hs];
    [auto | left; eauto 10].
Qed.

Lemma first_match_prefix (before : list dict) (recs : list dict) :
  Forall (passed_over data) before ->
  first_match (before ++ recs) data = first_match recs data.
Proof.
  induction 1 as [| r before Hr _ IH]; [reflexivity |].
  cbn [app]. rewrite first_match_passed_over by exact Hr. exact IH.
Qed.

Lemma first_match_none_iff (recs : list dict) :
  first_match recs data = Ok None <-> Forall (passed_over data) recs.
Proof.
  induction recs as [| r recs IH]; [split; [constructor | reflexivity] |].
  destruct (search_cases r) as [Hr | [Hr | Hr]].
  - rewrite first_match_passed_over, IH by exact Hr.
    split; [intros H; constructor; assumption | intros H; inversion H; assumption].
  - rewrite first_match_selected by exact Hr. split; [discriminate |].
    intros H. apply Forall_cons in H as [(c & Hc & Hne) _].
    destruct Hr as [Hc' Hs']. rewrite Hc' in Hc. injection Hc as <-.
    destruct Hne as [Hne | (s & Hs & Hne)]; [congruence |].
    rewrite Hs' in Hs. congruence.
  - rewrite first_match_breaks by exact Hr. split; [discriminate |].
    intros H. apply Forall_cons in H as [(c & Hc & Hne) _].
    destruct Hr as [Hc' | [Hc' Hs']]; rewrite Hc' in Hc; [discriminate |].
    injection Hc as <-.
    destruct Hne as [Hne | (s & Hs & Hne)]; [congruence |].
    rewrite Hs' in Hs. discriminate.
Qed.
End SearchProps.

Section SendProps.
Variable float_repr : Q -> string.
Variable webhook : payload -> delivery.

(** [send_message] once the records are fetched and searched. *)
Lemma send_message_searched (u : upstream) (data : SiteSelection.t)
    (recs : list dict) (found : option dict) (w : world) :
  fetch_all_records u = Ok recs ->
  first_match recs data = Ok found ->
  send_message float_repr webhook u data w
  = match found with
    | Some r =>
        if bool_decide (r = ∅) then
          (w, Throw (HTTPException 404
                       ("找不到 " ++ SiteSelection.county data ++ "/"
                        ++ SiteSelection.sitename data)))
        else
          match build_embed float_repr r with
          | Raise e => (w, Throw (Uncaught e))
          | Ok p =>
              (World (_last_import w) (posted w ++ [p]) (printed w),
               match webhook p with
               | Lost => Throw (Uncaught RequestError)
               | Rejected => Throw (Uncaught HTTPStatusError)
               | Accepted =>
                   Return ("已推播 " ++ SiteSelection.county data ++ "/"
                           ++ SiteSelection.sitename data ++ " AQI "
                           ++ Py.str float_repr (Py.get r "aqi" (VStr "N/A")))
               end)
          end
    | None =>
        (w, Throw (HTTPException 404
                     ("找不到 " ++ SiteSelection.county data ++ "/"
                      ++ SiteSelection.sitename data)))
    end.
Proof.
  intros Hfetch Hfound.
  unfold send_message, hbind, pure, hraise, hreturn, effect.
  rewrite Hfetch, Hfound. destruct found as [r |]; [| reflexivity].
  destruct (bool_decide (r = ∅)); [reflexivity |].
  destruct (build_embed float_repr r) as [p | e]; [| reflexivity].
  unfold send_to_discord. destruct (webhook p); reflexivity.
Qed.
End SendProps.

(** X14. [send_message] notifies the first record whose county and site
    name are the requested ones: when the records before it are passed
    over, exactly one payload is POSTed, the one [build_embed] makes of that
    record; formatting cannot fail on it, and the freshness state and the
    printed errors are left alone. *)
Theorem send_message_posts_first_match
    (float_repr : Q -> string) (webhook : payload -> delivery)
    (u : upstream) (data : SiteSelection.t)
    (before : list dict) (r : dict) (after : list dict) (w : world) :
  fetch_all_records u = Ok (before ++ r :: after)%list ->
  Forall (passed_over data) before ->
  selected data r ->
  exists p : payload,
    build_embed float_repr r = Ok p
    /\ (send_message float_repr webhook u data w).1
       = World (_last_import w) (posted w ++ [p]) (printed w)
    /\ (send_message float_repr webhook u data w).2
       = match webhook p with
         | Lost => Throw (Uncaught RequestError)
         | Rejected => Throw (Uncaught HTTPStatusError)
         | Accepted =>
             Return ("已推播 " ++ SiteSelection.county data ++ "/"
                     ++ SiteSelection.sitename data ++ " AQI "
                     ++ Py.str float_repr (Py.get r "aqi" (VStr "N/A")))
         end.
Proof.
  intros Hfetch Hbefore Hsel.
  assert (Hfound : first_match (before ++ r :: after)%list data = Ok (Some r)).
  { rewrite first_match_prefix by exact Hbefore. apply first_match_selected, Hsel. }
  destruct Hsel as [Hc Hs].
  destruct (build_embed_ok float_repr r _ _ Hc Hs) as (p & Hp & _).
  exists p. split; [exact Hp |].
  rewrite (send_message_searched _ _ u data _ _ w Hfetch Hfound), Hp.
  rewrite bool_decide_eq_false_2; [split; reflexivity |].
  intros ->. rewrite lookup_empty in Hc. discriminate Hc.
Qed.

Lemma send_message_posts_first_match_witness :
  exists p : payload,
    build_embed Runtime.float_repr example_station = Ok p
    /\ (send_message Runtime.float_repr (λ _, Rejected)
          (Body (Some [<["sitename" := VStr "松山"]> example_station; example_station]))
          (SiteSelection.Make "臺北市" "中山") initial).1
       = World (_last_import initial) (posted initial ++ [p]) (printed initial)
    /\ (send_message Runtime.float_repr (λ _, Rejected)
          (Body (Some [<["sitename" := VStr "松山"]> example_station; example_station]))
          (SiteSelection.Make "臺北市" "中山") initial).2
       = Throw (Uncaught HTTPStatusError).
Proof.
  apply (send_message_posts_first_match Runtime.float_repr (λ _, Rejected)
           (Body (Some [<["sitename" := VStr "松山"]> example_station; example_station]))
           (SiteSelection.Make "臺北市" "中山")
           [<["sitename" := VStr "松山"]> example_station] example_station [] initial).
  - reflexivity.
  - constructor; [| constructor].
    exists (VStr "臺北市"). split; [reflexivity |]. right.
    exists (VStr "松山"). split; [reflexivity | discriminate].
  - split; reflexivity.
Defined.

(** X15. [send_message] raises its 404 exactly when every fetched record
    is passed over by the search; it then leaves the process as it was and
    POSTs nothing. *)
Theorem send_message_not_found_iff
    (float_repr : Q -> string) (webhook : payload -> delivery)
    (u : upstream) (data : SiteSelection.t) (recs : list dict) (w : world) :
  fetch_all_records u = Ok recs ->
  ((exists (code : Z) (detail : string),
       (send_message float_repr webhook u data w).2
       = Throw (HTTPException code detail))
   <-> Forall (passed_over data) recs)
  /\ (Forall (passed_over data) recs ->
      send_message float_repr webhook u data w
      = (w, Throw (HTTPException 404
                     ("找不到 " ++ SiteSelection.county data ++ "/"
                      ++ SiteSelection.sitename data)))).
Proof.
  intros Hfetch.
  assert (Hnone : Forall (passed_over data) recs ->
                  send_message float_repr webhook u data w
                  = (w, Throw (HTTPException 404
                                 ("找不到 " ++ SiteSelection.county data ++ "/"
                                  ++ SiteSelection.sitename data)))).
  { intros Hall. apply first_match_none_iff in Hall.
    rewrite (send_message_searched _ _ u data _ _ w Hfetch Hall). reflexivity. }
  split; [| exact Hnone]. split; [| intros Hall; rewrite (Hnone Hall); eauto].
  intros (code & detail & H). apply first_match_none_iff.
  destruct (first_match recs data) as [[r |] | e] eqn:Hfound; [| reflexivity |].
  - exfalso.
    rewrite (send_message_searched _ _ u data _ _ w Hfetch Hfound) in H.
    assert (Hsel : selected data r).
    { clear H. induction recs as [| r' recs IH] in Hfound |- *; [discriminate |].
      destruct (search_cases data r') as [Hr | [Hr | Hr]].
      - rewrite first_match_passed_over in Hfound by exact Hr. apply IH, Hfound.
      - rewrite first_match_selected in Hfound by exact Hr. congruence.
      - rewrite first_match_breaks in Hfound by exact Hr. discriminate. }
    destruct Hsel as [Hc Hs].
    rewrite bool_decide_eq_false_2 in H
      by (intros ->; rewrite lookup_empty in Hc; discriminate Hc).
    destruct (build_embed_ok float_repr r _ _ Hc Hs) as (p & Hp & _).
    rewrite Hp in H. cbn in H. destruct (webhook p); discriminate H.
  - exfalso. unfold send_message, hbind, pure in H.
    rewrite Hfetch, Hfound in H. discriminate H.
Qed.

Lemma send_message_not_found_iff_witness :
  ((exists (code : Z) (detail : string),
       (send_message Runtime.float_repr (λ _, Accepted)
          (Body (Some [example_station]))
          (SiteSelection.Make "臺北市" "松山") initial).2
       = Throw (HTTPException code detail))
   <-> Forall (passed_over (SiteSelection.Make "臺北市" "松山")) [example_station])
  /\ (Forall (passed_over (SiteSelection.Make "臺北市" "松山")) [example_station] ->
      send_message Runtime.float_repr (λ _, Accepted)
        (Body (Some [example_station]))
        (SiteSelection.Make "臺北市" "松山") initial
      = (initial, Throw (HTTPException 404 ("找不到 " ++ "臺北市" ++ "/" ++ "松山")))).
Proof.
  apply (send_message_not_found_iff Runtime.float_repr (λ _, Accepted)
           (Body (Some [example_station]))
           (SiteSelection.Make "臺北市" "松山") [example_station] initial).
  reflexivity.
Defined.

(** X16. A record that breaks the search, having no county or having the
    requested county and no site name, makes [send_message] fail with
    [KeyError] when the records before it are passed over, even if the
    requested station comes later; nothing is POSTed. *)
Theorem send_message_blocked_by_bad_record
    (float_repr : Q -> string) (webhook : payload -> delivery)
    (u : upstream) (data : SiteSelection.t)
    (before : list dict) (r : dict) (after : list dict) (w : world) :
  fetch_all_records u = Ok (before ++ r :: after)%list ->
  Forall (passed_over data) before ->
  breaks_search data r ->
  send_message float_repr webhook u data w = (w, Throw (Uncaught KeyError)).
Proof.
  intros Hfetch Hbefore Hbad.
  unfold send_message, hbind, pure. rewrite Hfetch.
  rewrite first_match_prefix by exact Hbefore.
  rewrite first_match_breaks by exact Hbad. reflexivity.
Qed.

Lemma send_message_blocked_by_bad_record_witness :
  send_message Runtime.float_repr (λ _, Accepted)
    (Body (Some [station_at "A" "25" "121"; example_station]))
    (SiteSelection.Make "臺北市" "中山") initial
  = (initial, Throw (Uncaught KeyError)).
Proof.
  apply (send_message_blocked_by_bad_record Runtime.float_repr (λ _, Accepted)
           (Body (Some [station_at "A" "25" "121"; example_station]))
           (SiteSelection.Make "臺北市" "中山")
           [] (station_at "A" "25" "121") [example_station] initial).
  - reflexivity.
  - constructor.
  - left. reflexivity.
Defined.

(** X17. Whatever the upstream answers and whatever the webhook does, a
    call of [auto_notify] or of [send_message] leaves [_last_import] and
    the printed errors as they were and POSTs at most one payload. *)
Theorem handlers_footprint {rt : FloatRuntime}
    (float_of_str : string -> option pyfloat) (float_repr : Q -> string)
    (km_repr : pyfloat -> string) (webhook : payload -> delivery)
    (u : upstream) (lat lon km : pyfloat) (data : SiteSelection.t) (w : world) :
  handler_footprint w
    (auto_notify float_of_str float_repr km_repr webhook u lat lon km w).1
  /\ handler_footprint w (send_message float_repr webhook u data w).1.
Proof.
  assert (Hsame : handler_footprint w w) by (repeat split; auto).
  assert (Hpost : forall p, handler_footprint w
                              (World (_last_import w) (posted w ++ [p]) (printed w))).
  { intros p. repeat split; eauto. }
  split.
  - destruct (fetch_all_records u) as [recs | e] eqn:Hfetch.
    + destruct (find_nearest float_of_str recs lat lon km) as [near | e] eqn:Hnear.
      * rewrite (auto_notify_matched _ _ _ _ u recs near lat lon km w Hfetch Hnear).
        destruct near as [| station rest]; [exact Hsame |].
        destruct (build_embed float_repr station); [apply Hpost | exact Hsame].
      * rewrite (auto_notify_unmatched _ _ _ _ u recs e lat lon km w Hfetch Hnear).
        exact Hsame.
    + unfold auto_notify, hbind, pure. rewrite Hfetch. exact Hsame.
  - destruct (fetch_all_records u) as [recs | e] eqn:Hfetch.
    + destruct (first_match recs data) as [found | e] eqn:Hfound.
      * rewrite (send_message_searched _ _ u data _ _ w Hfetch Hfound).
        destruct found as [r |]; [| exact Hsame].
        destruct (bool_decide (r = ∅)); [exact Hsame |].
        destruct (build_embed float_repr r); [apply Hpost | exact Hsame].
      * unfold send_message, hbind, pure. rewrite Hfetch, Hfound. exact Hsame.
    + unfold send_message, hbind, pure. rewrite Hfetch. exact Hsame.
Qed.

(** X18. A failure of the upstream fetch is not caught by any handler:
    [stations], [stations_nearby], [auto_notify] and [send_message] all
    raise that failure, and nothing is POSTed. *)
Theorem handlers_fetch_failure {rt : FloatRuntime}
    (float_of_str : string -> option pyfloat) (float_repr : Q -> string)
    (km_repr : pyfloat -> string) (webhook : payload -> delivery)
    (u : upstream) (e : exn) (lat lon km : pyfloat) (data : SiteSelection.t) (w : world) :
  fetch_all_records u = Raise e ->
  stations u = Raise e
  /\ stations_nearby float_of_str u lat lon km = Raise e
  /\ auto_notify float_of_str float_repr km_repr webhook u lat lon km w
     = (w, Throw (Uncaught e))
  /\ send_message float_repr webhook u data w = (w, Throw (Uncaught e)).
Proof.
  intros Hfetch.
  unfold stations, stations_nearby, auto_notify, send_message, hbind, pure.
  rewrite Hfetch. repeat split.
Qed.

Lemma handlers_fetch_failure_witness :
  stations BadBody = Raise JSONDecodeError
  /\ stations_nearby (rt := Runtime.exact) Runtime.float_of_str BadBody
       (Finite 25) (Finite 121) (Finite 5)
     = Raise JSONDecodeError
  /\ auto_notify (rt := Runtime.exact) Runtime.float_of_str Runtime.float_repr
       (λ _, "5.0") (λ _, Accepted) BadBody (Finite 25) (Finite 121) (Finite 5) initial
     = (initial, Throw (Uncaught JSONDecodeError))
  /\ send_message Runtime.float_repr (λ _, Accepted) BadBody
       (SiteSelection.Make "臺北市" "中山") initial
     = (initial, Throw (Uncaught JSONDecodeError)).
Proof.
  apply (handlers_fetch_failure (rt := Runtime.exact) Runtime.float_of_str
           Runtime.float_repr (λ _, "5.0") (λ _, Accepted) BadBody JSONDecodeError).
  reflexivity.
Defined.

(** X30. A fetched record whose latitude reads as an infinity, or a query
    point of infinite latitude and a record that has coordinates at all,
    makes [stations_nearby] and [auto_notify] fail with the exception
    [find_nearest] raises; [auto_notify] POSTs nothing and leaves the
    process as it was. *)
Theorem handlers_infinite_latitude {rt : FloatRuntime}
    (float_of_str : string -> option pyfloat) (float_repr : Q -> string)
    (km_repr : pyfloat -> string) (webhook : payload -> delivery)
    (u : upstream) (recs : list dict) (lat lon km : pyfloat) (w : world)
    (r : dict) (rl rn : pyfloat) :
  fetch_all_records u = Ok recs ->
  r ∈ recs ->
  coordinates float_of_str r = Ok (rl, rn) ->
  infinite lat \/ infinite rl ->
  exists e : exn,
    find_nearest float_of_str recs lat lon km = Raise e
    /\ stations_nearby float_of_str u lat lon km = Raise e
    /\ auto_notify float_of_str float_repr km_repr webhook u lat lon km w
       = (w, Throw (Uncaught e)).
Proof.
  intros Hfetch Hr Hc Hinf. apply coordinates_of_position in Hc.
  pose proof (failure_at_infinite _ _ lon _ _ _ Hc Hinf) as Hfail.
  destruct (find_nearest_fails float_of_str lat lon recs km r _ Hr Hfail) as [e He].
  exists e. split; [exact He |]. split.
  - unfold stations_nearby. rewrite Hfetch. cbn [bind]. rewrite He. reflexivity.
  - apply (auto_notify_unmatched _ _ _ _ u recs); assumption.
Qed.

Lemma handlers_infinite_latitude_witness :
  exists e : exn,
    find_nearest (rt := Runtime.exact) Runtime.float_of_str
      [example_station; station_at "B" "-Infinity" "121"]
      (Finite 25) (Finite 121) (Finite 5) = Raise e
    /\ stations_nearby (rt := Runtime.exact) Runtime.float_of_str
         (Body (Some [example_station; station_at "B" "-Infinity" "121"]))
         (Finite 25) (Finite 121) (Finite 5) = Raise e
    /\ auto_notify (rt := Runtime.exact) Runtime.float_of_str Runtime.float_repr
         (λ _, "5.0") (λ _, Accepted)
         (Body (Some [example_station; station_at "B" "-Infinity" "121"]))
         (Finite 25) (Finite 121) (Finite 5) initial
       = (initial, Throw (Uncaught e)).
Proof.
  apply (handlers_infinite_latitude (rt := Runtime.exact) Runtime.float_of_str
           Runtime.float_repr (λ _, "5.0") (λ _, Accepted)
           (Body (Some [example_station; station_at "B" "-Infinity" "121"]))
           [example_station; station_at "B" "-Infinity" "121"]
           (Finite 25) (Finite 121) (Finite 5) initial
           (station_at "B" "-Infinity" "121") NegInf (Finite (Q2R (121 # 1)))).
  - reflexivity.
  - apply list_elem_of_further, list_elem_of_here.
  - apply coordinates_of_position, station_at_position; reflexivity.
  - right. right. reflexivity.
Defined.

(** ** More on the poll cycle *)

Section PollMore.
Variable float_repr : Q -> string.

(** What one poll cycle can do to the process. *)
Lemma check_and_notify_cases (webhook : payload -> delivery) (u : upstream) (w : world) :
  let w' := check_and_notify float_repr webhook u w in
  (_last_import w' = _last_import w /\ posted w' = posted w
   /\ (printed w' = printed w \/ exists e, printed w' = (printed w ++ [e])%list))
  \/ exists (first : dict) (rest : list dict) (newest : value),
       fetch_all_records u = Ok (first :: rest)
       /\ first !! "ImportDate" = Some newest
       /\ Py.ne newest (_last_import w) = true
       /\ _last_import w' = newest
       /\ ((posted w' = posted w
            /\ exists e, build_embed float_repr first = Raise e
                         /\ printed w' = (printed w ++ [e])%list)
           \/ exists p, build_embed float_repr first = Ok p
                        /\ posted w' = (posted w ++ [p])%list
                        /\ (printed w' = printed w
                            \/ exists e, printed w' = (printed w ++ [e])%list)).
Proof.
  cbv zeta.
  destruct (fetch_all_records u) as [[| first rest] | e] eqn:Hfetch.
  - left. unfold check_and_notify, poll_body. rewrite Hfetch. auto.
  - destruct (first !! "ImportDate") as [newest |] eqn:Hrev.
    + assert (Hu : exists x, u = Body (Some x) /\ x = first :: rest).
      { destruct u as [| | | [x |]]; try discriminate Hfetch;
          injection Hfetch as Hx; eauto. }
      destruct Hu as (x & -> & ->).
      rewrite (check_and_notify_first _ _ _ _ newest) by exact Hrev.
      destruct (Py.ne newest (_last_import w)) eqn:Hne; [| left; auto].
      right. exists first, rest, newest.
      repeat (split; [first [reflexivity | assumption] |]).
      destruct (build_embed float_repr first) as [p | e].
      * split; [reflexivity |]. right. exists p.
        repeat (split; [reflexivity |]). cbn [printed].
        destruct (webhook p); eauto.
      * split; [reflexivity |]. left. split; [reflexivity |]. eauto.
    + left. unfold check_and_notify, poll_body, Py.getitem.
      rewrite Hfetch, Hrev. cbn. eauto.
  - left. unfold check_and_notify, poll_body. rewrite Hfetch. cbn. eauto.
Qed.
End PollMore.

Lemma check_and_notify_no_revision
    (float_repr : Q -> string) (webhook : payload -> delivery)
    (first : dict) (rest : list dict) (w : world) :
  first !! "ImportDate" = None ->
  check_and_notify float_repr webhook (Body (Some (first :: rest))) w
  = World (_last_import w) (posted w) (printed w ++ [KeyError]).
Proof.
  intros Hrev. unfold check_and_notify, poll_body, Py.getitem, fetch_all_records.
  rewrite Hrev. reflexivity.
Qed.

Lemma check_and_notify_raise
    (float_repr : Q -> string) (webhook : payload -> delivery)
    (u : upstream) (w : world) (e : exn) :
  fetch_all_records u = Raise e ->
  check_and_notify float_repr webhook u w
  = World (_last_import w) (posted w) (printed w ++ [e]).
Proof.
  intros Hfetch. unfold check_and_notify, poll_body. rewrite Hfetch. reflexivity.
Qed.

(** X19. When the first record is new and well formed but the webhook
    loses or rejects the POST, the revision is marked as seen all the same:
    [_last_import] holds it, the delivery error is printed, and a later
    poll of the same records POSTs nothing, whatever the webhook does
    then. *)
Theorem check_and_notify_failed_delivery_not_retried
    (float_repr : Q -> string) (webhook later_webhook : payload -> delivery)
    (first : dict) (rest : list dict) (w : world)
    (newest county sitename : value) (p : payload) :
  first !! "ImportDate" = Some newest ->
  first !! "county" = Some county ->
  first !! "sitename" = Some sitename ->
  Py.ne newest (_last_import w) = true ->
  build_embed float_repr first = Ok p ->
  webhook p <> Accepted ->
  let w' := check_and_notify float_repr webhook (Body (Some (first :: rest))) w in
  _last_import w' = newest
  /\ posted w' = (posted w ++ [p])%list
  /\ (exists e : exn, printed w' = (printed w ++ [e])%list)
  /\ posted (check_and_notify float_repr later_webhook (Body (Some (first :: rest))) w')
     = posted w'.
Proof.
  intros Hrev Hc Hs Hne Hp Hfail. cbv zeta.
  rewrite !(check_and_notify_first _ _ _ _ newest) by exact Hrev.
  rewrite Hne, Hp. cbn [_last_import posted printed].
  unfold Py.ne at 1. rewrite py_eq_refl. cbn [negb].
  repeat split.
  destruct (webhook p); [eauto | eauto | contradiction].
Qed.

Lemma check_and_notify_failed_delivery_not_retried_witness :
  exists p : payload,
    build_embed Runtime.float_repr example_station = Ok p
    /\ _last_import (check_and_notify Runtime.float_repr (λ _, Lost)
                       (Body (Some [example_station])) initial)
       = VStr "2024-01-01T00:00"
    /\ posted (check_and_notify Runtime.float_repr (λ _, Lost)
                 (Body (Some [example_station])) initial)
       = [p]
    /\ (exists e : exn,
           printed (check_and_notify Runtime.float_repr (λ _, Lost)
                      (Body (Some [example_station])) initial)
           = [e])
    /\ posted (check_and_notify Runtime.float_repr (λ _, Accepted)
                 (Body (Some [example_station]))
                 (check_and_notify Runtime.float_repr (λ _, Lost)
                    (Body (Some [example_station])) initial))
       = posted (check_and_notify Runtime.float_repr (λ _, Lost)
                   (Body (Some [example_station])) initial).
Proof.
  eexists. split; [vm_compute; reflexivity |].
  apply (check_and_notify_failed_delivery_not_retried Runtime.float_repr
           (λ _, Lost) (λ _, Accepted) example_station [] initial
           (VStr "2024-01-01T00:00") (VStr "臺北市") (VStr "中山"));
    try reflexivity.
  discriminate.
Defined.

(** X20. Polling the same upstream answer twice in a row is silent the
    second time: whatever the answer, the records and the webhook, the
    second cycle POSTs nothing and leaves [_last_import] as the first cycle
    left it. *)
Theorem check_and_notify_repeat_is_silent
    (float_repr : Q -> string) (webhook later_webhook : payload -> delivery)
    (u : upstream) (w : world) :
  posted (check_and_notify float_repr later_webhook u
            (check_and_notify float_repr webhook u w))
  = posted (check_and_notify float_repr webhook u w)
  /\ _last_import (check_and_notify float_repr later_webhook u
                     (check_and_notify float_repr webhook u w))
     = _last_import (check_and_notify float_repr webhook u w).
Proof.
  destruct (fetch_all_records u) as [[| first rest] | e] eqn:Hfetch.
  - unfold check_and_notify, poll_body. rewrite Hfetch. auto.
  - assert (Hu : u = Body (Some (first :: rest))).
    { destruct u as [| | | [x |]]; try discriminate Hfetch.
      cbn in Hfetch. congruence. }
    subst u. destruct (first !! "ImportDate") as [newest |] eqn:Hrev.
    + rewrite !(check_and_notify_first _ _ _ _ newest) by exact Hrev.
      destruct (Py.ne newest (_last_import w)) eqn:Hne.
      * destruct (build_embed float_repr first) as [p | e];
          cbn [_last_import posted]; unfold Py.ne; rewrite py_eq_refl; auto.
      * rewrite Hne. auto.
    + rewrite !check_and_notify_no_revision by exact Hrev. auto.
  - rewrite !(check_and_notify_raise _ _ _ _ e) by exact Hfetch. auto.
Qed.

(** X21. A new revision whose first record lacks [county] or [sitename]
    is used up without a notification: [_last_import] takes the revision,
    nothing is POSTed and [KeyError] is printed. *)
Theorem check_and_notify_unformattable_revision
    (float_repr : Q -> string) (webhook : payload -> delivery)
    (first : dict) (rest : list dict) (w : world) (newest : value) :
  first !! "ImportDate" = Some newest ->
  Py.ne newest (_last_import w) = true ->
  ~ has_station_keys first ->
  check_and_notify float_repr webhook (Body (Some (first :: rest))) w
  = World newest (posted w) (printed w ++ [KeyError]).
Proof.
  intros Hrev Hne Hkeys.
  rewrite (check_and_notify_first _ _ _ _ newest) by exact Hrev. rewrite Hne.
  destruct (build_embed float_repr first) as [p | e] eqn:Hp.
  - exfalso. apply Hkeys.
    destruct (build_embed_inv _ _ _ Hp) as (c & s & Hc & Hs). split; eauto.
  - unfold build_embed, Py.getitem in Hp.
    destruct (severity _) as [remark color].
    destruct (first !! "county"); cbn [bind] in Hp;
      [destruct (first !! "sitename"); cbn [bind] in Hp |];
      congruence.
Qed.

Lemma check_and_notify_unformattable_revision_witness :
  check_and_notify Runtime.float_repr (λ _, Accepted)
    (Body (Some [ {[ "ImportDate" := VStr "2024-01-01T00:00" ]} ])) initial
  = World (VStr "2024-01-01T00:00") (posted initial) (printed initial ++ [KeyError]).
Proof.
  apply check_and_notify_unformattable_revision.
  - reflexivity.
  - reflexivity.
  - intros [[c Hc] _]. vm_compute in Hc. discriminate Hc.
Defined.

Lemma prefix_snoc_or {A : Type} (l l' : list A) :
  (l' = l \/ exists x, l' = (l ++ [x])%list) ->
  l `prefix_of` l' /\ (length l' <= S (length l))%nat.
Proof.
  intros [-> | [x ->]].
  - split; [reflexivity | lia].
  - split; [apply prefix_app_r; reflexivity | rewrite length_app; cbn; lia].
Qed.

Lemma check_and_notify_grows (float_repr : Q -> string)
    (webhook : payload -> delivery) (u : upstream) (w : world) :
  (posted (check_and_notify float_repr webhook u w) = posted w
   \/ exists p, posted (check_and_notify float_repr webhook u w) = (posted w ++ [p])%list)
  /\ (printed (check_and_notify float_repr webhook u w) = printed w
      \/ exists e, printed (check_and_notify float_repr webhook u w)
                   = (printed w ++ [e])%list).
Proof.
  destruct (check_and_notify_cases float_repr webhook u w)
    as [(_ & Hp & He) | (first & rest & newest & _ & _ & _ & _ & H)].
  - auto.
  - destruct H as [(Hp & e & _ & He) | (p & _ & Hp & He)]; eauto.
Qed.

(** X22. Over any sequence of poll cycles the payloads POSTed and the
    errors printed are only ever appended to, and each cycle adds at most
    one payload and at most one error. *)
Theorem polls_append_only
    (float_repr : Q -> string) (webhook : payload -> delivery)
    (us : list upstream) (w : world) :
  posted w `prefix_of` posted (polls float_repr webhook us w)
  /\ printed w `prefix_of` printed (polls float_repr webhook us w)
  /\ (length (posted (polls float_repr webhook us w))
      <= length (posted w) + length us)%nat
  /\ (length (printed (polls float_repr webhook us w))
      <= length (printed w) + length us)%nat.
Proof.
  revert w. induction us as [| u us IH]; intros w; cbn [polls length].
  - repeat split; try reflexivity; lia.
  - destruct (IH (check_and_notify float_repr webhook u w)) as (Hp & He & Hlp & Hle).
    destruct (check_and_notify_grows float_repr webhook u w) as [Hp1 He1].
    apply prefix_snoc_or in Hp1 as [Hp1 Hlp1].
    apply prefix_snoc_or in He1 as [He1 Hle1].
    repeat split; try (etransitivity; eassumption); lia.
Qed.

(** X23. The poll cycle POSTs only for a new revision: whenever a cycle
    adds to the payloads POSTed, the fetch delivered a first record whose
    [ImportDate] differs from the stored one, the payload added is the one
    [build_embed] makes of that record, it is the only one added, and
    [_last_import] now holds that [ImportDate]. *)
Theorem check_and_notify_posts_only_new
    (float_repr : Q -> string) (webhook : payload -> delivery)
    (u : upstream) (w : world) :
  posted (check_and_notify float_repr webhook u w) <> posted w ->
  exists (first : dict) (rest : list dict) (newest : value) (p : payload),
    fetch_all_records u = Ok (first :: rest)
    /\ first !! "ImportDate" = Some newest
    /\ Py.ne newest (_last_import w) = true
    /\ build_embed float_repr first = Ok p
    /\ posted (check_and_notify float_repr webhook u w) = (posted w ++ [p])%list
    /\ _last_import (check_and_notify float_repr webhook u w) = newest.
Proof.
  intros Hchanged.
  destruct (check_and_notify_cases float_repr webhook u w)
    as [(_ & Hp & _) | (first & rest & newest & Hfetch & Hrev & Hne & Hlast & H)].
  - contradiction.
  - destruct H as [(Hp & _) | (p & Hbuild & Hp & _)]; [contradiction |].
    exists first, rest, newest, p. auto 10.
Qed.

Lemma check_and_notify_posts_only_new_witness :
  exists (first : dict) (rest : list dict) (newest : value) (p : payload),
    fetch_all_records (Body (Some [example_station])) = Ok (first :: rest)
    /\ first !! "ImportDate" = Some newest
    /\ Py.ne newest (_last_import initial) = true
    /\ build_embed Runtime.float_repr first = Ok p
    /\ posted (check_and_notify Runtime.float_repr (λ _, Accepted)
                 (Body (Some [example_station])) initial)
       = (posted initial ++ [p])%list
    /\ _last_import (check_and_notify Runtime.float_repr (λ _, Accepted)
                       (Body (Some [example_station])) initial)
       = newest.
Proof.
  apply check_and_notify_posts_only_new.
  vm_compute. discriminate.
Defined.

(** ** More on the notification formatter *)

(** X24. [build_embed] returns a payload exactly for the records that
    carry [county] and [sitename]; on every other record it raises, and
    what it raises is [KeyError]. *)
Theorem build_embed_raises_iff (float_repr : Q -> string) (data : dict) :
  ((exists p : payload, build_embed float_repr data = Ok p) <-> has_station_keys data)
  /\ (forall e : exn,
        build_embed float_repr data = Raise e
        <-> e = KeyError /\ ~ has_station_keys data).
Proof.
  assert (Hok : (exists p, build_embed float_repr data = Ok p) <-> has_station_keys data).
  { split.
    - intros [p Hp]. destruct (build_embed_inv _ _ _ Hp) as (c & s & Hc & Hs).
      split; eauto.
    - intros [[c Hc] [s Hs]].
      destruct (build_embed_ok float_repr data c s Hc Hs) as (p & Hp & _). eauto. }
  split; [exact Hok |]. intros e. split.
  - intros He. split.
    + unfold build_embed, Py.getitem in He.
      destruct (severity _) as [remark color].
      destruct (data !! "county"); cbn [bind] in He;
        [destruct (data !! "sitename"); cbn [bind] in He |];
        congruence.
    + intros Hkeys. apply Hok in Hkeys as [p Hp]. congruence.
  - intros [-> Hkeys].
    destruct (build_embed float_repr data) as [p | e] eqn:Hp.
    + exfalso. apply Hkeys, Hok. eauto.
    + f_equal. unfold build_embed, Py.getitem in Hp.
      destruct (severity _) as [remark color].
      destruct (data !! "county"); cbn [bind] in Hp;
        [destruct (data !! "sitename"); cbn [bind] in Hp |];
        congruence.
Qed.

(** X25. The severity never goes down when the AQI goes up: of two
    integer AQI values the larger one gets a bucket of the same or a higher
    rank, and no integer AQI gets the no-data bucket. *)
Theorem severity_monotone (v1 v2 : Z) (b1 b2 : bucket) :
  v1 <= v2 ->
  severity (aqi_value (VInt v1)) = bucket_style b1 ->
  severity (aqi_value (VInt v2)) = bucket_style b2 ->
  (1 <= bucket_rank b1 <= bucket_rank b2)%nat.
Proof.
  intros Hle H1 H2. cbn [aqi_value Py.int] in H1, H2.
  apply severity_in_bucket in H1, H2.
  destruct b1, b2; cbn [in_bucket bucket_rank] in *; lia.
Qed.

Lemma severity_monotone_witness : (1 <= bucket_rank Good <= bucket_rank Moderate)%nat.
Proof.
  apply (severity_monotone 50 51 Good Moderate); [lia | reflexivity | reflexivity].
Defined.

(** X26. [build_embed] reads fourteen keys of the record and nothing
    else: two records that agree on those keys get the same result. *)
Theorem build_embed_reads_embed_keys
    (float_repr : Q -> string) (data data' : dict) :
  (forall k : string, k ∈ embed_keys -> data !! k = data' !! k) ->
  build_embed float_repr data = build_embed float_repr data'.
Proof.
  intros H. unfold build_embed, Py.get, Py.getitem.
  assert (Hk : Forall (λ k, data !! k = data' !! k) embed_keys)
    by (apply Forall_forall; exact H).
  unfold embed_keys in Hk.
  repeat match goal with
         | Hk : Forall _ (_ :: _) |- _ =>
             apply Forall_cons in Hk as [-> Hk]
         end.
  reflexivity.
Qed.

Lemma build_embed_reads_embed_keys_witness :
  build_embed Runtime.float_repr example_station
  = build_embed Runtime.float_repr
      (<["latitude" := VNone]> (delete "ImportDate" example_station)).
Proof.
  apply build_embed_reads_embed_keys.
  intros k Hk. unfold embed_keys in Hk.
  repeat (apply elem_of_cons in Hk as [-> | Hk]; [vm_compute; reflexivity |]).
  apply elem_of_nil in Hk. contradiction.
Defined.

(** ** Integers as text *)

Lemma is_digit_not_space (c : ascii) : Py.is_digit c = true -> Py.is_space c = false.
Proof.
  unfold Py.is_digit, Py.is_space. cbv zeta. intros H.
  apply andb_prop in H as [H1 H2].
  apply Nat.leb_le in H1. apply Nat.leb_le in H2.
  repeat match goal with
         | |- context [Nat.eqb ?a ?b] => destruct (Nat.eqb_spec a b); try lia
         | |- context [Nat.leb ?a ?b] => destruct (Nat.leb_spec a b); try lia
         end; reflexivity.
Qed.

Lemma is_digit_ascii (c : ascii) : Py.is_digit c = true -> (N_of_ascii c < 0x80)%N.
Proof.
  destruct c as [[] [] [] [] [] [] [] []]; intros H;
    first [discriminate H | reflexivity].
Qed.

(** ASCII text is read as it stands. *)
Lemma ascii_text_ascii (l : list ascii) :
  Forall (λ c, (N_of_ascii c < 0x80)%N) l ->
  map Py.ascii_of_code_point (Py.code_points l) = l.
Proof.
  induction 1 as [| c l Hc _ IH]; [reflexivity |].
  cbn [Py.code_points]. cbv zeta.
  destruct (N.ltb_spec (N_of_ascii c) 0x80) as [_ | H]; [| lia].
  cbn [map]. rewrite IH. f_equal.
  unfold Py.ascii_of_code_point.
  destruct (N.ltb_spec (N_of_ascii c) 0x80) as [_ | H]; [| lia].
  apply ascii_N_embedding.
Qed.

Lemma lstrip_no_space (l : list ascii) :
  Forall (λ c, Py.is_space c = false) l -> Py.lstrip l = l.
Proof. destruct 1 as [| c l Hc _]; cbn; [| rewrite Hc]; reflexivity. Qed.

Lemma strip_no_space (l : list ascii) :
  Forall (λ c, Py.is_space c = false) l -> Py.strip l = l.
Proof.
  intros H. unfold Py.strip. rewrite (lstrip_no_space l H).
  rewrite lstrip_no_space by (apply Forall_rev; exact H).
  apply rev_involutive.
Qed.

Lemma pretty_N_char_digit (d : N) :
  (d < 10)%N ->
  Py.is_digit (pretty_N_char d) = true /\ Py.digit_val (pretty_N_char d) = Z.of_N d.
Proof.
  intros Hd.
  assert (H : (d = 0 \/ d = 1 \/ d = 2 \/ d = 3 \/ d = 4 \/ d = 5 \/ d = 6
               \/ d = 7 \/ d = 8 \/ d = 9)%N) by lia.
  repeat (destruct H as [-> | H]; [split; reflexivity |]). subst d. split; reflexivity.
Qed.

Lemma pretty_N_go_digits (x : N) :
  (0 < x)%N ->
  exists m : Z,
    forall (s : string) (acc : Z) (b : bool),
      Py.digits acc b (list_ascii_of_string (pretty_N_go x s))
      = Py.digits (acc * m + Z.of_N x) true (list_ascii_of_string s).
Proof.
  induction (N.lt_wf_0 x) as [x _ IH]. intros Hx.
  destruct (pretty_N_char_digit (x `mod` 10)%N) as [Hdig Hval];
    [apply N.mod_lt; lia |].
  assert (Hdm : Z.of_N x = 10 * Z.of_N (x `div` 10)%N + Z.of_N (x `mod` 10)%N).
  { rewrite (N.div_mod x 10) at 1 by lia. lia. }
  destruct (N.eq_dec (x `div` 10)%N 0%N) as [Hz | Hnz].
  - exists 10. intros s acc b. rewrite pretty_N_go_step by exact Hx.
    rewrite Hz, pretty_N_go_0. cbn [list_ascii_of_string Py.digits].
    rewrite Hdig, Hval. rewrite Hz in Hdm. change (Z.of_N 0) with 0 in Hdm.
    f_equal. clear -Hdm. generalize dependent (Z.of_N (x `mod` 10)%N).
    generalize (Z.of_N x). intros. lia.
  - destruct (IH (x `div` 10)%N) as [m Hm];
      [apply N.div_lt; lia | apply N.neq_0_lt_0; exact Hnz |].
    exists (10 * m). intros s acc b. rewrite pretty_N_go_step by exact Hx.
    rewrite Hm. cbn [list_ascii_of_string Py.digits].
    rewrite Hdig, Hval.
    f_equal. clear -Hdm. generalize dependent (Z.of_N (x `mod` 10)%N).
    generalize dependent (Z.of_N (x `div` 10)%N).
    generalize (Z.of_N x). intros. lia.
Qed.

Lemma pretty_N_go_all_digits (x : N) (s : string) :
  Forall (λ c, Py.is_digit c = true) (list_ascii_of_string s) ->
  Forall (λ c, Py.is_digit c = true) (list_ascii_of_string (pretty_N_go x s)).
Proof.
  revert s. induction (N.lt_wf_0 x) as [x _ IH]. intros s Hs.
  destruct (N.eq_dec x 0%N) as [-> | Hx]; [rewrite pretty_N_go_0; exact Hs |].
  rewrite pretty_N_go_step by lia. apply IH; [apply N.div_lt; lia |].
  cbn [list_ascii_of_string]. constructor; [| exact Hs].
  apply pretty_N_char_digit, N.mod_lt. lia.
Qed.

Lemma pretty_N_go_nonempty (x : N) (s : string) :
  (0 < x)%N -> list_ascii_of_string (pretty_N_go x s) <> [].
Proof.
  revert s. induction (N.lt_wf_0 x) as [x _ IH]. intros s Hx.
  rewrite pretty_N_go_step by exact Hx.
  destruct (N.eq_dec (x `div` 10)%N 0%N) as [Hz | Hnz].
  - rewrite Hz, pretty_N_go_0. discriminate.
  - apply IH; [apply N.div_lt; lia | apply N.neq_0_lt_0; exact Hnz].
Qed.

(** A number below [10 ^ n] is written with at most [n] digits. *)
Lemma pretty_N_go_length (n : nat) (x : N) (s : string) :
  (x < 10 ^ N.of_nat n)%N ->
  (length (list_ascii_of_string (pretty_N_go x s))
   <= n + length (list_ascii_of_string s))%nat.
Proof.
  revert x s. induction n as [| n IH]; intros x s Hx.
  - change (10 ^ N.of_nat 0)%N with 1%N in Hx.
    assert (x = 0%N) as -> by lia. rewrite pretty_N_go_0. lia.
  - destruct (N.eq_dec x 0%N) as [-> | Hnz]; [rewrite pretty_N_go_0; lia |].
    rewrite pretty_N_go_step by lia.
    etransitivity; [apply IH |].
    + rewrite Nat2N.inj_succ, N.pow_succ_r' in Hx.
      apply N.Div0.div_lt_upper_bound. exact Hx.
    + cbn [list_ascii_of_string length]. lia.
Qed.

Lemma digit_limit_ok (l : list ascii) :
  (length l <= Py.int_max_str_digits)%nat ->
  (Py.int_max_str_digits <? length (List.filter Py.is_digit l))%nat = false.
Proof.
  intros H. apply Nat.ltb_ge.
  etransitivity; [apply List.filter_length_le | exact H].
Qed.

Lemma int_of_digits (l : list ascii) :
  Forall (λ c, Py.is_digit c = true) l -> l <> [] ->
  (length l <= Py.int_max_str_digits)%nat ->
  forall s : string, list_ascii_of_string s = l ->
  Py.int_of_str s = Py.digits 0 false l.
Proof.
  intros Hall Hne Hlen s Hs. unfold Py.int_of_str, Py.ascii_text. cbv zeta. rewrite Hs.
  rewrite ascii_text_ascii
    by (eapply Forall_impl; [exact Hall | apply is_digit_ascii]).
  rewrite strip_no_space
    by (eapply Forall_impl; [exact Hall | apply is_digit_not_space]).
  rewrite digit_limit_ok by exact Hlen.
  destruct l as [| c l]; [contradiction |].
  apply Forall_cons in Hall as [Hc _].
  destruct c as [[] [] [] [] [] [] [] []]; try discriminate Hc; reflexivity.
Qed.

Lemma int_of_str_pretty_pos (p : positive) :
  (N.pos p < 10 ^ N.of_nat Py.int_max_str_digits)%N ->
  Py.int_of_str (pretty (N.pos p)) = Some (Z.pos p)
  /\ Py.digits 0 false (list_ascii_of_string (pretty (N.pos p))) = Some (Z.pos p)
  /\ Forall (λ c, Py.is_digit c = true) (list_ascii_of_string (pretty (N.pos p)))
  /\ (length (list_ascii_of_string (pretty (N.pos p))) <= Py.int_max_str_digits)%nat.
Proof.
  intros Hlim.
  unfold pretty, pretty_N. destruct (decide (N.pos p = 0%N)) as [H | _]; [discriminate H |].
  destruct (pretty_N_go_digits (N.pos p)) as [m Hm]; [lia |].
  assert (Hall : Forall (λ c, Py.is_digit c = true)
                   (list_ascii_of_string (pretty_N_go (N.pos p) "")))
    by (apply pretty_N_go_all_digits; constructor).
  assert (Hd : Py.digits 0 false (list_ascii_of_string (pretty_N_go (N.pos p) ""))
               = Some (Z.pos p)).
  { rewrite Hm. cbn. reflexivity. }
  assert (Hlen : (length (list_ascii_of_string (pretty_N_go (N.pos p) ""))
                  <= Py.int_max_str_digits)%nat).
  { etransitivity; [apply pretty_N_go_length, Hlim |]. cbn [list_ascii_of_string length]. lia. }
  split; [| split; [| split]]; try assumption.
  rewrite (int_of_digits _ Hall (pretty_N_go_nonempty (N.pos p) "" eq_refl) Hlen _ eq_refl).
  exact Hd.
Qed.

Lemma int_of_str_pretty (z : Z) :
  Z.abs z < 10 ^ Z.of_nat Py.int_max_str_digits ->
  Py.int_of_str (pretty z) = Some z.
Proof.
  intros Hlim.
  assert (Hlim' : forall p, Z.pos p < 10 ^ Z.of_nat Py.int_max_str_digits ->
                            (N.pos p < 10 ^ N.of_nat Py.int_max_str_digits)%N).
  { intros p H. apply N2Z.inj_lt. rewrite N2Z.inj_pow, nat_N_Z. exact H. }
  destruct z as [| p | p].
  - reflexivity.
  - apply int_of_str_pretty_pos, Hlim', Hlim.
  - destruct (int_of_str_pretty_pos p (Hlim' p Hlim)) as (_ & Hd & Hall & Hlen).
    unfold pretty at 1, pretty_Z. unfold pretty at 1, pretty_positive.
    unfold Py.int_of_str, Py.ascii_text. cbv zeta.
    change (list_ascii_of_string ("-" +:+ pretty (N.pos p)))
      with ("-"%char :: list_ascii_of_string (pretty (N.pos p))).
    rewrite ascii_text_ascii.
    + rewrite strip_no_space.
      * change (List.filter Py.is_digit
                  ("-"%char :: list_ascii_of_string (pretty (N.pos p))))
          with (List.filter Py.is_digit (list_ascii_of_string (pretty (N.pos p)))).
        rewrite digit_limit_ok by exact Hlen.
        rewrite Hd. reflexivity.
      * constructor; [reflexivity |].
        eapply Forall_impl; [exact Hall | apply is_digit_not_space].
    + constructor; [reflexivity |].
      eapply Forall_impl; [exact Hall | apply is_digit_ascii].
Qed.

(** X27. An AQI delivered as the decimal text of an integer of at most
    4300 digits is read back as that integer and gets the severity of the
    integer itself. *)
Theorem aqi_text_like_number (float_repr : Q -> string) (z : Z) :
  Z.abs z < 10 ^ Z.of_nat Py.int_max_str_digits ->
  Py.int (VStr (Py.str float_repr (VInt z))) = Ok z
  /\ severity (aqi_value (VStr (Py.str float_repr (VInt z))))
     = severity (aqi_value (VInt z)).
Proof.
  intros Hlim.
  assert (H : Py.int (VStr (Py.str float_repr (VInt z))) = Ok z).
  { cbn [Py.str Py.int]. rewrite int_of_str_pretty by exact Hlim. reflexivity. }
  split; [exact H |]. unfold aqi_value. rewrite H. reflexivity.
Qed.

Lemma aqi_text_like_number_witness :
  Py.int (VStr (Py.str Runtime.float_repr (VInt 101))) = Ok 101
  /\ severity (aqi_value (VStr (Py.str Runtime.float_repr (VInt 101))))
     = severity (aqi_value (VInt 101)).
Proof.
  apply aqi_text_like_number.
  apply Z.lt_le_trans with (10 ^ 3); [reflexivity |].
  apply Z.pow_le_mono_r; [lia | unfold Py.int_max_str_digits; lia].
Defined.
